(** * Profiling-analysis scripts of oxidized-cryptolib: a shallow embedding

    The Python scripts under [src/] are embedded one module per script.
    Python values are modelled as follows:
    - [str] as [string]; labels and log lines are taken to be ASCII text, so
      [str.lower] is the ASCII lower-casing and [x in s] is the substring test;
    - [int] as [Z];
    - [float] as [Q]: exact rational arithmetic stands for the binary64
      operations, rounding is outside the model.  What the model keeps of
      the float semantics is that [/] raises [ZeroDivisionError] on a zero
      divisor and that an integer beyond the range of the floats raises
      [OverflowError] when it is converted.  No statement below rests on a
      float sum or quotient being exact: where rounding matters, the code is
      embedded on primitive floats (module [Binary64]), on which the numeric
      examples are run as well;
    - the dictionaries of the aggregation code as association lists in
      insertion order, which the stable sorts of the reports observe; the
      JSON payload of the statistics feed as stdpp's [gmap];
    - an exception as the [Raise] constructor of [res]. *)

From Stdlib Require Import ZArith QArith String Ascii List Lia Permutation Bool Sorted.
From Stdlib Require Import Floats.PrimFloat.
From stdpp Require Import gmap strings list fin_maps.

Local Open Scope string_scope.
Local Open Scope Z_scope.
Local Open Scope Q_scope.

(** ** Python prelude *)

Module Py.

(** Exceptions raised by the modelled fragments. *)
Inductive exn : Type :=
| ZeroDivisionError
| ValueError
| TypeError
| AttributeError
| OverflowError.

(** Result of a computation that may raise. *)
Inductive res (A : Type) : Type :=
| Ok (a : A)
| Raise (e : exn).
Arguments Ok {A} a.
Arguments Raise {A} e.

Definition bind {A B} (m : res A) (k : A -> res B) : res B :=
  match m with
  | Ok a => k a
  | Raise e => Raise e
  end.

Notation "'do' x <- m ; k" := (bind m (fun x => k))
  (at level 10, x name, m at level 100, k at level 200).

(** [for x in l: body] where the body may raise: the rows produced so far are
    lost with the exception, as the uncaught exception ends the script. *)
Fixpoint mapM {A B} (f : A -> res B) (l : list A) : res (list B) :=
  match l with
  | [] => Ok []
  | x :: l' => do y <- f x; do ys <- mapM f l'; Ok (y :: ys)
  end.

(** [for x in l: print(body(x))] where the body may raise: the rows printed
    before the exception stay printed, the uncaught exception ends the
    script. *)
Fixpoint for_each {A B} (body : A -> res B) (l : list A) : list B * option exn :=
  match l with
  | [] => ([], None)
  | x :: l' =>
      match body x with
      | Ok y => let '(ys, e) := for_each body l' in (y :: ys, e)
      | Raise e => ([], Some e)
      end
  end.

(** [sorted(l, key=key, reverse=True)]: stable, by decreasing key.  [le a b]
    is [key a <= key b]. *)
Section Sorting.
Context {A : Type} (le : A -> A -> bool).

(** [x] goes before the first element whose key is not above its own. *)
Fixpoint insert_desc (x : A) (l : list A) : list A :=
  match l with
  | [] => [x]
  | y :: l' => if le y x then x :: l else y :: insert_desc x l'
  end.

Fixpoint sorted_desc (l : list A) : list A :=
  match l with
  | [] => []
  | x :: l' => insert_desc x (sorted_desc l')
  end.

End Sorting.

(** [int(q)] on a float: truncation toward zero. *)
Definition int_of_float (q : Q) : Z := Z.quot (Qnum q) (Zpos (Qden q)).

(** ASCII white space, as [str.isspace] and [\s] see it. *)
Definition is_space (c : ascii) : bool :=
  let n := nat_of_ascii c in
  ((9 <=? n) && (n <=? 13) || (28 <=? n) && (n <=? 32))%nat.

Fixpoint lstrip (s : string) : string :=
  match s with
  | EmptyString => EmptyString
  | String c s' => if is_space c then lstrip s' else s
  end.

Fixpoint rstrip (s : string) : string :=
  match s with
  | EmptyString => EmptyString
  | String c s' =>
      match rstrip s' with
      | EmptyString => if is_space c then EmptyString else String c EmptyString
      | r => String c r
      end
  end.

(** [s.strip()] *)
Definition strip (s : string) : string := rstrip (lstrip s).

(** [s[:n]] *)
Definition take_str (n : nat) (s : string) : string := String.substring 0 n s.

(** [a / b] on numbers: true division, raising on a zero divisor. *)
Definition truediv (a b : Q) : res Q :=
  if Qeq_bool b 0 then Raise ZeroDivisionError else Ok (a / b)%Q.

(** [c.lower()] on one ASCII character. *)
Definition lower_ascii (c : ascii) : ascii :=
  let n := nat_of_ascii c in
  if ((65 <=? n) && (n <=? 90))%nat then ascii_of_nat (n + 32) else c.

(** [s.lower()] *)
Fixpoint lower (s : string) : string :=
  match s with
  | EmptyString => EmptyString
  | String c s' => String (lower_ascii c) (lower s')
  end.

(** [sub in s] *)
Fixpoint contains (sub s : string) : bool :=
  String.prefix sub s ||
  match s with
  | EmptyString => false
  | String _ s' => contains sub s'
  end.

(** [any(x in s for x in keywords)] *)
Definition any_in (keywords : list string) (s : string) : bool :=
  existsb (fun x => contains x s) keywords.

(** [s.replace(old, new)] for a non-empty [old]: the occurrences are replaced
    from the left and do not overlap.  [skip] counts the characters of the
    current occurrence still to be dropped. *)
Fixpoint replace_from (old new : string) (skip : nat) (s : string) : string :=
  match s with
  | EmptyString => EmptyString
  | String c s' =>
      match skip with
      | S k => replace_from old new k s'
      | O =>
          if String.prefix old s
          then new ++ replace_from old new (String.length old - 1) s'
          else String c (replace_from old new O s')
      end
  end.

Definition replace (old new s : string) : string := replace_from old new O s.

(** [sum(l)] on integers and on floats. *)
Definition sumZ (l : list Z) : Z := fold_right Z.add 0%Z l.
Definition sumQ (l : list Q) : Q := fold_right Qplus 0 l.

(** [all(p(c) for c in s)] *)
Fixpoint all_chars (p : ascii -> bool) (s : string) : bool :=
  match s with
  | EmptyString => true
  | String c s' => p c && all_chars p s'
  end.

(** [s.split(sep)] for a one-character separator: the pieces between the
    separators, an empty piece after a final separator included. *)
Fixpoint split_on (sep : ascii) (s : string) : list string :=
  match s with
  | EmptyString => [EmptyString]
  | String c s' =>
      if Ascii.eqb c sep then EmptyString :: split_on sep s'
      else match split_on sep s' with
           | piece :: pieces => String c piece :: pieces
           | [] => [String c EmptyString]
           end
  end.

End Py.

Import Py.

(** ** Insertion-ordered dictionaries

    A Python [dict] keeps its keys in insertion order, and the reports sort
    the items of a dictionary with a stable sort, so the order is observable:
    the dictionaries of the aggregation code are association lists with
    unique keys, a new key going to the end. *)

Module Dict.

Section WithValue.
Context {V : Type}.

(** [d.get(k)] *)
Fixpoint get (k : string) (d : list (string * V)) : option V :=
  match d with
  | [] => None
  | (k', v) :: d' => if String.eqb k k' then Some v else get k d'
  end.

(** [d[k] = f(d[k])] on a [defaultdict] with default [dflt]: an absent key
    is first created with the default, at the end. *)
Fixpoint update (k : string) (f : V -> V) (dflt : V) (d : list (string * V))
  : list (string * V) :=
  match d with
  | [] => [(k, f dflt)]
  | (k', v) :: d' =>
      if String.eqb k k' then (k', f v) :: d' else (k', v) :: update k f dflt d'
  end.

(** [d.keys()] and [d.values()] *)
Definition keys (d : list (string * V)) : list string := map fst d.
Definition values (d : list (string * V)) : list V := map snd d.

End WithValue.

End Dict.

(** ** A backtracking matcher for the regular expressions of the scripts

    The patterns of the scripts use literals, character classes, greedy and
    lazy repetition of a class, optional parts, alternation and capturing
    groups.  [exec] explores the alternatives in the order of Python's [re]
    (greedy: longest first, lazy: shortest first, [|]: left first) and
    returns the first success.  Characters are ASCII: [\d] is [0-9], [\s] is
    the ASCII white space. *)

Module Re.

Inductive regex : Type :=
| Eps
| Chr (p : ascii -> bool)
| Seq (r1 r2 : regex)
| Alt (r1 r2 : regex)
| Rep (greedy : bool) (min : nat) (p : ascii -> bool)
| Opt (r : regex)
| Group (n : nat) (r : regex)
| Eos.

Definition chr_is (a : ascii) : ascii -> bool := fun b => Ascii.eqb a b.

Definition newline : ascii := ascii_of_nat 10.

(** Captured groups, most recent first. *)
Definition caps : Type := list (nat * string).

Fixpoint group (n : nat) (c : caps) : string :=
  match c with
  | [] => ""
  | (m, s) :: c' => if Nat.eqb n m then s else group n c'
  end.

(** [p{min,}] greedy: take as many characters as possible, give back one at
    a time.  [n] counts the characters matched so far. *)
Fixpoint rep_greedy {R} (p : ascii -> bool) (min : nat) (s : string) (n : nat)
    (k : string -> nat -> option R) : option R :=
  match s with
  | EmptyString => match min with O => k s n | S _ => None end
  | String c s' =>
      if p c then
        match rep_greedy p (Nat.pred min) s' (S n) k with
        | Some r => Some r
        | None => match min with O => k s n | S _ => None end
        end
      else match min with O => k s n | S _ => None end
  end.

(** [p{min,}?] lazy: take as few characters as possible, one more on
    failure. *)
Fixpoint rep_lazy {R} (p : ascii -> bool) (min : nat) (s : string) (n : nat)
    (k : string -> nat -> option R) : option R :=
  match min with
  | O =>
      match k s n with
      | Some r => Some r
      | None =>
          match s with
          | EmptyString => None
          | String c s' => if p c then rep_lazy p O s' (S n) k else None
          end
      end
  | S m =>
      match s with
      | EmptyString => None
      | String c s' => if p c then rep_lazy p m s' (S n) k else None
      end
  end.

(** [exec r s n c k]: match [r] at the start of [s], [n] characters into the
    match, with the groups [c] captured so far; [k] is what remains to be
    matched. *)
Fixpoint exec {R} (r : regex) (s : string) (n : nat) (c : caps)
    (k : string -> nat -> caps -> option R) : option R :=
  match r with
  | Eps => k s n c
  | Chr p =>
      match s with
      | EmptyString => None
      | String a s' => if p a then k s' (S n) c else None
      end
  | Seq r1 r2 => exec r1 s n c (fun s' n' c' => exec r2 s' n' c' k)
  | Alt r1 r2 =>
      match exec r1 s n c k with
      | Some x => Some x
      | None => exec r2 s n c k
      end
  | Rep true min p => rep_greedy p min s n (fun s' n' => k s' n' c)
  | Rep false min p => rep_lazy p min s n (fun s' n' => k s' n' c)
  | Opt r1 =>
      match exec r1 s n c k with
      | Some x => Some x
      | None => k s n c
      end
  | Group g r1 =>
      exec r1 s n c (fun s' n' c' => k s' n' ((g, String.substring 0 (n' - n) s) :: c'))
  | Eos =>
      (* [$]: the end of the text, or just before a final newline *)
      match s with
      | EmptyString => k s n c
      | String a EmptyString => if chr_is newline a then k s n c else None
      | _ => None
      end
  end.

(** A match anchored at the start of [s]: its length and its groups. *)
Definition match_at (r : regex) (s : string) : option (nat * caps) :=
  exec r s O [] (fun _ n c => Some (n, c)).

(** [re.search(r, s)]: the leftmost position with a match. *)
Fixpoint search (r : regex) (s : string) : option caps :=
  match match_at r s with
  | Some (_, c) => Some c
  | None =>
      match s with
      | EmptyString => None
      | String _ s' => search r s'
      end
  end.

(** [re.findall(r, s)] for a pattern that matches no empty text: the
    matches from left to right, each search starting where the previous
    match ended.  [skip] counts the characters of the last match still to be
    passed. *)
Fixpoint findall_from (r : regex) (skip : nat) (s : string) : list caps :=
  match s with
  | EmptyString => []
  | String _ s' =>
      match skip with
      | S k => findall_from r k s'
      | O =>
          match match_at r s with
          | Some (len, c) => c :: findall_from r (len - 1) s'
          | None => findall_from r O s'
          end
      end
  end.

Definition findall (r : regex) (s : string) : list caps := findall_from r O s.

(** [r.sub(repl, s)] for a constant [repl] and a pattern that matches no
    empty text. *)
Fixpoint sub_from (r : regex) (repl : string) (skip : nat) (s : string) : string :=
  match s with
  | EmptyString => EmptyString
  | String a s' =>
      match skip with
      | S k => sub_from r repl k s'
      | O =>
          match match_at r s with
          | Some (len, _) => repl ++ sub_from r repl (len - 1) s'
          | None => String a (sub_from r repl O s')
          end
      end
  end.

Definition sub (r : regex) (repl s : string) : string := sub_from r repl O s.

(** Pattern building blocks. *)
Definition between (lo hi : nat) : ascii -> bool :=
  fun b => let n := nat_of_ascii b in ((lo <=? n) && (n <=? hi))%nat.

Definition any : ascii -> bool := fun _ => true.

(** [.] without [re.DOTALL] *)
Definition not_newline : ascii -> bool := fun b => negb (chr_is newline b).

Definition digit : ascii -> bool := between 48 57.

Definition space : ascii -> bool := is_space.

Fixpoint lit (s : string) : regex :=
  match s with
  | EmptyString => Eps
  | String a s' => Seq (Chr (chr_is a)) (lit s')
  end.

Fixpoint seq (rs : list regex) : regex :=
  match rs with
  | [] => Eps
  | r :: rs' => Seq r (seq rs')
  end.

End Re.

(** ** What a pattern matches

    The declarative reading of the patterns, against which the matcher is
    proved sound: [matches r w rest c c'] says that [r] matches the text [w]
    when [rest] follows, taking the captured groups from [c] to [c']. *)

Module ReSem.

Import Re.

Inductive matches : regex -> string -> string -> caps -> caps -> Prop :=
| M_eps rest c : matches Eps "" rest c c
| M_chr p a rest c : p a = true -> matches (Chr p) (String a "") rest c c
| M_seq r1 r2 w1 w2 rest c c1 c2 :
    matches r1 w1 (w2 ++ rest) c c1 -> matches r2 w2 rest c1 c2 ->
    matches (Seq r1 r2) (w1 ++ w2) rest c c2
| M_alt_l r1 r2 w rest c c' : matches r1 w rest c c' -> matches (Alt r1 r2) w rest c c'
| M_alt_r r1 r2 w rest c c' : matches r2 w rest c c' -> matches (Alt r1 r2) w rest c c'
| M_rep greedy min p w rest c :
    all_chars p w = true -> (min <= String.length w)%nat ->
    matches (Rep greedy min p) w rest c c
| M_opt_some r w rest c c' : matches r w rest c c' -> matches (Opt r) w rest c c'
| M_opt_none r rest c : matches (Opt r) "" rest c c
| M_group g r w rest c c' :
    matches r w rest c c' -> matches (Group g r) w rest c ((g, w) :: c')
| M_eos rest c :
    rest = "" \/ rest = String newline "" -> matches Eos "" rest c c.

(** A pattern without capturing groups. *)
Fixpoint no_group (r : regex) : bool :=
  match r with
  | Eps | Chr _ | Rep _ _ _ | Eos => true
  | Seq r1 r2 | Alt r1 r2 => no_group r1 && no_group r2
  | Opt r1 => no_group r1
  | Group _ _ => false
  end.

(** A pattern that matches no empty text. *)
Fixpoint nonempty (r : regex) : bool :=
  match r with
  | Eps | Opt _ | Eos => false
  | Chr _ => true
  | Seq r1 r2 => nonempty r1 || nonempty r2
  | Alt r1 r2 => nonempty r1 && nonempty r2
  | Rep _ min _ => negb (Nat.eqb min 0)
  | Group _ r1 => nonempty r1
  end.

End ReSem.

(** ** Numerals *)

Module Num.

Definition digit_val (a : ascii) : Z := Z.of_nat (nat_of_ascii a) - 48.

(** Value of a string of decimal digits, most significant first. *)
Fixpoint digits_val (acc : Z) (s : string) : Z :=
  match s with
  | EmptyString => acc
  | String a s' => digits_val (10 * acc + digit_val a) s'
  end.

Fixpoint all_digits (s : string) : bool :=
  match s with
  | EmptyString => true
  | String a s' => Re.digit a && all_digits s'
  end.

(** [int(s)] on a text matched by [\d+]. *)
Definition int_of_digits (s : string) : Z := digits_val 0 s.

(** Split at the first dot. *)
Fixpoint split_dot (s : string) : string * option string :=
  match s with
  | EmptyString => (EmptyString, None)
  | String a s' =>
      if Ascii.eqb a "."%char then (EmptyString, Some s')
      else let '(i, f) := split_dot s' in (String a i, f)
  end.

(** [float(s)] on a text made of digits and dots, as matched by [[\d.]+] or
    [\d+\.\d+]: digits with at most one dot and at least one digit;
    otherwise Python raises [ValueError], here [None]. *)
Definition float_of_string (s : string) : option Q :=
  match split_dot s with
  | (i, None) =>
      if all_digits i && negb (String.eqb i "") then Some (inject_Z (digits_val 0 i))
      else None
  | (i, Some f) =>
      if all_digits i && all_digits f && negb (String.eqb (i ++ f) "")
      then Some (Qmake (digits_val 0 (i ++ f))
                       (Z.to_pos (10 ^ Z.of_nat (String.length f))))
      else None
  end.

End Num.

(** ** src/analyze_flamegraph.py *)

Module AnalyzeFlamegraph.

Import Re.

(** A parsed sample [(func_name, samples, pct)]. *)
Definition sample : Type := string * Q * Q.

(** The pattern of [parse_flamegraph], line 16:
    [<title>([^<]+?)\s+\((\d+(?:\.\d+)?)\s+samples?,\s+([\d.]+)%\)</title>] *)
Definition pattern : regex :=
  seq [ lit "<title>";
        Group 1 (Rep false 1 (fun a => negb (chr_is "<" a)));
        Rep true 1 space;
        lit "(";
        Group 2 (Seq (Rep true 1 digit) (Opt (Seq (lit ".") (Rep true 1 digit))));
        Rep true 1 space;
        lit "sample"; Opt (lit "s"); lit ",";
        Rep true 1 space;
        Group 3 (Rep true 1 (fun a => digit a || chr_is "." a));
        lit "%)</title>" ].

(** [parse_flamegraph], lines 9-30, on the content of the file.  A match
    whose numbers do not parse is skipped ([except ValueError: continue]);
    the label is kept as matched. *)
Definition parse_match (c : caps) : option sample :=
  match Num.float_of_string (group 2 c), Num.float_of_string (group 3 c) with
  | Some samples, Some pct => Some (group 1 c, samples, pct)
  | _, _ => None
  end.

Definition parse_flamegraph (content : string) : list sample :=
  omap parse_match (findall pattern content).

(** The taxonomy of [categorize_functions], lines 38-55, as the chain of
    [if]/[elif] tests of the loop body. *)
Definition category_of (func : string) : string :=
  if contains "fuser::" func || contains "fuse_" func then "FUSE Layer"
  else if contains "oxcrypt_core::" func || contains "oxcrypt_" func then "Crypto Core"
  else if contains "encrypt" (lower func) || contains "decrypt" (lower func)
       then "Encryption/Decryption"
  else if contains "aes" (lower func) || contains "gcm" (lower func)
          || contains "siv" (lower func) then "AES Primitives"
  else if contains "tokio::" func || contains "async" (lower func) then "Async Runtime"
  else if contains "std::io" func || contains "::fs::" func then "I/O Operations"
  else if contains "dashmap" (lower func) || contains "cache" (lower func) then "Caching"
  else if contains "lock" (lower func) || contains "mutex" (lower func)
       then "Synchronization"
  else "Other".

(** A value of the [categories] dictionary:
    [{'samples': ..., 'functions': [...]}]. *)
Record bucket : Type := { samples : Q; functions : list sample }.

Definition empty_bucket : bucket := {| samples := 0; functions := [] |}.

(** One turn of the loop of [categorize_functions], lines 36-58. *)
Definition add_function (categories : list (string * bucket)) (f : sample)
  : list (string * bucket) :=
  let '(func, n, pct) := f in
  Dict.update (category_of func)
    (fun b => {| samples := samples b + n; functions := functions b ++ [f] |})
    empty_bucket categories.

(** [categorize_functions], lines 32-60. *)
Definition categorize_functions (fs : list sample) : list (string * bucket) :=
  fold_left add_function fs [].

(** [sum(f[1] for f in functions)] *)
Definition total_samples (fs : list sample) : Q :=
  fold_left (fun acc f => acc + snd (fst f)) fs 0.

(** What [print_analysis] prints, lines 62-94. *)
Record top_row : Type :=
  { top_rank : nat; top_pct : Q; top_samples : Q; top_name : string }.

Record category_row : Type :=
  { cat_name : string; cat_pct : Q; cat_samples : Q;
    cat_top_funcs : list (Q * string) }.

(** [func if len(func) <= width else func[:width - 3] + '...'] *)
Definition display_name (width : nat) (func : string) : string :=
  if (String.length func <=? width)%nat then func
  else take_str (width - 3) func ++ "...".

Definition by_samples (a b : sample) : bool := Qle_bool (snd (fst a)) (snd (fst b)).

Fixpoint top_rows (i : nat) (fs : list sample) : list top_row :=
  match fs with
  | [] => []
  | (func, n, pct) :: fs' =>
      {| top_rank := i; top_pct := pct; top_samples := n;
         top_name := display_name 70 func |} :: top_rows (S i) fs'
  end.

(** The percentage of line 86:
    [(data['samples'] / total_samples * 100) if total_samples > 0 else 0]. *)
Definition percentage (count total : Q) : res Q :=
  if Qlt_le_dec 0 total then (do q <- truediv count total; Ok (q * 100)) else Ok 0.

Definition category_line (total : Q) (item : string * bucket) : res category_row :=
  let '(category, data) := item in
  do pct <- percentage (samples data) total;
  Ok {| cat_name := category; cat_pct := pct; cat_samples := samples data;
        cat_top_funcs :=
          map (fun f : sample => (snd f, display_name 60 (fst (fst f))))
              (firstn 3 (sorted_desc by_samples (functions data))) |}.

Definition print_analysis (fs : list sample) (top_n : nat)
  : list top_row * (list category_row * option exn) :=
  let sorted_funcs := sorted_desc by_samples fs in
  let categories := categorize_functions fs in
  let total := total_samples fs in
  let sorted_cats :=
    sorted_desc (fun a b : string * bucket => Qle_bool (samples (snd a)) (samples (snd b)))
                categories in
  (top_rows 1 (firstn top_n sorted_funcs), for_each (category_line total) sorted_cats).

End AnalyzeFlamegraph.

(** ** src/scripts/analyze_flamegraph_simple.py *)

Module AnalyzeFlamegraphSimple.

Import Re.

(** A hotspot: [{'name': ..., 'samples': ..., 'percentage': ...}]. *)
Record hotspot : Type := { name : string; samples : Z; percentage : Q }.

(** The pattern of [extract_hotspots], line 18:
    [title>([^<]*?)\s*\((\d+) samples?,\s*([\d.]+)%\)] *)
Definition pattern : regex :=
  seq [ lit "title>";
        Group 1 (Rep false 0 (fun a => negb (chr_is "<" a)));
        Rep true 0 space;
        lit "(";
        Group 2 (Rep true 1 digit);
        lit " sample"; Opt (lit "s"); lit ",";
        Rep true 0 space;
        Group 3 (Rep true 1 (fun a => digit a || chr_is "." a));
        lit "%)" ].

(** Line 24: the three [replace] calls that decode the entities. *)
Definition decode_entities (func_name : string) : string :=
  replace "&amp;" "&" (replace "&gt;" ">" (replace "&lt;" "<" func_name)).

(** Specification side: the entity encoding of a label, character by
    character, that the decoding is meant to undo.  The flags say which of
    [<], [>] and [&] are encoded. *)
Definition escape_char (lt gt amp : bool) (c : ascii) : string :=
  if lt && Ascii.eqb c "<" then "&lt;"
  else if gt && Ascii.eqb c ">" then "&gt;"
  else if amp && Ascii.eqb c "&" then "&amp;"
  else String c EmptyString.

Fixpoint escape_with (lt gt amp : bool) (s : string) : string :=
  match s with
  | EmptyString => EmptyString
  | String c s' => escape_char lt gt amp c ++ escape_with lt gt amp s'
  end.

Definition escape (label : string) : string := escape_with true true true label.

(** The body of the loop of lines 22-29; [float] raises [ValueError] on a
    percentage text such as [1.2.3], and nothing catches it. *)
Definition hotspot_of_match (c : caps) : res hotspot :=
  let func_name := decode_entities (group 1 c) in
  match Num.float_of_string (group 3 c) with
  | Some pct =>
      Ok {| name := func_name; samples := Num.int_of_digits (group 2 c);
            percentage := pct |}
  | None => Raise ValueError
  end.

(** [extract_hotspots], lines 10-34, on the content of the file. *)
Definition extract_hotspots (content : string) : res (list hotspot) :=
  do hotspots <- mapM hotspot_of_match (findall pattern content);
  Ok (sorted_desc (fun a b => Z.leb (samples a) (samples b)) hotspots).

(** [categorize], lines 36-59. *)
Definition categorize (func_name : string) : string :=
  let name_lower := lower func_name in
  if contains "__pthread_cond_wait" name_lower || contains "cond_wait" name_lower
  then "Lock Wait"
  else if contains "pthread" name_lower || contains "mutex" name_lower
          || contains "lock" name_lower
  then "Synchronization"
  else if contains "moka" name_lower || contains "cache" name_lower
          || contains "evict" name_lower
  then "Cache"
  else if contains "tokio::runtime::task" name_lower || contains "run_task" name_lower
          || contains "poll" name_lower
  then "Async/Task"
  else if contains "spawn" name_lower || contains "blocking" name_lower
  then "Task Spawning"
  else if contains "encrypt" name_lower || contains "decrypt" name_lower
          || contains "gcm" name_lower || contains "siv" name_lower
  then "Encryption"
  else if contains "write" name_lower && contains "operations" name_lower
  then "Write Operations"
  else if contains "read" name_lower && contains "operations" name_lower
  then "Read Operations"
  else if contains "getattr" name_lower || contains "lookup" name_lower
          || contains "stat" name_lower
  then "Metadata Ops"
  else "Other".

(** One turn of the loop of lines 98-100 over the [defaultdict(int)]. *)
Definition add_hotspot (categories : list (string * Z)) (h : hotspot)
  : list (string * Z) :=
  Dict.update (categorize (name h)) (fun n => (n + samples h)%Z) 0%Z categories.

Definition category_totals (hotspots : list hotspot) : list (string * Z) :=
  fold_left add_hotspot hotspots [].

(** [sum(h['samples'] for h in hotspots)], line 74. *)
Definition total_samples (hotspots : list hotspot) : Z :=
  fold_left (fun acc h => (acc + samples h)%Z) hotspots 0%Z.

(** The samples of the hotspots that [categorize] sends to [c]. *)
Definition samples_in (c : string) (hs : list hotspot) : Z :=
  sumZ (map samples (List.filter (fun h => String.eqb c (categorize (name h))) hs)).

(** [(samples / total_samples * 100)], lines 109 and 120-125: no guard. *)
Definition percent_of (count total : Z) : res Q :=
  do q <- truediv (inject_Z count) (inject_Z total); Ok (q * 100).

Record top_row : Type :=
  { top_rank : nat; top_pct : Q; top_samples : Z; top_name : string }.

Record category_row : Type :=
  { cat_name : string; cat_pct : Q; cat_samples : Z; cat_bar : Z }.

Fixpoint top_rows (i : nat) (hs : list hotspot) : list top_row :=
  match hs with
  | [] => []
  | h :: hs' =>
      {| top_rank := i; top_pct := percentage h; top_samples := samples h;
         top_name := if (75 <? String.length (name h))%nat
                     then take_str 75 (name h) else name h |}
      :: top_rows (S i) hs'
  end.

(** The body of the loop of lines 108-111. *)
Definition category_line (total : Z) (item : string * Z) : res category_row :=
  let '(cat, n) := item in
  do pct <- percent_of n total;
  Ok {| cat_name := cat; cat_pct := pct; cat_samples := n;
        cat_bar := int_of_float (pct / 2) |}.

(** [categories.get(cat, 0)] *)
Definition get0 (cat : string) (categories : list (string * Z)) : Z :=
  match Dict.get cat categories with Some n => n | None => 0%Z end.

(** The key metrics of lines 120-125 and the threshold of line 131. *)
Record findings : Type :=
  { lock_wait_pct : Q; sync_pct : Q; cache_pct : Q; async_pct : Q;
    crypto_pct : Q; io_pct : Q; primary_bottleneck : bool }.

Definition key_metrics (categories : list (string * Z)) (total : Z) : res findings :=
  do lock_wait <- percent_of (get0 "Lock Wait" categories) total;
  do sync <- percent_of (get0 "Synchronization" categories) total;
  do cache <- percent_of (get0 "Cache" categories) total;
  do async1 <- percent_of (get0 "Async/Task" categories) total;
  do async2 <- percent_of (get0 "Task Spawning" categories) total;
  do crypto <- percent_of (get0 "Encryption" categories) total;
  do io1 <- percent_of (get0 "Write Operations" categories) total;
  do io2 <- percent_of (get0 "Read Operations" categories) total;
  Ok {| lock_wait_pct := lock_wait; sync_pct := sync; cache_pct := cache;
        async_pct := async1 + async2; crypto_pct := crypto; io_pct := io1 + io2;
        primary_bottleneck := negb (Qle_bool lock_wait 20) |}.

(** What a run of [main] shows. *)
Inductive output : Type :=
| Nothing
| FileNotFound
| NoHotspots
| Report (total : Z) (top : list top_row) (cats : list category_row)
         (found : option findings).

(** [main], lines 61-187, on the content of the artifact ([None]: the file
    does not exist).  An exception ends the run; the rows already printed
    stay in the output. *)
Definition main (file : option string) : output * option exn :=
  match file with
  | None => (FileNotFound, None)
  | Some content =>
      match extract_hotspots content with
      | Raise e => (Nothing, Some e)
      | Ok [] => (NoHotspots, None)
      | Ok hotspots =>
          let total := total_samples hotspots in
          let top := top_rows 1 (firstn 25 hotspots) in
          let categories := category_totals hotspots in
          let sorted_cats :=
            sorted_desc (fun a b : string * Z => Z.leb (snd a) (snd b)) categories in
          match for_each (category_line total) sorted_cats with
          | (rows, Some e) => (Report total top rows None, Some e)
          | (rows, None) =>
              match key_metrics categories total with
              | Ok f => (Report total top rows (Some f), None)
              | Raise e => (Report total top rows None, Some e)
              end
          end
      end
  end.

End AnalyzeFlamegraphSimple.

(** ** src/scripts/extract_flamegraph_hotspots.py *)

Module ExtractFlamegraphHotspots.

Import Re.

(** [\((\d+) samples], line 42. *)
Definition samples_pattern : regex :=
  seq [ lit "("; Group 1 (Rep true 1 digit); lit " samples" ].

(** [\s*\(\d+ samples.*$], line 46. *)
Definition suffix_pattern : regex :=
  seq [ Rep true 0 space; lit "("; Rep true 1 digit; lit " samples";
        Rep true 0 not_newline; Eos ].

(** One turn of the loop of lines 33-47 over [function_times], a
    [defaultdict(float)]; [text] is the [.text] of a [<title>] element. *)
Definition add_title (function_times : list (string * Q)) (text : option string)
  : list (string * Q) :=
  match text with
  | None | Some EmptyString => function_times
  | Some func_text =>
      let func_text := strip func_text in
      match search samples_pattern func_text with
      | Some c =>
          let n := Num.int_of_digits (group 1 c) in
          let func_name := sub suffix_pattern "" func_text in
          Dict.update func_name (fun t => t + inject_Z n) 0 function_times
      | None => function_times
      end
  end.

(** [extract_flamegraph_data], lines 14-59.  The XML parser is the
    library's: the argument is the list of the texts of the [<title>]
    elements in document order, [None] when parsing raises, in which case
    the function prints the error and returns the empty list. *)
Definition extract_flamegraph_data (titles : option (list (option string)))
  : list (string * Q) :=
  match titles with
  | None => []
  | Some ts =>
      sorted_desc (fun a b : string * Q => Qle_bool (snd a) (snd b))
                  (fold_left add_title ts [])
  end.

(** The count that a title adds to [function_times]: the number matched at
    line 42, nothing for a title without text or without a sample count. *)
Definition title_samples (text : option string) : Q :=
  match text with
  | None | Some EmptyString => 0
  | Some func_text =>
      match search samples_pattern (strip func_text) with
      | Some c => inject_Z (Num.int_of_digits (group 1 c))
      | None => 0
      end
  end.

(** [categorize_function], lines 61-80. *)
Definition categorize_function (func_name : string) : string :=
  let name_lower := lower func_name in
  if any_in ["pthread"; "cond_wait"; "wait"; "lock"; "mutex"; "futex"] name_lower
  then "Lock/Sync"
  else if any_in ["moka"; "cache"; "evict"; "insert"] name_lower
  then "Cache"
  else if any_in ["read"; "write"; "getattr"; "lookup"; "stat"] name_lower
  then "FUSE Ops"
  else if any_in ["encrypt"; "decrypt"; "aes"; "gcm"; "siv"; "crypto"] name_lower
  then "Crypto"
  else if any_in ["tokio"; "spawn"; "task"; "executor"; "park"] name_lower
  then "Async Runtime"
  else if any_in ["dashmap"; "dash"; "hashmap"; "map"] name_lower
  then "Data Structure"
  else if any_in ["arc"; "clone"; "drop"] name_lower
  then "Memory"
  else "Other".

(** [sum(count for _, count in functions)], line 101. *)
Definition total_samples (functions : list (string * Q)) : Q :=
  fold_left (fun acc f => acc + snd f) functions 0.

(** [(samples / total_samples * 100)], lines 112 and 135: no guard. *)
Definition percent_of (count total : Q) : res Q :=
  do q <- truediv count total; Ok (q * 100).

(** [(... / total_samples * 100) if total_samples > 0 else 0], lines
    145-149. *)
Definition guarded_percent_of (count total : Q) : res Q :=
  if Qlt_le_dec 0 total then percent_of count total else Ok 0.

Record top_row : Type :=
  { top_rank : nat; top_pct : Q; top_name : string; top_samples : Q }.

Record category_row : Type := { cat_name : string; cat_pct : Q; cat_bar : Z }.

(** The body of the loop of lines 111-113, given the rank. *)
Definition top_line (total : Q) (f : nat * (string * Q)) : res top_row :=
  let '(i, (func_name, n)) := f in
  do pct <- percent_of n total;
  Ok {| top_rank := i; top_pct := pct; top_name := func_name; top_samples := n |}.

(** [enumerate(l, 1)] *)
Definition enumerate1 {A} (l : list A) : list (nat * A) :=
  combine (List.seq 1%nat (length l)) l.

(** One turn of the loop of lines 122-124 over the [defaultdict(int)]. *)
Definition add_function (categories : list (string * Q)) (f : string * Q)
  : list (string * Q) :=
  Dict.update (categorize_function (fst f)) (fun n => n + snd f) 0 categories.

Definition category_totals (functions : list (string * Q)) : list (string * Q) :=
  fold_left add_function functions [].

(** The body of the loop of lines 134-137. *)
Definition category_line (total : Q) (item : string * Q) : res category_row :=
  let '(category, n) := item in
  do pct <- percent_of n total;
  Ok {| cat_name := category; cat_pct := pct; cat_bar := int_of_float (pct / 2) |}.

Definition get0 (cat : string) (categories : list (string * Q)) : Q :=
  match Dict.get cat categories with Some n => n | None => 0 end.

(** The percentages of lines 145-149 and the thresholds of lines 170-197. *)
Record findings : Type :=
  { lock_sync_pct : Q; cache_pct : Q; crypto_pct : Q; fuse_ops_pct : Q;
    async_pct : Q;
    high_lock_contention : bool; cache_bottleneck : bool;
    crypto_significant : bool; fuse_significant : bool; async_significant : bool }.

Definition gt (a b : Q) : bool := negb (Qle_bool a b).

Definition key_findings (categories : list (string * Q)) (total : Q) : res findings :=
  do lock_sync <- guarded_percent_of (get0 "Lock/Sync" categories) total;
  do cache <- guarded_percent_of (get0 "Cache" categories) total;
  do crypto <- guarded_percent_of (get0 "Crypto" categories) total;
  do fuse_ops <- guarded_percent_of (get0 "FUSE Ops" categories) total;
  do async <- guarded_percent_of (get0 "Async Runtime" categories) total;
  Ok {| lock_sync_pct := lock_sync; cache_pct := cache; crypto_pct := crypto;
        fuse_ops_pct := fuse_ops; async_pct := async;
        high_lock_contention := gt lock_sync 30;
        cache_bottleneck := gt cache 15 && gt cache crypto;
        crypto_significant := gt crypto 20;
        fuse_significant := gt fuse_ops 20;
        async_significant := gt async 20 |}.

Inductive output : Type :=
| FlamegraphNotFound
| CouldNotExtract
| Report (total : Q) (top : list top_row) (cats : list category_row)
         (found : option findings).

(** [main], lines 82-202: [exists] is [svg_file.exists()], [titles] what
    the XML parser gives for the file. *)
Definition main (exists_ : bool) (titles : option (list (option string)))
  : output * option exn :=
  if negb exists_ then (FlamegraphNotFound, None)
  else
    match extract_flamegraph_data titles with
    | [] => (CouldNotExtract, None)
    | functions =>
        let total := total_samples functions in
        match for_each (top_line total) (enumerate1 (firstn 20 functions)) with
        | (top, Some e) => (Report total top [] None, Some e)
        | (top, None) =>
            let categories := category_totals functions in
            let sorted_categories :=
              sorted_desc (fun a b : string * Q => Qle_bool (snd a) (snd b)) categories in
            match for_each (category_line total) sorted_categories with
            | (rows, Some e) => (Report total top rows None, Some e)
            | (rows, None) =>
                match key_findings categories total with
                | Ok f => (Report total top rows (Some f), None)
                | Raise e => (Report total top rows None, Some e)
                end
            end
        end
    end.

End ExtractFlamegraphHotspots.

(** ** src/scripts/profile_concurrent.py *)

Module ProfileConcurrent.

(** What [json.loads] returns. *)
#[warnings="-register-all"] Inductive json : Type :=
| JNull
| JBool (b : bool)
| JInt (z : Z)
| JFloat (q : Q)
| JStr (s : string)
| JArr (l : list json)
| JObj (m : gmap string json).

(** The dataclass [StatsSnapshot], lines 20-34.  The annotations are not
    enforced: apart from the time stamp, a field holds whatever value the
    payload has under its key. *)
Record StatsSnapshot : Type :=
  { timestamp : Q;
    total_reads : json;
    total_writes : json;
    total_metadata_ops : json;
    bytes_read : json;
    bytes_written : json;
    read_latency_avg_ms : json;
    write_latency_avg_ms : json;
    metadata_latency_avg_ms : json;
    cache_hits : json;
    cache_misses : json;
    cache_entries : json;
    errors : json }.

(** [d.get(key, default)] *)
Definition get (d : gmap string json) (key : string) (default : json) : json :=
  match d !! key with
  | Some v => v
  | None => default
  end.

(** [stats.get('cache', {}).get(key, 0)]: the attribute [get] exists on a
    dictionary only. *)
Definition cache_get (stats : gmap string json) (key : string) : res json :=
  match get stats "cache" (JObj ∅) with
  | JObj cache => Ok (get cache key (JInt 0))
  | _ => Raise AttributeError
  end.

(** The constructor call of lines 73-87; [now] is [time.time()]. *)
Definition build_snapshot (now : Q) (stats : gmap string json) : res StatsSnapshot :=
  do hits <- cache_get stats "hits";
  do misses <- cache_get stats "misses";
  do entries <- cache_get stats "entries";
  Ok {| timestamp := now;
        total_reads := get stats "total_reads" (JInt 0);
        total_writes := get stats "total_writes" (JInt 0);
        total_metadata_ops := get stats "total_metadata_ops" (JInt 0);
        bytes_read := get stats "bytes_read" (JInt 0);
        bytes_written := get stats "bytes_written" (JInt 0);
        read_latency_avg_ms := get stats "read_latency_avg_ms" (JFloat 0);
        write_latency_avg_ms := get stats "write_latency_avg_ms" (JFloat 0);
        metadata_latency_avg_ms := get stats "metadata_latency_avg_ms" (JFloat 0);
        cache_hits := hits;
        cache_misses := misses;
        cache_entries := entries;
        errors := get stats "total_errors" (JInt 0) |}.

(** [extract_snapshot], lines 70-90: any exception is caught, reported and
    turned into [None]. *)
Definition extract_snapshot (now : Q) (stats : gmap string json) : option StatsSnapshot :=
  match build_snapshot now stats with
  | Ok snap => Some snap
  | Raise _ => None
  end.

(** A value used as a number: [bool] is a subclass of [int]; anything else
    makes the arithmetic raise [TypeError]. *)
Definition number (v : json) : res Q :=
  match v with
  | JInt z => Ok (inject_Z z)
  | JFloat q => Ok q
  | JBool b => Ok (if b then 1 else 0)
  | _ => Raise TypeError
  end.

Definition is_number (v : json) : bool :=
  match v with
  | JInt _ | JFloat _ | JBool _ => true
  | _ => false
  end.

(** The numeric value of a number (0 for anything else). *)
Definition as_Q (v : json) : Q :=
  match number v with
  | Ok q => q
  | Raise _ => 0
  end.

(** [float(n)] on an integer, as the arithmetic and the float format
    convert it: the nearest binary64 number, [OverflowError] for an integer
    that rounds beyond the largest one.  The rounding itself is outside the
    model. *)
Definition float_of_int (z : Z) : res Q :=
  if (Z.abs z <? 2 ^ 1024 - 2 ^ 970)%Z then Ok (inject_Z z) else Raise OverflowError.

(** [f"{v:>8.2f}"]: the float format applies to numbers, an integer being
    converted to a float first; a string makes it raise [ValueError],
    anything else [TypeError]. *)
Definition format_float (v : json) : res json :=
  match v with
  | JInt z => do _ <- float_of_int z; Ok v
  | JFloat _ | JBool _ => Ok v
  | JStr _ => Raise ValueError
  | _ => Raise TypeError
  end.

(** [f"{v:>8}"]: numbers and strings take a width, [None], lists and
    dictionaries raise [TypeError]. *)
Definition format_width (v : json) : res json :=
  match v with
  | JInt _ | JFloat _ | JBool _ | JStr _ => Ok v
  | _ => Raise TypeError
  end.

(** The fields of a snapshot have the types the dataclass declares for
    them: numbers for the counters and the latencies. *)
Definition well_typed (s : StatsSnapshot) : bool :=
  is_number (total_reads s) && is_number (total_writes s)
  && is_number (total_metadata_ops s) && is_number (bytes_read s)
  && is_number (bytes_written s)
  && is_number (read_latency_avg_ms s) && is_number (write_latency_avg_ms s)
  && is_number (metadata_latency_avg_ms s)
  && is_number (cache_hits s) && is_number (cache_misses s)
  && is_number (cache_entries s) && is_number (errors s).

(** An integer that converts to a float with room to spare, so that the
    difference of two such integers converts as well; floats and booleans
    always do. *)
Definition float_sized (v : json) : bool :=
  match v with
  | JInt z => (Z.abs z <? 2 ^ 1022)%Z
  | _ => true
  end.

(** The fields that the loop computes with or formats as floats hold
    integers that convert to floats. *)
Definition in_float_range (s : StatsSnapshot) : bool :=
  float_sized (total_reads s) && float_sized (total_writes s)
  && float_sized (total_metadata_ops s) && float_sized (bytes_read s)
  && float_sized (read_latency_avg_ms s) && float_sized (write_latency_avg_ms s)
  && float_sized (metadata_latency_avg_ms s)
  && float_sized (cache_hits s) && float_sized (cache_misses s).

(** A number in arithmetic: an [int] ([bool] included) or a [float]. *)
Inductive num : Type :=
| NInt (z : Z)
| NFloat (q : Q).

Definition as_num (v : json) : option num :=
  match v with
  | JInt z => Some (NInt z)
  | JBool b => Some (NInt (if b then 1 else 0))
  | JFloat q => Some (NFloat q)
  | _ => None
  end.

(** [a - b]: exact on two integers; with a float, the integer is converted
    to a float first; [TypeError] for anything that is not a number. *)
Definition subtract (a b : json) : res num :=
  match as_num a, as_num b with
  | Some (NInt x), Some (NInt y) => Ok (NInt (x - y))
  | Some (NInt x), Some (NFloat q) => do f <- float_of_int x; Ok (NFloat (f - q))
  | Some (NFloat p), Some (NInt y) => do f <- float_of_int y; Ok (NFloat (p - f))
  | Some (NFloat p), Some (NFloat q) => Ok (NFloat (p - q))
  | _, _ => Raise TypeError
  end.

(** [x / dt] for a float [dt]: an integer [x] is converted to a float
    before the divisor is tested. *)
Definition divide (x : num) (dt : Q) : res Q :=
  do f <- match x with
          | NInt z => float_of_int z
          | NFloat q => Ok q
          end;
  truediv f dt.

(** [(cur - prev) / dt], lines 140-143. *)
Definition rate (cur prev : json) (dt : Q) : res Q :=
  do d <- subtract cur prev;
  divide d dt.

(** The property [cache_hit_rate], lines 36-39. *)
Definition cache_hit_rate (s : StatsSnapshot) : res Q :=
  do h <- number (cache_hits s);
  do m <- number (cache_misses s);
  let total := h + m in
  if Qlt_le_dec 0 total then (do q <- truediv h total; Ok (q * 100)) else Ok 0.

(** One printed row, lines 145-151. *)
Record row : Type :=
  { elapsed : Z;
    reads_per_sec : Q; writes_per_sec : Q; meta_per_sec : Q; bytes_per_sec : Q;
    read_latency : json; write_latency : json; metadata_latency : json;
    hit_rate : Q; entries : json; error_count : json }.

(** Lines 137-151: the rates against the previous snapshot and the row, the
    fields of the f-string being formatted from left to right. *)
Definition rate_row (start_time : Q) (prev current : StatsSnapshot) : res row :=
  let dt := timestamp current - timestamp prev in
  do reads <- rate (total_reads current) (total_reads prev) dt;
  do writes <- rate (total_writes current) (total_writes prev) dt;
  do meta <- rate (total_metadata_ops current) (total_metadata_ops prev) dt;
  do bytes <- rate (bytes_read current) (bytes_read prev) dt;
  do read_lat <- format_float (read_latency_avg_ms current);
  do write_lat <- format_float (write_latency_avg_ms current);
  do meta_lat <- format_float (metadata_latency_avg_ms current);
  do hit <- cache_hit_rate current;
  do cache_size <- format_width (cache_entries current);
  do errs <- format_width (errors current);
  Ok {| elapsed := int_of_float (timestamp current - start_time);
        reads_per_sec := reads; writes_per_sec := writes; meta_per_sec := meta;
        bytes_per_sec := bytes;
        read_latency := read_lat; write_latency := write_lat;
        metadata_latency := meta_lat;
        hit_rate := hit; entries := cache_size; error_count := errs |}.

(** One poll of the feed: the value of [time.time()] when the snapshot is
    built and what [get_mount_stats] returned. *)
Definition poll : Type := Q * option (gmap string json).

(** One turn of the [while] loop, lines 123-154, from the state
    [prev_snapshot]: the row printed, if any, and the next state. *)
Definition step (start_time : Q) (prev_snapshot : option StatsSnapshot) (p : poll)
  : res (option row * option StatsSnapshot) :=
  let '(now, result) := p in
  match result with
  | None => Ok (None, prev_snapshot)
  | Some stats =>
      match extract_snapshot now stats with
      | None => Ok (None, prev_snapshot)
      | Some current =>
          match prev_snapshot with
          | None => Ok (None, Some current)
          | Some prev =>
              do r <- rate_row start_time prev current;
              Ok (Some r, Some current)
          end
      end
  end.

(** The loop over the polls that fall within the duration: the rows printed
    and the exception, if one ended the loop. *)
Fixpoint run (start_time : Q) (prev_snapshot : option StatsSnapshot) (polls : list poll)
  : list row * option exn :=
  match polls with
  | [] => ([], None)
  | p :: polls' =>
      match step start_time prev_snapshot p with
      | Raise e => ([], Some e)
      | Ok (r, next) =>
          let '(rows, e) := run start_time next polls' in
          (match r with Some x => x :: rows | None => rows end, e)
      end
  end.

(** The value of [prev_snapshot] when the loop ends. *)
Fixpoint last_snapshot (start_time : Q) (prev_snapshot : option StatsSnapshot)
    (polls : list poll) : res (option StatsSnapshot) :=
  match polls with
  | [] => Ok prev_snapshot
  | p :: polls' =>
      do r <- step start_time prev_snapshot p;
      last_snapshot start_time (snd r) polls'
  end.

(** The snapshot that a poll gives, lines 125-133: none when
    [get_mount_stats] or [extract_snapshot] returned [None]. *)
Definition snapshot_of (p : poll) : option StatsSnapshot :=
  match snd p with
  | Some stats => extract_snapshot (fst p) stats
  | None => None
  end.

(** [get_mount_stats], lines 41-68.  The command and the JSON parser are
    the library's: [returncode] and [stdout] are what [subprocess.run] gave
    ([None] when it raised, which the function reports), [loads] is
    [json.loads], [None] standing for [JSONDecodeError]. *)
Fixpoint first_json (loads : string -> option (gmap string json)) (lines : list string)
  : option (gmap string json) :=
  match lines with
  | [] => None
  | line :: lines' =>
      if String.prefix "{" line then
        match loads line with
        | Some stats => Some stats
        | None => first_json loads lines'
        end
      else first_json loads lines'
  end.

Definition get_mount_stats (loads : string -> option (gmap string json))
    (result : option (Z * string)) : option (gmap string json) :=
  match result with
  | None => None
  | Some (returncode, stdout) =>
      if negb (Z.eqb returncode 0) then None
      else first_json loads (split_on Re.newline stdout)
  end.

End ProfileConcurrent.

(** ** src/benchmarks/compare_results.py *)

Module CompareResults.

Import Re.

(** Line 12: [\x1B(?:[@-Z\\-_]|\[[0-?]*[ -/]*[@-~])] *)
Definition ansi_escape : regex :=
  Seq (Chr (chr_is (ascii_of_nat 27)))
      (Alt (Chr (fun a => between 64 90 a || between 92 95 a))
           (seq [ lit "["; Rep true 0 (between 48 63); Rep true 0 (between 32 47);
                  Chr (between 64 126) ])).

Definition number_re : regex := seq [ Rep true 1 digit; lit "."; Rep true 1 digit ].

Definition unit_re : regex := Rep true 1 (between 97 122).

(** Line 17, with [re.DOTALL]:
    [Time.*?mean.*?(\d+\.\d+)\s*([a-z]+).*?(\d+\.\d+)\s*([a-z]+)] *)
Definition timing_pattern : regex :=
  seq [ lit "Time"; Rep false 0 any; lit "mean"; Rep false 0 any;
        Group 1 number_re; Rep true 0 space; Group 2 unit_re;
        Rep false 0 any;
        Group 3 number_re; Rep true 0 space; Group 4 unit_re ].

(** Lines 24-39: both values in milliseconds.  A mean in another unit gives
    no result; a deviation in another unit is kept as it is. *)
Definition to_milliseconds (mean_val : Q) (mean_unit : string)
    (sigma_val : Q) (sigma_unit : string) : option (Q * Q) :=
  let sigma_ms :=
    if String.eqb sigma_unit "ms" then sigma_val
    else if String.eqb sigma_unit "s" then sigma_val * 1000
    else sigma_val in
  if String.eqb mean_unit "s" then Some (mean_val * 1000, sigma_ms)
  else if String.eqb mean_unit "ms" then Some (mean_val, sigma_ms)
  else None.

(** [extract_metrics], lines 5-42, on the content of the file ([None]: the
    file cannot be read, the exception is caught and reported). *)
Definition extract_metrics (file : option string) : option (Q * Q) :=
  match file with
  | None => None
  | Some content =>
      let clean_content := sub ansi_escape "" content in
      match search timing_pattern clean_content with
      | Some c =>
          match Num.float_of_string (group 1 c), Num.float_of_string (group 3 c) with
          | Some mean_val, Some sigma_val =>
              to_milliseconds mean_val (group 2 c) sigma_val (group 4 c)
          | _, _ => None
          end
      | None => None
      end
  end.

(** What the loop prints for one workload, lines 58-76. *)
Inductive report : Type :=
| Change (baseline phase1 : Q * Q) (improvement_ms improvement_pct : Q)
| CouldNotExtract (baseline phase1 : option (Q * Q)).

(** The body of the loop, lines 55-76.  A tuple is true whatever its
    components, so [baseline and phase1] holds as soon as both extractions
    returned a pair. *)
Definition compare (baseline phase1 : option (Q * Q)) : res report :=
  match baseline, phase1 with
  | Some (baseline_mean, baseline_sigma), Some (phase1_mean, phase1_sigma) =>
      do q <- truediv (baseline_mean - phase1_mean) baseline_mean;
      let improvement_pct := q * 100 in
      let improvement_ms := baseline_mean - phase1_mean in
      Ok (Change (baseline_mean, baseline_sigma) (phase1_mean, phase1_sigma)
                 improvement_ms improvement_pct)
  | _, _ => Ok (CouldNotExtract baseline phase1)
  end.

(** A workload with the contents of its two files. *)
Record workload : Type :=
  { wl_name : string; baseline_file : option string; phase1_file : option string }.

Definition compare_workload (w : workload) : res (string * report) :=
  do r <- compare (extract_metrics (baseline_file w)) (extract_metrics (phase1_file w));
  Ok (wl_name w, r).

(** What the loop is to print for a workload, given the two extractions
    (specification side): the change when both succeeded, the notice
    otherwise. *)
Definition expected_report (baseline phase1 : option (Q * Q)) : report :=
  match baseline, phase1 with
  | Some (baseline_mean, baseline_sigma), Some (phase1_mean, phase1_sigma) =>
      Change (baseline_mean, baseline_sigma) (phase1_mean, phase1_sigma)
             (baseline_mean - phase1_mean)
             ((baseline_mean - phase1_mean) / baseline_mean * 100)
  | _, _ => CouldNotExtract baseline phase1
  end.

(** The baseline mean of a workload, when both of its extractions succeed. *)
Definition compared_baseline (w : workload) : option Q :=
  match extract_metrics (baseline_file w), extract_metrics (phase1_file w) with
  | Some (baseline_mean, _), Some _ => Some baseline_mean
  | _, _ => None
  end.

(** No compared workload has a baseline mean of zero. *)
Definition nonzero_baselines (workloads : list workload) : bool :=
  forallb (fun w => match compared_baseline w with
                    | Some baseline_mean => negb (Qeq_bool baseline_mean 0)
                    | None => true
                    end) workloads.

(** The rows of a complete run (specification side). *)
Definition expected_rows (workloads : list workload) : list (string * report) :=
  map (fun w => (wl_name w,
                 expected_report (extract_metrics (baseline_file w))
                                 (extract_metrics (phase1_file w)))) workloads.

(** The module-level loop, lines 51-76. *)
Definition compare_all (workloads : list workload)
  : list (string * report) * option exn :=
  for_each compare_workload workloads.

End CompareResults.

(** ** Binary64 arithmetic

    Python's [float] is binary64.  The unit conversion and the change of the
    run comparison are restated on the machine operations, to run the
    numeric examples of the specification without the idealization of the
    rational model. *)

Module Binary64.

(** [compare_results.py], lines 24-39. *)
Definition to_milliseconds (mean_val : float) (mean_unit : string)
    (sigma_val : float) (sigma_unit : string) : option (float * float) :=
  let sigma_ms :=
    if String.eqb sigma_unit "ms" then sigma_val
    else if String.eqb sigma_unit "s" then PrimFloat.mul sigma_val 1000
    else sigma_val in
  if String.eqb mean_unit "s" then Some (PrimFloat.mul mean_val 1000, sigma_ms)
  else if String.eqb mean_unit "ms" then Some (mean_val, sigma_ms)
  else None.

(** [compare_results.py], lines 61-62: [(improvement_ms, improvement_pct)]
    for a baseline mean that is not zero. *)
Definition improvement (baseline_mean phase1_mean : float) : float * float :=
  (PrimFloat.sub baseline_mean phase1_mean,
   PrimFloat.mul (PrimFloat.div (PrimFloat.sub baseline_mean phase1_mean) baseline_mean)
                 100).

(** [analyze_flamegraph.py] on binary64 counts, as [float(samples_str)]
    gives them: [categorize_functions], lines 32-60, and the total of line
    81.  The sums start from the integer 0, which a float is added to as
    to 0.0. *)
Definition sample : Type := string * float * float.

Record bucket : Type := { samples : float; functions : list sample }.

Definition empty_bucket : bucket := {| samples := 0%float; functions := [] |}.

Definition add_function (categories : list (string * bucket)) (f : sample)
  : list (string * bucket) :=
  let '(func, n, pct) := f in
  Dict.update (AnalyzeFlamegraph.category_of func)
    (fun b => {| samples := PrimFloat.add (samples b) n;
                 functions := functions b ++ [f] |})
    empty_bucket categories.

Definition categorize_functions (fs : list sample) : list (string * bucket) :=
  fold_left add_function fs [].

Definition category_samples (categories : list (string * bucket)) : list float :=
  map (fun kb => samples (snd kb)) categories.

Definition members (categories : list (string * bucket)) : list sample :=
  concat (map (fun kb => functions (snd kb)) categories).

(** [sum(l)] on floats added from left to right, as CPython computes it up
    to version 3.11. *)
Definition float_sum (l : list float) : float := fold_left PrimFloat.add l 0%float.

(** [sum(l)] on floats as CPython computes it from version 3.12: the first
    float is added to the integer start, the others by Neumaier's
    compensated summation, the compensation being added at the end when it
    is finite and not zero. *)
Fixpoint neumaier (f_result c : float) (l : list float) : float :=
  match l with
  | [] =>
      if negb (PrimFloat.is_zero c) && PrimFloat.is_finite c
      then PrimFloat.add f_result c else f_result
  | x :: l' =>
      let t := PrimFloat.add f_result x in
      let c' :=
        if PrimFloat.leb (PrimFloat.abs x) (PrimFloat.abs f_result)
        then PrimFloat.add c (PrimFloat.add (PrimFloat.sub f_result t) x)
        else PrimFloat.add c (PrimFloat.add (PrimFloat.sub x t) f_result) in
      neumaier t c' l'
  end.

Definition compensated_sum (l : list float) : float :=
  match l with
  | [] => 0%float
  | x :: l' => neumaier (PrimFloat.add 0%float x) 0%float l'
  end.

(** [sum(f[1] for f in functions)], line 81. *)
Definition total_samples (fs : list sample) : float :=
  float_sum (map (fun f : sample => snd (fst f)) fs).

(** A bucket holds the samples of its category, and its total is their
    float sum in the order of the input. *)
Definition bucket_ok (item : string * bucket) : Prop :=
  samples (snd item) = float_sum (map (fun f : sample => snd (fst f)) (functions (snd item)))
  /\ Forall (fun f : sample => AnalyzeFlamegraph.category_of (fst (fst f)) = fst item)
            (functions (snd item)).

End Binary64.

(** ** src/analyze_profiling.py *)

Module AnalyzeProfiling.

(** The dictionary [patterns] of lines 77-87: its keys are fixed. *)
Record patterns : Type :=
  { stat_calls : Z; lookup_calls : Z; read_calls : Z; write_calls : Z;
    mkdir_calls : Z; unlink_calls : Z; cache_lookups : Z; cache_hits : Z;
    cache_misses : Z }.

Definition no_patterns : patterns :=
  {| stat_calls := 0; lookup_calls := 0; read_calls := 0; write_calls := 0;
     mkdir_calls := 0; unlink_calls := 0; cache_lookups := 0; cache_hits := 0;
     cache_misses := 0 |}.

(** [n += 1] when the test holds. *)
Definition bump (test : bool) (n : Z) : Z := if test then (n + 1)%Z else n.

(** The body of the loop over the lines, lines 92-107. *)
Definition scan_line (p : patterns) (line : string) : patterns :=
  {| stat_calls := bump (contains "getattr" line || contains "stat" (lower line))
                        (stat_calls p);
     lookup_calls := bump (contains "lookup" (lower line)) (lookup_calls p);
     read_calls := bump (contains "read" (lower line)) (read_calls p);
     write_calls := bump (contains "write" (lower line)) (write_calls p);
     mkdir_calls := bump (contains "mkdir" (lower line)) (mkdir_calls p);
     unlink_calls := bump (contains "unlink" (lower line)) (unlink_calls p);
     cache_lookups := cache_lookups p;
     cache_hits := bump (contains "cache hit" (lower line)) (cache_hits p);
     cache_misses := bump (contains "cache miss" (lower line)) (cache_misses p) |}.

(** The number of lines that pass a test. *)
Definition count_lines (test : string -> bool) (lines : list string) : Z :=
  Z.of_nat (length (List.filter test lines)).

(** [analyze_log_patterns], lines 75-111, on the lines of the log ([None]:
    the file cannot be opened; the exception is caught and the counters are
    returned as they are). *)
Definition analyze_log_patterns (log : option (list string)) : patterns :=
  match log with
  | None => no_patterns
  | Some lines => fold_left scan_line lines no_patterns
  end.

(** [patterns.items()]: the counters under their keys, in the order of the
    dictionary. *)
Definition items (p : patterns) : list (string * Z) :=
  [ ("stat_calls", stat_calls p); ("lookup_calls", lookup_calls p);
    ("read_calls", read_calls p); ("write_calls", write_calls p);
    ("mkdir_calls", mkdir_calls p); ("unlink_calls", unlink_calls p);
    ("cache_lookups", cache_lookups p); ("cache_hits", cache_hits p);
    ("cache_misses", cache_misses p) ].

(** The operation counts that [main] prints for the debug log, lines
    144-148: the counters above zero. *)
Definition operation_counts (log : option (list string)) : list (string * Z) :=
  List.filter (fun item => (0 <? snd item)%Z) (items (analyze_log_patterns log)).

(** The dataclass [MetricsSnapshot], lines 20-54, with its properties; the
    fields have the types that the class declares. *)
Record MetricsSnapshot : Type :=
  { total_reads : Z; total_writes : Z; total_metadata_ops : Z;
    bytes_read : Z; bytes_written : Z;
    read_latency_ms : Q; write_latency_ms : Q; metadata_latency_ms : Q;
    snapshot_cache_hits : Z; snapshot_cache_misses : Z; cache_entries : Z;
    errors : Z }.


(** [(part / whole * 100) if whole > 0 else 0.0] *)
Definition share (part whole : Z) : res Q :=
  if (0 <? whole)%Z
  then (do q <- truediv (inject_Z part) (inject_Z whole); Ok (q * 100))
  else Ok 0.

Definition cache_hit_rate (m : MetricsSnapshot) : res Q :=
  share (snapshot_cache_hits m) (snapshot_cache_hits m + snapshot_cache_misses m).




(** Line 62: [\x1B(?:[@-Z\\-_]|\[[0-?]*[ -/]*[@-~])] *)
Definition ansi_escape : Re.regex :=
  Re.Seq (Re.Chr (Re.chr_is (ascii_of_nat 27)))
         (Re.Alt (Re.Chr (fun a => Re.between 64 90 a || Re.between 92 95 a))
                 (Re.seq [ Re.lit "["; Re.Rep true 0 (Re.between 48 63);
                           Re.Rep true 0 (Re.between 32 47);
                           Re.Chr (Re.between 64 126) ])).

(** Line 66: [Time \(mean ± σ\):\s+([^\n]+)] *)
Definition timing_line_pattern : Re.regex :=
  Re.seq [ Re.lit "Time (mean ± σ):"; Re.Rep true 1 Re.space;
           Re.Group 1 (Re.Rep true 1 Re.not_newline) ].

(** [parse_timing_from_log], lines 56-73, on the content of the file
    ([None]: the file cannot be read). *)
Definition parse_timing_from_log (file : option string) : option string :=
  match file with
  | None => None
  | Some content =>
      let clean := Re.sub ansi_escape "" content in
      match Re.search timing_line_pattern clean with
      | Some c => Some (Re.group 1 c)
      | None => None
      end
  end.

End AnalyzeProfiling.

(** ** The ordered-rule reading of a categorizer (specification side) *)

Module Taxonomy.

(** A rule: a predicate on the label and the category it selects. *)
Definition rule : Type := (string -> bool) * string.

(** First match over an ordered rule list, with a catch-all. *)
Fixpoint first_match (rules : list rule) (catch_all : string) (label : string) : string :=
  match rules with
  | [] => catch_all
  | (p, c) :: rest => if p label then c else first_match rest catch_all label
  end.

(** The rules of [analyze_flamegraph_simple.categorize], in source order. *)
Definition simple_rules : list rule :=
  [ (fun n => contains "__pthread_cond_wait" (lower n) || contains "cond_wait" (lower n),
     "Lock Wait");
    (fun n => contains "pthread" (lower n) || contains "mutex" (lower n)
              || contains "lock" (lower n), "Synchronization");
    (fun n => contains "moka" (lower n) || contains "cache" (lower n)
              || contains "evict" (lower n), "Cache");
    (fun n => contains "tokio::runtime::task" (lower n) || contains "run_task" (lower n)
              || contains "poll" (lower n), "Async/Task");
    (fun n => contains "spawn" (lower n) || contains "blocking" (lower n), "Task Spawning");
    (fun n => contains "encrypt" (lower n) || contains "decrypt" (lower n)
              || contains "gcm" (lower n) || contains "siv" (lower n), "Encryption");
    (fun n => contains "write" (lower n) && contains "operations" (lower n),
     "Write Operations");
    (fun n => contains "read" (lower n) && contains "operations" (lower n),
     "Read Operations");
    (fun n => contains "getattr" (lower n) || contains "lookup" (lower n)
              || contains "stat" (lower n), "Metadata Ops") ].

(** The rules of [extract_flamegraph_hotspots.categorize_function]. *)
Definition hotspot_rules : list rule :=
  [ (fun n => any_in ["pthread"; "cond_wait"; "wait"; "lock"; "mutex"; "futex"] (lower n),
     "Lock/Sync");
    (fun n => any_in ["moka"; "cache"; "evict"; "insert"] (lower n), "Cache");
    (fun n => any_in ["read"; "write"; "getattr"; "lookup"; "stat"] (lower n), "FUSE Ops");
    (fun n => any_in ["encrypt"; "decrypt"; "aes"; "gcm"; "siv"; "crypto"] (lower n),
     "Crypto");
    (fun n => any_in ["tokio"; "spawn"; "task"; "executor"; "park"] (lower n),
     "Async Runtime");
    (fun n => any_in ["dashmap"; "dash"; "hashmap"; "map"] (lower n), "Data Structure");
    (fun n => any_in ["arc"; "clone"; "drop"] (lower n), "Memory") ].

(** The rules of [analyze_flamegraph.categorize_functions]. *)
Definition subsystem_rules : list rule :=
  [ (fun f => contains "fuser::" f || contains "fuse_" f, "FUSE Layer");
    (fun f => contains "oxcrypt_core::" f || contains "oxcrypt_" f, "Crypto Core");
    (fun f => contains "encrypt" (lower f) || contains "decrypt" (lower f),
     "Encryption/Decryption");
    (fun f => contains "aes" (lower f) || contains "gcm" (lower f)
              || contains "siv" (lower f), "AES Primitives");
    (fun f => contains "tokio::" f || contains "async" (lower f), "Async Runtime");
    (fun f => contains "std::io" f || contains "::fs::" f, "I/O Operations");
    (fun f => contains "dashmap" (lower f) || contains "cache" (lower f), "Caching");
    (fun f => contains "lock" (lower f) || contains "mutex" (lower f), "Synchronization") ].

(** [i] is the first rule of [rules] that matches [label]. *)
Definition first_at (rules : list rule) (label : string) (i : nat) (c : string) : Prop :=
  exists p, rules !! i = Some (p, c) /\ p label = true /\
    forall j q d, (j < i)%nat -> rules !! j = Some (q, d) -> q label = false.

(** [f] classifies by the ordered rules: its result is the category of the
    first rule that matches, and the catch-all when no rule matches. *)
Definition ordered_by (rules : list rule) (catch_all : string) (f : string -> string)
  : Prop :=
  forall label : string,
    f label = first_match rules catch_all label
    /\ (forall i c, first_at rules label i c -> f label = c)
    /\ ((forall p c, In (p, c) rules -> p label = false) -> f label = catch_all)
    /\ ((exists i, first_at rules label i (f label))
        \/ (f label = catch_all /\ forall p c, In (p, c) rules -> p label = false)).

End Taxonomy.

(** ** Sample data used to exercise the statements *)

Module Examples.

(** Four hotspots, as [extract_hotspots] returns them. *)
Definition hotspots : list AnalyzeFlamegraphSimple.hotspot :=
  [ AnalyzeFlamegraphSimple.Build_hotspot "__pthread_cond_wait" 30 (123 # 10);
    AnalyzeFlamegraphSimple.Build_hotspot "moka::cache::lock" 12 (25 # 10);
    AnalyzeFlamegraphSimple.Build_hotspot "core::ptr::drop_in_place<T>" 5 1;
    AnalyzeFlamegraphSimple.Build_hotspot "fuser::x" 1 (1 # 10) ].

(** One frame of a flame graph whose label has encoded angle brackets. *)
Definition encoded_frame : string :=
  "<g><title>alloc::vec::Vec&lt;T&gt;::push (5 samples, 1.00%)</title><rect/></g>".

(** The timing line of a benchmark report, plain and with the colour codes
    of a terminal. *)
Definition timing_line : string :=
  "  Time (mean ± σ):      5.09 s ±  11.71 ms    [User: 1.20 s, System: 0.31 s]".

Definition esc : string := String (ascii_of_nat 27) EmptyString.

Definition coloured_report : string :=
  "Benchmark 1: oxbench concurrent" ++ String Re.newline
    ("  Time (" ++ esc ++ "[1;32mmean" ++ esc ++ "[0m ± " ++ esc ++ "[32mσ" ++ esc
     ++ "[0m):     " ++ esc ++ "[1;32m 5.09 s" ++ esc ++ "[0m ± " ++ esc
     ++ "[32m 11.71 ms" ++ esc ++ "[0m    [User: 1.20 s, System: 0.31 s]").

Definition report_of (timing : string) : string := "  Time (mean ± σ):     " ++ timing.

(** A text that can come before the timing line without changing what is
    extracted: it has no colour code, and [Time] does not occur in it, nor
    across its end. *)
Definition plain_before_timing (pre : string) : bool :=
  negb (contains esc pre) && negb (contains "Time" (pre ++ "Tim")).

(** Three workloads: the baseline file of the first is missing, the baseline
    of the second reports a mean of zero. *)
Definition workloads : list CompareResults.workload :=
  [ CompareResults.Build_workload "concurrent" None (Some (report_of "4.50 s ± 3.00 ms"));
    CompareResults.Build_workload "media" (Some (report_of "0.00 s ± 0.00 s"))
                                  (Some (report_of "1.25 s ± 2.00 ms"));
    CompareResults.Build_workload "backup" (Some (report_of "5.09 s ± 11.71 ms"))
                                  (Some (report_of "4.50 s ± 3.00 ms")) ].

(** Two payloads of the statistics feed; the second lacks its cache object
    and its latencies. *)
Definition payload1 : gmap string ProfileConcurrent.json :=
  {[ "total_reads" := ProfileConcurrent.JInt 100;
     "total_writes" := ProfileConcurrent.JInt 40;
     "total_metadata_ops" := ProfileConcurrent.JInt 7;
     "bytes_read" := ProfileConcurrent.JInt 4096;
     "cache" := ProfileConcurrent.JObj
                  {[ "hits" := ProfileConcurrent.JInt 9;
                     "misses" := ProfileConcurrent.JInt 1 ]} ]}.

Definition payload2 : gmap string ProfileConcurrent.json :=
  {[ "total_reads" := ProfileConcurrent.JInt 120;
     "total_writes" := ProfileConcurrent.JInt 40;
     "bytes_read" := ProfileConcurrent.JInt 8192 ]}.

(** The snapshots of these payloads, taken at times 0 and 2. *)
Definition snapshot1 : ProfileConcurrent.StatsSnapshot :=
  {| ProfileConcurrent.timestamp := 0;
     ProfileConcurrent.total_reads := ProfileConcurrent.JInt 100;
     ProfileConcurrent.total_writes := ProfileConcurrent.JInt 40;
     ProfileConcurrent.total_metadata_ops := ProfileConcurrent.JInt 7;
     ProfileConcurrent.bytes_read := ProfileConcurrent.JInt 4096;
     ProfileConcurrent.bytes_written := ProfileConcurrent.JInt 0;
     ProfileConcurrent.read_latency_avg_ms := ProfileConcurrent.JFloat 0;
     ProfileConcurrent.write_latency_avg_ms := ProfileConcurrent.JFloat 0;
     ProfileConcurrent.metadata_latency_avg_ms := ProfileConcurrent.JFloat 0;
     ProfileConcurrent.cache_hits := ProfileConcurrent.JInt 9;
     ProfileConcurrent.cache_misses := ProfileConcurrent.JInt 1;
     ProfileConcurrent.cache_entries := ProfileConcurrent.JInt 0;
     ProfileConcurrent.errors := ProfileConcurrent.JInt 0 |}.

Definition snapshot2 : ProfileConcurrent.StatsSnapshot :=
  {| ProfileConcurrent.timestamp := 2;
     ProfileConcurrent.total_reads := ProfileConcurrent.JInt 120;
     ProfileConcurrent.total_writes := ProfileConcurrent.JInt 40;
     ProfileConcurrent.total_metadata_ops := ProfileConcurrent.JInt 0;
     ProfileConcurrent.bytes_read := ProfileConcurrent.JInt 8192;
     ProfileConcurrent.bytes_written := ProfileConcurrent.JInt 0;
     ProfileConcurrent.read_latency_avg_ms := ProfileConcurrent.JFloat 0;
     ProfileConcurrent.write_latency_avg_ms := ProfileConcurrent.JFloat 0;
     ProfileConcurrent.metadata_latency_avg_ms := ProfileConcurrent.JFloat 0;
     ProfileConcurrent.cache_hits := ProfileConcurrent.JInt 0;
     ProfileConcurrent.cache_misses := ProfileConcurrent.JInt 0;
     ProfileConcurrent.cache_entries := ProfileConcurrent.JInt 0;
     ProfileConcurrent.errors := ProfileConcurrent.JInt 0 |}.

(** Three samples with fractional counts, as [parse_flamegraph] returns
    them for the annotations [(0.1 samples, 3.57%)], [(0.2 samples, 7.14%)]
    and [(2.5 samples, 89.29%)]. *)
#[warnings="-inexact-float"] Definition fractional_functions : list Binary64.sample :=
  [ ("fuser::read", 0.1%float, 3.57%float);
    ("tokio::spawn", 0.2%float, 7.14%float);
    ("fuser::write", 2.5%float, 89.29%float) ].

(** Four samples, as [parse_flamegraph] returns them. *)
Definition functions : list AnalyzeFlamegraph.sample :=
  [ ("moka::cache::lock", 25 # 2, 25 # 10);
    ("core::ptr::drop_in_place<T>", 5, 1);
    ("moka::cache::get", 3, 1 # 2);
    ("fuser::x", 1, 1 # 10) ].

End Examples.

(** * Properties *)

(** ** Dictionaries and sums *)

Lemma update_keys_in {V} k (f : V -> V) dflt (d : list (string * V)) x :
  x ∈ Dict.keys (Dict.update k f dflt d) -> x = k \/ x ∈ Dict.keys d.
Proof.
  unfold Dict.keys. induction d as [|[k' v] d IH]; simpl; intros Hx.
  - apply list_elem_of_singleton in Hx. now left.
  - destruct (String.eqb_spec k k'); simpl in Hx.
    + now right.
    + apply elem_of_cons in Hx as [->|Hx].
      * right. apply elem_of_cons. now left.
      * destruct (IH Hx) as [->|Hy]; [now left|].
        right. apply elem_of_cons. now right.
Qed.

Lemma update_keys_nodup {V} k (f : V -> V) dflt (d : list (string * V)) :
  NoDup (Dict.keys d) -> NoDup (Dict.keys (Dict.update k f dflt d)).
Proof.
  induction d as [|[k' v] d IH]; simpl; intros Hnd.
  - apply NoDup_singleton.
  - apply NoDup_cons in Hnd as [Hk' Hnd].
    destruct (String.eqb_spec k k'); simpl; apply NoDup_cons.
    + split; assumption.
    + split; [| now apply IH].
      intros Hx. destruct (update_keys_in _ _ _ _ _ Hx) as [->|Hy]; [congruence|].
      now apply Hk'.
Qed.

Lemma sumZ_update k v (d : list (string * Z)) :
  sumZ (Dict.values (Dict.update k (fun n => (n + v)%Z) 0%Z d))
  = (sumZ (Dict.values d) + v)%Z.
Proof.
  unfold Dict.values, sumZ.
  induction d as [|[k' n] d IH]; cbn [Dict.update map fold_right snd].
  - lia.
  - destruct (String.eqb k k'); cbn [map fold_right snd].
    + lia.
    + rewrite IH. lia.
Qed.

Lemma sumQ_update k v (d : list (string * Q)) :
  sumQ (Dict.values (Dict.update k (fun n => n + v) 0 d))
  == sumQ (Dict.values d) + v.
Proof.
  unfold Dict.values, sumQ.
  induction d as [|[k' n] d IH]; cbn [Dict.update map fold_right snd].
  - ring.
  - destruct (String.eqb k k'); cbn [map fold_right snd].
    + ring.
    + rewrite IH. ring.
Qed.

Lemma fold_left_Zadd {A} (f : A -> Z) (l : list A) (acc : Z) :
  fold_left (fun a x => (a + f x)%Z) l acc
  = (acc + fold_left (fun a x => (a + f x)%Z) l 0)%Z.
Proof.
  revert acc. induction l as [|x l IH]; simpl; intros acc.
  - lia.
  - rewrite IH, (IH (0 + f x)%Z). lia.
Qed.

Lemma fold_left_Qadd {A} (f : A -> Q) (l : list A) (acc : Q) :
  fold_left (fun a x => a + f x) l acc
  == acc + fold_left (fun a x => a + f x) l 0.
Proof.
  revert acc. induction l as [|x l IH]; simpl; intros acc.
  - ring.
  - rewrite IH, (IH (0 + f x)). ring.
Qed.

Lemma get_update {V} c k (f : V -> V) dflt (d : list (string * V)) :
  Dict.get c (Dict.update k f dflt d)
  = if String.eqb c k
    then Some (f (match Dict.get k d with Some v => v | None => dflt end))
    else Dict.get c d.
Proof.
  induction d as [|[k' v] d IH]; cbn [Dict.update Dict.get].
  - destruct (String.eqb c k); reflexivity.
  - destruct (String.eqb_spec k k') as [->|Hk]; cbn [Dict.get].
    + destruct (String.eqb c k'); reflexivity.
    + rewrite IH. destruct (String.eqb_spec c k') as [->|Hc].
      * destruct (String.eqb_spec k' k); congruence.
      * reflexivity.
Qed.

(** ** The categorizing aggregation is a partition (C1) *)

Section SimpleTotals.
Import AnalyzeFlamegraphSimple.

Lemma simple_totals_from (hs : list hotspot) (d : list (string * Z)) :
  sumZ (Dict.values (fold_left add_hotspot hs d))
  = (sumZ (Dict.values d) + total_samples hs)%Z.
Proof.
  unfold total_samples. revert d.
  induction hs as [|h hs IH]; intros d; cbn [fold_left].
  - lia.
  - rewrite IH. unfold add_hotspot. rewrite sumZ_update.
    rewrite (fold_left_Zadd samples hs (0 + samples h)). lia.
Qed.

Lemma simple_keys_nodup (hs : list hotspot) (d : list (string * Z)) :
  NoDup (Dict.keys d) -> NoDup (Dict.keys (fold_left add_hotspot hs d)).
Proof.
  revert d. induction hs as [|h hs IH]; intros d Hd; cbn [fold_left].
  - exact Hd.
  - apply IH. now apply update_keys_nodup.
Qed.

Lemma simple_get_from (c : string) (hs : list hotspot) (d : list (string * Z)) :
  get0 c (fold_left add_hotspot hs d) = (get0 c d + samples_in c hs)%Z.
Proof.
  unfold samples_in. revert d.
  induction hs as [|h hs IH]; intros d; cbn [fold_left List.filter].
  - cbn. lia.
  - rewrite IH. unfold get0 at 1, add_hotspot. rewrite get_update.
    destruct (String.eqb_spec c (categorize (name h))) as [->|Hc].
    + unfold get0. cbn [map sumZ fold_right].
      destruct (Dict.get _ d); unfold sumZ; lia.
    + unfold get0. lia.
Qed.

End SimpleTotals.

Section FloatTotals.
Import Binary64.

Lemma members_update (f : sample) (d : list (string * bucket)) :
  Permutation (members (add_function d f)) (members d ++ [f]).
Proof.
  destruct f as [[func n] pct]. unfold add_function, members.
  generalize (AnalyzeFlamegraph.category_of func) as k. intros k.
  induction d as [|[k' b] d IH]; cbn [Dict.update map concat snd functions].
  - reflexivity.
  - destruct (String.eqb k k'); cbn [map concat snd functions app].
    + rewrite <- !app_assoc. apply Permutation_app_head.
      apply Permutation_app_comm.
    + rewrite <- app_assoc. now apply Permutation_app_head.
Qed.

Lemma members_from (fs : list sample) (d : list (string * bucket)) :
  Permutation (members (fold_left add_function fs d)) (members d ++ fs).
Proof.
  revert d. induction fs as [|f fs IH]; intros d; cbn [fold_left].
  - now rewrite app_nil_r.
  - rewrite IH, members_update, <- app_assoc. reflexivity.
Qed.

Lemma subsystem_keys_nodup (fs : list sample) (d : list (string * bucket)) :
  NoDup (Dict.keys d) -> NoDup (Dict.keys (fold_left add_function fs d)).
Proof.
  revert d. induction fs as [|[[func n] pct] fs IH]; intros d Hd; cbn [fold_left].
  - exact Hd.
  - apply IH. unfold add_function. now apply update_keys_nodup.
Qed.

Lemma float_sum_snoc (l : list float) (x : float) :
  float_sum (l ++ [x]) = PrimFloat.add (float_sum l) x.
Proof. unfold float_sum. now rewrite fold_left_app. Qed.

Lemma buckets_ok_update (f : sample) (d : list (string * bucket)) :
  Forall bucket_ok d -> Forall bucket_ok (add_function d f).
Proof.
  destruct f as [[func n] pct]. unfold add_function.
  induction d as [|[k' b] d IH]; cbn [Dict.update]; intros Hd.
  - constructor; [|constructor]. split; cbn [fst snd samples functions empty_bucket app map].
    + reflexivity.
    + constructor; [reflexivity|constructor].
  - apply Forall_cons in Hd as [[Hs Hf] Hd]. cbn [fst snd] in Hs, Hf.
    destruct (String.eqb_spec (AnalyzeFlamegraph.category_of func) k') as [Hk|Hk].
    + constructor; [|assumption]. split; cbn [fst snd samples functions].
      * rewrite map_app. cbn [map fst snd]. rewrite float_sum_snoc, Hs. reflexivity.
      * apply Forall_app. split; [assumption|]. constructor; [exact Hk|constructor].
    + constructor; [now split|]. now apply IH.
Qed.

Lemma buckets_ok_from (fs : list sample) (d : list (string * bucket)) :
  Forall bucket_ok d -> Forall bucket_ok (fold_left add_function fs d).
Proof.
  revert d. induction fs as [|f fs IH]; intros d Hd; cbn [fold_left].
  - exact Hd.
  - apply IH. now apply buckets_ok_update.
Qed.

End FloatTotals.

(** The same sum for the category totals of
    [extract_flamegraph_hotspots.main]. *)
Lemma hotspot_totals_from (fs : list (string * Q)) (d : list (string * Q)) :
  sumQ (Dict.values (fold_left ExtractFlamegraphHotspots.add_function fs d))
  == sumQ (Dict.values d) + ExtractFlamegraphHotspots.total_samples fs.
Proof.
  unfold ExtractFlamegraphHotspots.total_samples. revert d.
  induction fs as [|f fs IH]; intros d; cbn [fold_left].
  - ring.
  - rewrite IH. unfold ExtractFlamegraphHotspots.add_function.
    rewrite sumQ_update, (fold_left_Qadd snd fs (0 + snd f)). ring.
Qed.

Lemma hotspot_totals_sum (fs : list (string * Q)) :
  sumQ (Dict.values (ExtractFlamegraphHotspots.category_totals fs))
  == ExtractFlamegraphHotspots.total_samples fs.
Proof.
  unfold ExtractFlamegraphHotspots.category_totals.
  rewrite hotspot_totals_from. cbn. ring.
Qed.

(** C1 (amended).  The categorizing aggregation is a partition.  In
    [analyze_flamegraph_simple.main], where the counts are integers, the
    per-category totals of an artifact with a positive total [T] add up to
    exactly [T]; the categories are distinct and each total is the sum of
    the samples that the categorizer sends to that category.  In
    [analyze_flamegraph.categorize_functions], where the counts are binary64
    numbers, the categories are distinct, the members of the buckets are the
    input samples, each once and in its own category, and the total of a
    bucket is the float sum of its members in the order of the input. *)
Theorem category_totals_partition
    (hotspots : list AnalyzeFlamegraphSimple.hotspot)
    (fs : list Binary64.sample) :
  (0 < AnalyzeFlamegraphSimple.total_samples hotspots)%Z ->
  (sumZ (Dict.values (AnalyzeFlamegraphSimple.category_totals hotspots))
   = AnalyzeFlamegraphSimple.total_samples hotspots
   /\ NoDup (Dict.keys (AnalyzeFlamegraphSimple.category_totals hotspots))
   /\ forall c,
       AnalyzeFlamegraphSimple.get0 c (AnalyzeFlamegraphSimple.category_totals hotspots)
       = AnalyzeFlamegraphSimple.samples_in c hotspots)
  /\ (NoDup (Dict.keys (Binary64.categorize_functions fs))
      /\ Permutation (Binary64.members (Binary64.categorize_functions fs)) fs
      /\ Forall Binary64.bucket_ok (Binary64.categorize_functions fs)).
Proof.
  intros _. split; [split; [|split]|split; [|split]].
  - unfold AnalyzeFlamegraphSimple.category_totals.
    rewrite simple_totals_from. cbn. lia.
  - apply simple_keys_nodup. constructor.
  - intros c. unfold AnalyzeFlamegraphSimple.category_totals.
    rewrite simple_get_from. cbn. lia.
  - apply subsystem_keys_nodup. constructor.
  - unfold Binary64.categorize_functions.
    rewrite members_from. reflexivity.
  - apply buckets_ok_from. constructor.
Qed.

Lemma category_totals_partition_witness :
  sumZ (Dict.values (AnalyzeFlamegraphSimple.category_totals Examples.hotspots)) = 48%Z
  /\ Permutation
       (Binary64.members (Binary64.categorize_functions Examples.fractional_functions))
       Examples.fractional_functions.
Proof.
  destruct (category_totals_partition Examples.hotspots Examples.fractional_functions)
    as [[Hz _] [_ [Hp _]]].
  - reflexivity.
  - split.
    + rewrite Hz. reflexivity.
    + exact Hp.
Defined.

(** The claim as stated fails in the subsystem report, whose counts are
    floats: with the counts 0.1, 0.2 and 2.5, the first and the last in
    one category, the category totals are 0.1 + 2.5 and 0.2, and their sum
    is above the total 0.1 + 0.2 + 2.5 that line 81 computes, whichever
    of the two summations of [sum] is used. *)
#[warnings="-inexact-float"] Lemma fractional_counts_round :
  let categories := Binary64.categorize_functions Examples.fractional_functions in
  let total := Binary64.total_samples Examples.fractional_functions in
  Dict.keys categories = ["FUSE Layer"; "Async Runtime"]
  /\ Binary64.category_samples categories
     = [PrimFloat.add (PrimFloat.add 0 0.1) 2.5; PrimFloat.add 0 0.2]%float
  /\ PrimFloat.ltb total (Binary64.float_sum (Binary64.category_samples categories)) = true
  /\ PrimFloat.ltb total (Binary64.compensated_sum (Binary64.category_samples categories))
     = true
  /\ Binary64.compensated_sum
       (map (fun f : Binary64.sample => snd (fst f)) Examples.fractional_functions)
     = total.
Proof. cbv zeta. vm_compute. repeat split. Qed.

(** ** The categorizers are ordered first-match classifiers (C3) *)

Lemma first_match_first_at rules catch_all label i c :
  Taxonomy.first_at rules label i c ->
  Taxonomy.first_match rules catch_all label = c.
Proof.
  revert i. induction rules as [|[q d] rules IH]; intros i (p & Hi & Hp & Hbefore).
  - discriminate.
  - cbn [Taxonomy.first_match]. destruct i as [|i]; cbn in Hi.
    + injection Hi as -> ->. now rewrite Hp.
    + rewrite (Hbefore 0%nat q d); [|lia|reflexivity].
      apply (IH i). exists p. split; [exact Hi|split; [exact Hp|]].
      intros j q' d' Hj Hq'. apply (Hbefore (S j) q' d'); [lia|exact Hq'].
Qed.

Lemma first_match_none rules catch_all label :
  (forall p c, In (p, c) rules -> p label = false) ->
  Taxonomy.first_match rules catch_all label = catch_all.
Proof.
  induction rules as [|[q d] rules IH]; intros Hnone; cbn [Taxonomy.first_match].
  - reflexivity.
  - rewrite (Hnone q d); [|now left]. apply IH.
    intros p c Hin. apply (Hnone p c). now right.
Qed.

Lemma first_match_cases rules catch_all label :
  (exists i, Taxonomy.first_at rules label i (Taxonomy.first_match rules catch_all label))
  \/ (Taxonomy.first_match rules catch_all label = catch_all
      /\ forall p c, In (p, c) rules -> p label = false).
Proof.
  induction rules as [|[q d] rules IH]; cbn [Taxonomy.first_match].
  - right. split; [reflexivity|]. intros p c [].
  - destruct (q label) eqn:Hq.
    + left. exists 0%nat, q. split; [reflexivity|split; [exact Hq|]]. intros j ? ? Hj. lia.
    + destruct IH as [(i & p & Hi & Hp & Hbefore)|[Heq Hnone]].
      * left. exists (S i), p. split; [exact Hi|split; [exact Hp|]].
        intros [|j] q' d' Hj Hq'.
        -- cbn in Hq'. injection Hq' as <- <-. exact Hq.
        -- apply (Hbefore j q' d'); [lia|exact Hq'].
      * right. split; [exact Heq|].
        intros p c [Hin|Hin]; [injection Hin as <- <-; exact Hq|now apply (Hnone p c)].
Qed.

Lemma ordered_by_first_match rules catch_all f :
  (forall label, f label = Taxonomy.first_match rules catch_all label) ->
  Taxonomy.ordered_by rules catch_all f.
Proof.
  intros Hf label. rewrite Hf. split; [reflexivity|split; [|split]].
  - intros i c. apply first_match_first_at.
  - apply first_match_none.
  - apply first_match_cases.
Qed.

(** C3.  Each categorizer returns one category, that of the first rule of
    its ordered rule list that matches the label, and the catch-all
    ["Other"] when no rule matches. *)
Theorem categorizers_first_match_wins :
  Taxonomy.ordered_by Taxonomy.simple_rules "Other" AnalyzeFlamegraphSimple.categorize
  /\ Taxonomy.ordered_by Taxonomy.hotspot_rules "Other"
       ExtractFlamegraphHotspots.categorize_function
  /\ Taxonomy.ordered_by Taxonomy.subsystem_rules "Other" AnalyzeFlamegraph.category_of.
Proof.
  split; [|split]; apply ordered_by_first_match; intros label; reflexivity.
Qed.

(** A label with both a lock and a cache keyword: the rule checked first
    decides, and the two taxonomies order these rules differently. *)
Example lock_and_cache_label :
  let label := "moka::Cache::lock_shard" in
  Taxonomy.first_at Taxonomy.simple_rules label 1 "Synchronization"
  /\ (exists p, Taxonomy.simple_rules !! 2%nat = Some (p, "Cache") /\ p label = true)
  /\ AnalyzeFlamegraphSimple.categorize label = "Synchronization"
  /\ AnalyzeFlamegraph.category_of label = "Caching".
Proof.
  cbv zeta. split; [|split; [|split]].
  - eexists. split; [reflexivity|]. split; [reflexivity|].
    intros [|j] q d Hj Hq; [|lia]. cbn in Hq. injection Hq as <- <-. reflexivity.
  - eexists. split; reflexivity.
  - reflexivity.
  - reflexivity.
Qed.

Lemma categorizers_first_match_wins_witness :
  AnalyzeFlamegraphSimple.categorize "moka::Cache::lock_shard" = "Synchronization".
Proof.
  destruct (proj1 categorizers_first_match_wins "moka::Cache::lock_shard")
    as (_ & Hfirst & _).
  apply (Hfirst 1%nat). exact (proj1 lock_and_cache_label).
Defined.

(** ** Sorting and loops *)

Lemma insert_desc_perm {A} (le : A -> A -> bool) (x : A) (l : list A) :
  Permutation (insert_desc le x l) (x :: l).
Proof.
  induction l as [|y l IH]; cbn [insert_desc]; [reflexivity|].
  destruct (le y x); [reflexivity|].
  rewrite IH. apply perm_swap.
Qed.

Lemma sorted_desc_perm {A} (le : A -> A -> bool) (l : list A) :
  Permutation (sorted_desc le l) l.
Proof.
  induction l as [|x l IH]; cbn [sorted_desc]; [reflexivity|].
  rewrite insert_desc_perm. now constructor.
Qed.

Lemma mapM_in {A B} (f : A -> res B) (l : list A) (ys : list B) (y : B) :
  mapM f l = Ok ys -> In y ys -> exists x, In x l /\ f x = Ok y.
Proof.
  revert ys. induction l as [|x l IH]; cbn [mapM]; intros ys Hm Hy.
  - injection Hm as <-. destruct Hy.
  - destruct (f x) as [z|e] eqn:Hz; cbn [bind] in Hm; [|discriminate].
    destruct (mapM f l) as [zs|e]; cbn [bind] in Hm; [|discriminate].
    injection Hm as <-. destruct Hy as [<-|Hy].
    + exists x. split; [now left|exact Hz].
    + destruct (IH zs eq_refl Hy) as (x' & Hin & Hx'). exists x'. split; [now right|exact Hx'].
Qed.

(** ** Percentages and the zero total (C4) *)

Lemma truediv_nonzero (a b : Q) : ~ b == 0 -> truediv a b = Ok (a / b).
Proof.
  intros Hb. unfold truediv. destruct (Qeq_bool b 0) eqn:E; [|reflexivity].
  apply Qeq_bool_iff in E. contradiction.
Qed.

Lemma truediv_zero (a b : Q) : b == 0 -> truediv a b = Raise ZeroDivisionError.
Proof.
  intros Hb. unfold truediv. apply Qeq_bool_iff in Hb. now rewrite Hb.
Qed.

Lemma guarded_percentage (count total : Q) :
  AnalyzeFlamegraph.percentage count total
  = Ok (if Qlt_le_dec 0 total then count / total * 100 else 0).
Proof.
  unfold AnalyzeFlamegraph.percentage. destruct (Qlt_le_dec 0 total) as [Hpos|Hle].
  - rewrite truediv_nonzero; [reflexivity|]. intros H0. rewrite H0 in Hpos.
    now apply Qlt_irrefl in Hpos.
  - reflexivity.
Qed.

Lemma guarded_percent_of_spec (count total : Q) :
  ExtractFlamegraphHotspots.guarded_percent_of count total
  = Ok (if Qlt_le_dec 0 total then count / total * 100 else 0).
Proof.
  unfold ExtractFlamegraphHotspots.guarded_percent_of,
    ExtractFlamegraphHotspots.percent_of.
  destruct (Qlt_le_dec 0 total) as [Hpos|Hle].
  - rewrite truediv_nonzero; [reflexivity|]. intros H0. rewrite H0 in Hpos.
    now apply Qlt_irrefl in Hpos.
  - reflexivity.
Qed.

Lemma update_not_nil {V} k (f : V -> V) dflt (d : list (string * V)) :
  Dict.update k f dflt d <> [].
Proof. destruct d as [|[k' v] d]; cbn; [|destruct (String.eqb k k')]; discriminate. Qed.

Lemma fold_update_not_nil {A V} (step : list (string * V) -> A -> list (string * V))
    (l : list A) (d : list (string * V)) :
  (forall d x, step d x <> []) -> d <> [] \/ l <> [] -> fold_left step l d <> [].
Proof.
  intros Hstep. revert d. induction l as [|x l IH]; intros d Hne; cbn [fold_left].
  - now destruct Hne.
  - apply IH. left. apply Hstep.
Qed.

Lemma sorted_desc_not_nil {A} (le : A -> A -> bool) (l : list A) :
  l <> [] -> sorted_desc le l <> [].
Proof.
  intros Hl Hs. apply Hl. apply Permutation_nil.
  rewrite <- Hs. apply sorted_desc_perm.
Qed.

(** A non-empty sample set whose counts are all zero ends
    [analyze_flamegraph_simple.main] with the exception. *)
Lemma simple_main_zero_total (content : string) hs :
  AnalyzeFlamegraphSimple.extract_hotspots content = Ok hs ->
  hs <> [] ->
  AnalyzeFlamegraphSimple.total_samples hs = 0%Z ->
  snd (AnalyzeFlamegraphSimple.main (Some content)) = Some ZeroDivisionError.
Proof.
  intros He Hne Htotal. unfold AnalyzeFlamegraphSimple.main. rewrite He.
  destruct hs as [|h hs]; [contradiction|]. cbv zeta. rewrite Htotal.
  destruct (sorted_desc _ (AnalyzeFlamegraphSimple.category_totals (h :: hs)))
    as [|[cat n] cats] eqn:Hs.
  - exfalso. revert Hs. apply sorted_desc_not_nil.
    apply fold_update_not_nil; [|now right].
    intros d x. apply update_not_nil.
  - reflexivity.
Qed.

(** The same for [extract_flamegraph_hotspots.main]. *)
Lemma hotspots_main_zero_total (titles : option (list (option string))) :
  ExtractFlamegraphHotspots.extract_flamegraph_data titles <> [] ->
  ExtractFlamegraphHotspots.total_samples
    (ExtractFlamegraphHotspots.extract_flamegraph_data titles) == 0 ->
  snd (ExtractFlamegraphHotspots.main true titles) = Some ZeroDivisionError.
Proof.
  intros Hne Htotal. unfold ExtractFlamegraphHotspots.main. cbn [negb].
  destruct (ExtractFlamegraphHotspots.extract_flamegraph_data titles)
    as [|[func_name n] fs]; [contradiction|].
  cbv zeta. unfold ExtractFlamegraphHotspots.enumerate1.
  cbn [firstn length List.seq combine for_each ExtractFlamegraphHotspots.top_line].
  unfold ExtractFlamegraphHotspots.percent_of.
  rewrite truediv_zero by exact Htotal. reflexivity.
Qed.

(** C4.  The percentage of [print_analysis] and of the key findings of
    [extract_flamegraph_hotspots.main] is [count / total * 100] for a
    positive total and [0] otherwise.  The table loops of
    [analyze_flamegraph_simple.main] and [extract_flamegraph_hotspots.main]
    divide without the test: a non-empty sample set with a total of [0],
    such as the one of an artifact whose only annotation is
    [f (0 samples, 0.00%)], passes the emptiness gate and the first division
    raises [ZeroDivisionError]. *)
Theorem percentage_zero_total :
  (forall count total : Q,
      AnalyzeFlamegraph.percentage count total
      = Ok (if Qlt_le_dec 0 total then count / total * 100 else 0))
  /\ (forall count total : Q,
      ExtractFlamegraphHotspots.guarded_percent_of count total
      = Ok (if Qlt_le_dec 0 total then count / total * 100 else 0))
  /\ (forall count : Z,
      AnalyzeFlamegraphSimple.percent_of count 0 = Raise ZeroDivisionError)
  /\ (forall count : Q,
      ExtractFlamegraphHotspots.percent_of count 0 = Raise ZeroDivisionError)
  /\ (forall content hs,
      AnalyzeFlamegraphSimple.extract_hotspots content = Ok hs ->
      hs <> [] ->
      AnalyzeFlamegraphSimple.total_samples hs = 0%Z ->
      snd (AnalyzeFlamegraphSimple.main (Some content)) = Some ZeroDivisionError)
  /\ (forall titles,
      ExtractFlamegraphHotspots.extract_flamegraph_data titles <> [] ->
      ExtractFlamegraphHotspots.total_samples
        (ExtractFlamegraphHotspots.extract_flamegraph_data titles) == 0 ->
      snd (ExtractFlamegraphHotspots.main true titles) = Some ZeroDivisionError)
  /\ (exists top,
      AnalyzeFlamegraphSimple.main (Some "<title>f (0 samples, 0.00%)</title>")
      = (AnalyzeFlamegraphSimple.Report 0 top [] None, Some ZeroDivisionError))
  /\ (exists total,
      ExtractFlamegraphHotspots.main true (Some [Some "f (0 samples, 0.00%)"])
      = (ExtractFlamegraphHotspots.Report total [] [] None, Some ZeroDivisionError)
      /\ total == 0).
Proof.
  split; [exact guarded_percentage|].
  split; [exact guarded_percent_of_spec|].
  split; [reflexivity|].
  split; [reflexivity|].
  split; [exact simple_main_zero_total|].
  split; [exact hotspots_main_zero_total|].
  split.
  - eexists. vm_compute. reflexivity.
  - eexists. split; [vm_compute; reflexivity|reflexivity].
Qed.

Lemma percentage_zero_total_witness :
  snd (AnalyzeFlamegraphSimple.main (Some "<title>f (0 samples, 0.00%)</title>"))
  = Some ZeroDivisionError.
Proof.
  refine (proj1 (proj2 (proj2 (proj2 (proj2 percentage_zero_total))))
            "<title>f (0 samples, 0.00%)</title>"
            [AnalyzeFlamegraphSimple.Build_hotspot "f" 0 (0 # 100)] _ _ _).
  - vm_compute. reflexivity.
  - discriminate.
  - reflexivity.
Defined.

(** ** The operation counter scan (C7) *)

Section CounterScan.
Import AnalyzeProfiling.

Lemma count_lines_cons test line lines :
  count_lines test (line :: lines)
  = (bump (test line) 0 + count_lines test lines)%Z.
Proof.
  unfold count_lines, bump. cbn [List.filter].
  destruct (test line); cbn [length]; lia.
Qed.

Lemma bump_add test n : bump test n = (n + bump test 0)%Z.
Proof. unfold bump. destruct test; lia. Qed.

(** The counters after a scan: the counters before plus the number of lines
    that pass the test of each class; [cache_lookups] has no test. *)
Lemma scan_lines_counts (lines : list string) (p : patterns) :
  let q := fold_left scan_line lines p in
  stat_calls q
  = (stat_calls p
     + count_lines (fun l => contains "getattr" l || contains "stat" (lower l)) lines)%Z
  /\ lookup_calls q
     = (lookup_calls p + count_lines (fun l => contains "lookup" (lower l)) lines)%Z
  /\ read_calls q
     = (read_calls p + count_lines (fun l => contains "read" (lower l)) lines)%Z
  /\ write_calls q
     = (write_calls p + count_lines (fun l => contains "write" (lower l)) lines)%Z
  /\ mkdir_calls q
     = (mkdir_calls p + count_lines (fun l => contains "mkdir" (lower l)) lines)%Z
  /\ unlink_calls q
     = (unlink_calls p + count_lines (fun l => contains "unlink" (lower l)) lines)%Z
  /\ cache_lookups q = cache_lookups p
  /\ cache_hits q
     = (cache_hits p + count_lines (fun l => contains "cache hit" (lower l)) lines)%Z
  /\ cache_misses q
     = (cache_misses p + count_lines (fun l => contains "cache miss" (lower l)) lines)%Z.
Proof.
  revert p. induction lines as [|line lines IH]; intros p; cbn [fold_left].
  - cbv zeta. unfold count_lines. cbn. repeat split; lia.
  - cbv zeta. specialize (IH (scan_line p line)). cbv zeta in IH.
    destruct IH as (H1 & H2 & H3 & H4 & H5 & H6 & H7 & H8 & H9).
    rewrite H1, H2, H3, H4, H5, H6, H7, H8, H9, !count_lines_cons.
    cbn [scan_line stat_calls lookup_calls read_calls write_calls mkdir_calls
         unlink_calls cache_lookups cache_hits cache_misses].
    repeat split; try reflexivity;
      match goal with |- context [bump ?t (?f p)] => rewrite (bump_add t (f p)) end; lia.
Qed.

End CounterScan.

(** C7.  After a scan every counter is the number of lines that pass the
    test of its class, the classes being tested independently, so that one
    line can count in several.  Two classes fall short of a
    case-insensitive keyword match: the [getattr] keyword is looked up in
    the line as written, so that [GETATTR /vault/a] is not counted as a
    stat/getattr call, and no test increments [cache_lookups], which is 0
    after every scan. *)
Theorem counter_scan_counts :
  (forall lines : list string,
      let q := AnalyzeProfiling.analyze_log_patterns (Some lines) in
      AnalyzeProfiling.stat_calls q
      = AnalyzeProfiling.count_lines
          (fun l => contains "getattr" l || contains "stat" (lower l)) lines
      /\ AnalyzeProfiling.lookup_calls q
         = AnalyzeProfiling.count_lines (fun l => contains "lookup" (lower l)) lines
      /\ AnalyzeProfiling.read_calls q
         = AnalyzeProfiling.count_lines (fun l => contains "read" (lower l)) lines
      /\ AnalyzeProfiling.write_calls q
         = AnalyzeProfiling.count_lines (fun l => contains "write" (lower l)) lines
      /\ AnalyzeProfiling.mkdir_calls q
         = AnalyzeProfiling.count_lines (fun l => contains "mkdir" (lower l)) lines
      /\ AnalyzeProfiling.unlink_calls q
         = AnalyzeProfiling.count_lines (fun l => contains "unlink" (lower l)) lines
      /\ AnalyzeProfiling.cache_hits q
         = AnalyzeProfiling.count_lines (fun l => contains "cache hit" (lower l)) lines
      /\ AnalyzeProfiling.cache_misses q
         = AnalyzeProfiling.count_lines (fun l => contains "cache miss" (lower l)) lines)
  /\ (forall log, AnalyzeProfiling.cache_lookups (AnalyzeProfiling.analyze_log_patterns log)
                  = 0%Z)
  /\ (contains "getattr" (lower "GETATTR /vault/a") = true
      /\ AnalyzeProfiling.stat_calls
           (AnalyzeProfiling.analyze_log_patterns (Some ["GETATTR /vault/a"])) = 0%Z)
  /\ AnalyzeProfiling.analyze_log_patterns
       (Some ["lookup: cache hit while reading stat block"])
     = {| AnalyzeProfiling.stat_calls := 1; AnalyzeProfiling.lookup_calls := 1;
          AnalyzeProfiling.read_calls := 1; AnalyzeProfiling.write_calls := 0;
          AnalyzeProfiling.mkdir_calls := 0; AnalyzeProfiling.unlink_calls := 0;
          AnalyzeProfiling.cache_lookups := 0; AnalyzeProfiling.cache_hits := 1;
          AnalyzeProfiling.cache_misses := 0 |}.
Proof.
  split; [|split; [|split]].
  - intros lines. cbv zeta. unfold AnalyzeProfiling.analyze_log_patterns.
    destruct (scan_lines_counts lines AnalyzeProfiling.no_patterns)
      as (H1 & H2 & H3 & H4 & H5 & H6 & _ & H8 & H9).
    cbn [AnalyzeProfiling.no_patterns AnalyzeProfiling.stat_calls
         AnalyzeProfiling.lookup_calls AnalyzeProfiling.read_calls
         AnalyzeProfiling.write_calls AnalyzeProfiling.mkdir_calls
         AnalyzeProfiling.unlink_calls AnalyzeProfiling.cache_hits
         AnalyzeProfiling.cache_misses] in *.
    rewrite H1, H2, H3, H4, H5, H6, H8, H9. repeat split; lia.
  - intros [lines|]; [|reflexivity]. unfold AnalyzeProfiling.analyze_log_patterns.
    destruct (scan_lines_counts lines AnalyzeProfiling.no_patterns)
      as (_ & _ & _ & _ & _ & _ & H7 & _).
    exact H7.
  - split; reflexivity.
  - reflexivity.
Qed.

(** ** Entity decoding of the labels (C8) *)

Section Entities.
Import AnalyzeFlamegraphSimple.

(** A character that does not start the pattern is copied. *)
Lemma replace_from_other (o : ascii) (old new : string) (c : ascii) (s : string) :
  c <> o ->
  replace_from (String o old) new 0 (String c s)
  = String c (replace_from (String o old) new 0 s).
Proof.
  intros Hc. cbn [replace_from String.prefix].
  destruct (ascii_dec o c) as [->|_]; [contradiction|reflexivity].
Qed.

Ltac split_char c :=
  destruct (Ascii.eqb_spec c "<") as [->|?];
  [|destruct (Ascii.eqb_spec c ">") as [->|?];
    [|destruct (Ascii.eqb_spec c "&") as [->|?]]].

Lemma append_cons c s t : String c s +:+ t = String c (s +:+ t).
Proof. reflexivity. Qed.

Lemma append_nil t : "" +:+ t = t.
Proof. reflexivity. Qed.

Lemma prefix_empty s : String.prefix "" s = true.
Proof. now destruct s. Qed.

(** Expose the characters of a concrete prefix and run the replacement over
    them. *)
Ltac run_replace :=
  cbn [andb Ascii.eqb Bool.eqb];
  rewrite ?andb_false_r, ?andb_true_r; cbn [andb];
  rewrite ?append_cons, ?append_nil; cbn;
  rewrite ?prefix_empty, ?append_cons, ?append_nil.

Lemma decode_lt (gt : bool) (s : string) :
  replace "&lt;" "<" (escape_with true gt true s) = escape_with false gt true s.
Proof.
  unfold replace. induction s as [|c s IH]; [reflexivity|].
  cbn [escape_with]. unfold escape_char. split_char c.
  - run_replace. now rewrite IH.
  - destruct gt; run_replace; now rewrite IH.
  - run_replace. now rewrite IH.
  - rewrite ?andb_false_r. cbn [andb]. rewrite ?append_cons, ?append_nil.
    rewrite replace_from_other by assumption. now rewrite IH.
Qed.

Lemma decode_gt (s : string) :
  replace "&gt;" ">" (escape_with false true true s) = escape_with false false true s.
Proof.
  unfold replace. induction s as [|c s IH]; [reflexivity|].
  cbn [escape_with]. unfold escape_char. split_char c.
  - run_replace. now rewrite IH.
  - run_replace. now rewrite IH.
  - run_replace. now rewrite IH.
  - rewrite ?andb_false_r. cbn [andb]. rewrite ?append_cons, ?append_nil.
    rewrite replace_from_other by assumption. now rewrite IH.
Qed.

Lemma decode_amp (s : string) :
  replace "&amp;" "&" (escape_with false false true s) = s.
Proof.
  unfold replace. induction s as [|c s IH]; [reflexivity|].
  cbn [escape_with]. unfold escape_char. split_char c.
  - run_replace. now rewrite IH.
  - run_replace. now rewrite IH.
  - run_replace. now rewrite IH.
  - rewrite ?andb_false_r. cbn [andb]. rewrite ?append_cons, ?append_nil.
    rewrite replace_from_other by assumption. now rewrite IH.
Qed.

(** Decoding undoes the entity encoding of any label. *)
Lemma decode_escape (label : string) : decode_entities (escape label) = label.
Proof.
  unfold decode_entities, escape. now rewrite decode_lt, decode_gt, decode_amp.
Qed.

End Entities.

Lemma hotspot_name_decoded (content : string) hs h :
  AnalyzeFlamegraphSimple.extract_hotspots content = Ok hs -> In h hs ->
  exists c, In c (Re.findall AnalyzeFlamegraphSimple.pattern content)
            /\ AnalyzeFlamegraphSimple.name h
               = AnalyzeFlamegraphSimple.decode_entities (Re.group 1 c).
Proof.
  unfold AnalyzeFlamegraphSimple.extract_hotspots. intros He Hin.
  destruct (mapM _ _) as [hs0|e] eqn:Hm; cbn [bind] in He; [|discriminate].
  injection He as <-.
  apply (Permutation_in _ (sorted_desc_perm _ _)) in Hin.
  destruct (mapM_in _ _ _ _ Hm Hin) as (c & Hc & Hh). exists c. split; [exact Hc|].
  unfold AnalyzeFlamegraphSimple.hotspot_of_match in Hh.
  destruct (Num.float_of_string _); [|discriminate]. now injection Hh as <-.
Qed.

Lemma sample_label_as_matched (content : string) (f : AnalyzeFlamegraph.sample) :
  In f (AnalyzeFlamegraph.parse_flamegraph content) ->
  exists c, In c (Re.findall AnalyzeFlamegraph.pattern content)
            /\ fst (fst f) = Re.group 1 c.
Proof.
  unfold AnalyzeFlamegraph.parse_flamegraph. intros Hin.
  apply list_elem_of_In, list_elem_of_omap in Hin as (c & Hc & Hf).
  exists c. split; [now apply list_elem_of_In|].
  unfold AnalyzeFlamegraph.parse_match in Hf.
  destruct (Num.float_of_string _); [|discriminate].
  destruct (Num.float_of_string _); [|discriminate]. now injection Hf as <-.
Qed.

(** C8.  [extract_hotspots] decodes the label of every sample: the name of
    a hotspot is the matched text with [&lt;], [&gt;] and [&amp;] replaced,
    which recovers any label from its entity encoding.  [parse_flamegraph]
    keeps the label as matched: on the same frame it returns the label with
    the entities still encoded. *)
Theorem labels_entity_decoding :
  (forall label : string,
      AnalyzeFlamegraphSimple.decode_entities (AnalyzeFlamegraphSimple.escape label) = label)
  /\ (forall content hs h,
      AnalyzeFlamegraphSimple.extract_hotspots content = Ok hs -> In h hs ->
      exists c, In c (Re.findall AnalyzeFlamegraphSimple.pattern content)
                /\ AnalyzeFlamegraphSimple.name h
                   = AnalyzeFlamegraphSimple.decode_entities (Re.group 1 c))
  /\ (exists hs,
      AnalyzeFlamegraphSimple.extract_hotspots Examples.encoded_frame = Ok hs
      /\ map AnalyzeFlamegraphSimple.name hs = ["alloc::vec::Vec<T>::push"])
  /\ (forall content f,
      In f (AnalyzeFlamegraph.parse_flamegraph content) ->
      exists c, In c (Re.findall AnalyzeFlamegraph.pattern content)
                /\ fst (fst f) = Re.group 1 c)
  /\ map (fun f : AnalyzeFlamegraph.sample => fst (fst f))
         (AnalyzeFlamegraph.parse_flamegraph Examples.encoded_frame)
     = ["alloc::vec::Vec&lt;T&gt;::push"].
Proof.
  split; [exact decode_escape|].
  split; [exact hotspot_name_decoded|].
  split; [eexists; split; vm_compute; reflexivity|].
  split; [exact sample_label_as_matched|].
  vm_compute. reflexivity.
Qed.

Lemma labels_entity_decoding_witness :
  exists c,
    In c (Re.findall AnalyzeFlamegraphSimple.pattern Examples.encoded_frame)
    /\ "alloc::vec::Vec<T>::push" = AnalyzeFlamegraphSimple.decode_entities (Re.group 1 c).
Proof.
  refine (proj1 (proj2 labels_entity_decoding) Examples.encoded_frame
            [AnalyzeFlamegraphSimple.Build_hotspot "alloc::vec::Vec<T>::push" 5 (100 # 100)]
            (AnalyzeFlamegraphSimple.Build_hotspot "alloc::vec::Vec<T>::push" 5 (100 # 100))
            _ _).
  - vm_compute. reflexivity.
  - left. reflexivity.
Defined.

(** ** Timing extraction (C5) *)

Section TimingLine.
Import Re CompareResults.

(** A greedy repetition in front of a continuation that always succeeds
    stops somewhere and succeeds. *)
Lemma rep_greedy_total {R} (p : ascii -> bool) (s : string) (n : nat)
    (k : string -> nat -> option R) :
  (forall s' n', k s' n' <> None) ->
  exists s' m, rep_greedy p 0 s n k = k s' (n + m)%nat.
Proof.
  intros Hk. revert n. induction s as [|a s IH]; intros n; cbn [rep_greedy Nat.pred].
  - exists "", 0%nat. now rewrite Nat.add_0_r.
  - destruct (p a).
    + destruct (IH (S n)) as (s' & m & ->). exists s', (S m).
      rewrite Nat.add_succ_r. cbn [Nat.add].
      destruct (k s' (S (n + m))) eqn:E; [reflexivity|]. now apply Hk in E.
    + exists (String a s), 0%nat. now rewrite Nat.add_0_r.
Qed.

(** The last item of the pattern, the unit of the deviation, on [ms] and
    whatever follows: the unit starts with [ms]. *)
Lemma timing_tail (post : string) (c : caps) :
  exists m w,
    exec (Seq (Group 4 unit_re) Eps) (String "m" (String "s" post)) 41 c
         (fun _ n c' => Some (n, c'))
    = Some (m, (4%nat, String "m" (String "s" w)) :: c).
Proof.
  cbn [exec unit_re rep_greedy Nat.pred].
  change (between 97 122 "m") with true. change (between 97 122 "s") with true.
  cbv iota.
  match goal with
  | |- context [rep_greedy ?p 0 post 43 ?k] =>
      destruct (rep_greedy_total p post 43 k) as (s' & m & ->); [discriminate|]
  end.
  exists (43 + m)%nat, (substring 0 m post).
  replace (43 + m - 41)%nat with (S (S m)) by lia. reflexivity.
Qed.

(** The pattern is its first ten items followed by the last one. *)
Lemma timing_split s n c (k : string -> nat -> caps -> option (nat * caps)) :
  exec timing_pattern s n c k
  = exec (seq [ lit "Time"; Rep false 0 any; lit "mean"; Rep false 0 any;
                Group 1 number_re; Rep true 0 space; Group 2 unit_re;
                Rep false 0 any; Group 3 number_re; Rep true 0 space ])
         s n c (fun s' n' c' => exec (Seq (Group 4 unit_re) Eps) s' n' c' k).
Proof. reflexivity. Qed.

(** On the timing line the first ten items reach the unit of the deviation
    with the groups [5.09], [s] and [11.71], at their first attempt. *)
Lemma timing_head {R} (K : string -> nat -> caps -> option R) (post : string) X :
  K (String "m" (String "s" post)) 41%nat [(3%nat, "11.71"); (2%nat, "s"); (1%nat, "5.09")]
  = Some X ->
  exec (seq [ lit "Time"; Rep false 0 any; lit "mean"; Rep false 0 any;
              Group 1 number_re; Rep true 0 space; Group 2 unit_re;
              Rep false 0 any; Group 3 number_re; Rep true 0 space ])
       ("Time (mean ± σ):      5.09 s ±  11.71 ms" ++ post) 0 [] K
  = Some X.
Proof.
  intros HK. cbv [String.append]. vm_compute. vm_compute in HK. rewrite HK. reflexivity.
Qed.

Lemma match_timing_line (post : string) :
  exists m w,
    match_at timing_pattern ("Time (mean ± σ):      5.09 s ±  11.71 ms" ++ post)
    = Some (m, [(4%nat, String "m" (String "s" w)); (3%nat, "11.71"); (2%nat, "s");
                (1%nat, "5.09")]).
Proof.
  destruct (timing_tail post [(3%nat, "11.71"); (2%nat, "s"); (1%nat, "5.09")])
    as (m & w & Htail).
  exists m, w. unfold match_at. rewrite timing_split. now apply timing_head.
Qed.

(** A literal does not match a text that it is not a prefix of. *)
Lemma exec_lit_fail {R} (w s : string) n c (k : string -> nat -> caps -> option R) :
  String.prefix w s = false -> exec (lit w) s n c k = None.
Proof.
  revert s n. induction w as [|a w IH]; intros s n Hp.
  - now rewrite prefix_empty in Hp.
  - cbn [lit exec]. destruct s as [|b s]; [reflexivity|].
    cbn [String.prefix] in Hp. unfold chr_is.
    destruct (Ascii.eqb_spec a b) as [->|Hab].
    + destruct (ascii_dec b b); [|contradiction]. now apply IH.
    + reflexivity.
Qed.

Lemma prefix_app (w u x : string) :
  (String.length w <= String.length u)%nat ->
  String.prefix w (u +:+ x) = String.prefix w u.
Proof.
  revert u. induction w as [|a w IH]; intros u Hlen.
  - now rewrite !prefix_empty.
  - destruct u as [|b u]; cbn [String.length] in Hlen; [lia|].
    change (String b u +:+ x) with (String b (u +:+ x)). cbn [String.prefix].
    destruct (ascii_dec a b); [|reflexivity]. apply IH. lia.
Qed.

Lemma app_assoc_str (a b c : string) : (a +:+ b) +:+ c = a +:+ (b +:+ c).
Proof.
  induction a as [|x a IH]; [reflexivity|].
  change (String x ((a +:+ b) +:+ c) = String x (a +:+ (b +:+ c))). now rewrite IH.
Qed.

Lemma length_app_str (a b : string) :
  String.length (a +:+ b) = (String.length a + String.length b)%nat.
Proof.
  induction a as [|x a IH]; [reflexivity|].
  change (S (String.length (a +:+ b)) = S (String.length a + String.length b)).
  now rewrite IH.
Qed.

(** The search passes over a text in which [Time] does not occur. *)
Lemma search_skip (pre rest : string) :
  contains "Time" (pre +:+ "Tim") = false ->
  search timing_pattern (pre +:+ ("Time" +:+ rest))
  = search timing_pattern ("Time" +:+ rest).
Proof.
  induction pre as [|a pre IH]; intros Hc; [reflexivity|].
  change (String a pre +:+ "Tim") with (String a (pre +:+ "Tim")) in Hc.
  cbn [contains] in Hc. apply orb_false_iff in Hc as [Hp Hc].
  change (String a pre +:+ ("Time" +:+ rest)) with (String a (pre +:+ ("Time" +:+ rest))).
  cbn [search]. unfold match_at at 1.
  change timing_pattern with (Seq (lit "Time") (seq [ Rep false 0 any; lit "mean"; Rep false 0 any;
        Group 1 number_re; Rep true 0 space; Group 2 unit_re;
        Rep false 0 any;
        Group 3 number_re; Rep true 0 space; Group 4 unit_re ])) at 1.
  cbn [exec]. rewrite exec_lit_fail; [now apply IH|].
  change (String a (pre +:+ ("Time" +:+ rest))) with (String a pre +:+ ("Tim" +:+ ("e" +:+ rest))).
  rewrite <- app_assoc_str, prefix_app; [exact Hp|].
  rewrite length_app_str. cbn. lia.
Qed.

(** Removing the colour codes keeps a character other than [ESC]. *)
Lemma sub_skip (a : ascii) (s : string) :
  a <> ascii_of_nat 27 ->
  sub_from ansi_escape "" 0 (String a s) = String a (sub_from ansi_escape "" 0 s).
Proof.
  intros Ha. cbn [sub_from]. unfold match_at, ansi_escape. cbn [exec]. unfold chr_is.
  destruct (Ascii.eqb_spec (ascii_of_nat 27) a) as [<-|_]; [contradiction|reflexivity].
Qed.

Lemma sub_pre (pre rest : string) :
  contains Examples.esc pre = false ->
  sub ansi_escape "" (pre +:+ rest) = pre +:+ sub ansi_escape "" rest.
Proof.
  unfold sub. induction pre as [|a pre IH]; intros Hc; [reflexivity|].
  cbn [contains] in Hc. apply orb_false_iff in Hc as [Hp Hc].
  change (String a pre +:+ rest) with (String a (pre +:+ rest)).
  rewrite sub_skip, IH; [reflexivity|exact Hc|].
  intros ->. unfold Examples.esc in Hp. cbn [String.prefix] in Hp.
  destruct (ascii_dec _ _); [|contradiction]. now rewrite prefix_empty in Hp.
Qed.

Lemma sub_timing_line (post : string) :
  sub ansi_escape "" ("Time (mean ± σ):      5.09 s ±  11.71 ms" +:+ post)
  = "Time (mean ± σ):      5.09 s ±  11.71 ms" +:+ sub ansi_escape "" post.
Proof.
  unfold sub. cbv [String.append]. now rewrite !sub_skip by discriminate.
Qed.

Lemma search_found (r : regex) (s : string) (x : nat * caps) :
  match_at r s = Some x -> search r s = Some (snd x).
Proof. destruct x as [n c]. intros H. destruct s; cbn [search]; now rewrite H. Qed.

(** The timing line [5.09 s ± 11.71 ms] is extracted as 5090 ms and
    11.71 ms whatever follows it and whatever plain text comes before it. *)
Lemma extract_timing_line (pre post : string) :
  Examples.plain_before_timing pre = true ->
  exists mean_ms sigma_ms,
    extract_metrics (Some (pre ++ "Time (mean ± σ):      5.09 s ±  11.71 ms" ++ post))
    = Some (mean_ms, sigma_ms)
    /\ mean_ms == 5090 /\ sigma_ms == 1171 # 100.
Proof.
  unfold Examples.plain_before_timing. rewrite andb_true_iff, !negb_true_iff.
  intros [Hesc Htime]. unfold extract_metrics.
  rewrite sub_pre, sub_timing_line by exact Hesc.
  change ("Time (mean ± σ):      5.09 s ±  11.71 ms" +:+ sub ansi_escape "" post)
    with ("Time" +:+ (" (mean ± σ):      5.09 s ±  11.71 ms" +:+ sub ansi_escape "" post)).
  rewrite search_skip by exact Htime.
  change ("Time" +:+ (" (mean ± σ):      5.09 s ±  11.71 ms" +:+ sub ansi_escape "" post))
    with ("Time (mean ± σ):      5.09 s ±  11.71 ms" +:+ sub ansi_escape "" post).
  destruct (match_timing_line (sub ansi_escape "" post)) as (m & w & Hm).
  rewrite (search_found _ _ _ Hm). cbn [snd group Nat.eqb].
  change (Num.float_of_string "5.09") with (Some (509 # 100)).
  change (Num.float_of_string "11.71") with (Some (1171 # 100)).
  unfold to_milliseconds. cbn [String.eqb Ascii.eqb Bool.eqb].
  destruct (String.eqb w ""); do 2 eexists; (split; [reflexivity|split; reflexivity]).
Qed.

End TimingLine.

(** C5.  The timing extraction returns both values in milliseconds, whether
    the report gives them in seconds or in milliseconds: a report with the
    timing line [Time (mean ± σ): 5.09 s ± 11.71 ms], whatever follows the
    line and whatever plain text precedes it, gives a mean of 5090 ms and a
    deviation of 11.71 ms; so does the report with the colour codes of a
    terminal; and binary64 arithmetic gives exactly 5090.0 for
    [5.09 * 1000]. *)
#[warnings="-inexact-float"] Theorem timing_extraction_in_milliseconds
    (pre post : string) :
  Examples.plain_before_timing pre = true ->
  (exists mean_ms sigma_ms,
      CompareResults.extract_metrics
        (Some (pre ++ "Time (mean ± σ):      5.09 s ±  11.71 ms" ++ post))
      = Some (mean_ms, sigma_ms)
      /\ mean_ms == 5090 /\ sigma_ms == 1171 # 100)
  /\ (forall m sg : Q,
      CompareResults.to_milliseconds m "s" sg "ms" = Some (m * 1000, sg)
      /\ CompareResults.to_milliseconds m "s" sg "s" = Some (m * 1000, sg * 1000)
      /\ CompareResults.to_milliseconds m "ms" sg "ms" = Some (m, sg)
      /\ CompareResults.to_milliseconds m "ms" sg "s" = Some (m, sg * 1000))
  /\ (exists mean_ms sigma_ms,
      CompareResults.extract_metrics (Some Examples.coloured_report)
      = Some (mean_ms, sigma_ms)
      /\ mean_ms == 5090 /\ sigma_ms == 1171 # 100)
  /\ (exists mean_ms sigma_ms,
      CompareResults.extract_metrics (Some (Examples.report_of "850.25 ms ± 0.02 s"))
      = Some (mean_ms, sigma_ms)
      /\ mean_ms == 85025 # 100 /\ sigma_ms == 20)
  /\ Binary64.to_milliseconds 5.09 "s" 11.71 "ms" = Some (5090, 11.71)%float.
Proof.
  intros Hpre.
  split; [now apply extract_timing_line|].
  split; [intros m sg; repeat split|].
  split; [|split];
    [do 2 eexists; (split; [vm_compute; reflexivity|split; reflexivity])..|].
  vm_compute. reflexivity.
Qed.

Lemma timing_extraction_in_milliseconds_witness :
  exists mean_ms sigma_ms,
    CompareResults.extract_metrics (Some Examples.timing_line) = Some (mean_ms, sigma_ms)
    /\ mean_ms == 5090 /\ sigma_ms == 1171 # 100.
Proof.
  exact (proj1 (timing_extraction_in_milliseconds
                  "  " "    [User: 1.20 s, System: 0.31 s]" eq_refl)).
Defined.

(** ** Run comparison (C6, C9) *)

Lemma compare_expected (baseline phase1 : option (Q * Q)) :
  (forall b sb, baseline = Some (b, sb) -> phase1 <> None -> ~ b == 0) ->
  CompareResults.compare baseline phase1
  = Ok (CompareResults.expected_report baseline phase1).
Proof.
  intros Hnz. unfold CompareResults.compare, CompareResults.expected_report.
  destruct baseline as [[b sb]|]; [|reflexivity].
  destruct phase1 as [[c sc]|]; [|reflexivity].
  rewrite truediv_nonzero; [reflexivity|]. now apply (Hnz b sb).
Qed.

Lemma compare_could_not_extract (baseline phase1 : option (Q * Q)) :
  baseline = None \/ phase1 = None ->
  CompareResults.compare baseline phase1
  = Ok (CompareResults.CouldNotExtract baseline phase1).
Proof.
  intros [-> | ->]; [reflexivity|]. now destruct baseline as [[b sb]|].
Qed.

Lemma digits_val_nonneg (s : string) (acc : Z) :
  Num.all_digits s = true -> (0 <= acc)%Z -> (0 <= Num.digits_val acc s)%Z.
Proof.
  revert acc. induction s as [|a s IH]; cbn [Num.all_digits Num.digits_val]; intros acc Hd Hacc.
  - exact Hacc.
  - apply andb_true_iff in Hd as [Ha Hs]. apply IH; [exact Hs|].
    unfold Re.digit, Re.between in Ha. apply andb_true_iff in Ha as [Hlo _].
    apply Nat.leb_le in Hlo. unfold Num.digit_val. lia.
Qed.

Lemma all_digits_app (s t : string) :
  Num.all_digits s = true -> Num.all_digits t = true -> Num.all_digits (s ++ t) = true.
Proof.
  intros Hs Ht. induction s as [|a s IH]; [exact Ht|].
  cbn [Num.all_digits] in Hs. apply andb_true_iff in Hs as [Ha Hs].
  change (Num.all_digits (String a (s ++ t)) = true). cbn [Num.all_digits].
  now rewrite Ha, IH.
Qed.

Lemma float_of_string_nonneg (s : string) (q : Q) :
  Num.float_of_string s = Some q -> 0 <= q.
Proof.
  unfold Num.float_of_string. destruct (Num.split_dot s) as [i [f|]].
  - destruct (Num.all_digits i) eqn:Hi; [|discriminate].
    destruct (Num.all_digits f) eqn:Hf; [|discriminate].
    cbn [andb]. destruct (negb _); [|discriminate]. intros [= <-].
    pose proof (digits_val_nonneg (i ++ f) 0 (all_digits_app _ _ Hi Hf) (Z.le_refl 0)).
    unfold Qle. cbn [Qnum Qden]. lia.
  - destruct (Num.all_digits i) eqn:Hi; [|discriminate].
    cbn [andb]. destruct (negb _); [|discriminate]. intros [= <-].
    pose proof (digits_val_nonneg i 0 Hi (Z.le_refl 0)).
    unfold Qle. cbn [Qnum Qden inject_Z]. lia.
Qed.

(** The extracted values are never negative. *)
Lemma extract_metrics_nonneg (file : option string) (mean_ms sigma_ms : Q) :
  CompareResults.extract_metrics file = Some (mean_ms, sigma_ms) ->
  0 <= mean_ms /\ 0 <= sigma_ms.
Proof.
  unfold CompareResults.extract_metrics. destruct file as [content|]; [|discriminate].
  destruct (Re.search _ _) as [c|]; [|discriminate].
  destruct (Num.float_of_string (Re.group 1 c)) as [m|] eqn:Hm; [|discriminate].
  destruct (Num.float_of_string (Re.group 3 c)) as [sg|] eqn:Hs; [|discriminate].
  apply float_of_string_nonneg in Hm, Hs.
  assert (Hk : forall x, 0 <= x -> 0 <= x * 1000).
  { intros x Hx. apply Qmult_le_0_compat; [exact Hx|discriminate]. }
  unfold CompareResults.to_milliseconds.
  destruct (String.eqb (Re.group 2 c) "s");
    [|destruct (String.eqb (Re.group 2 c) "ms"); [|discriminate]];
    destruct (String.eqb (Re.group 4 c) "ms"); try destruct (String.eqb (Re.group 4 c) "s");
    intros [= <- <-]; split; auto.
Qed.

Lemma delta_signs (b c : Q) :
  0 < b -> (0 < b - c <-> c < b) /\ (0 < (b - c) / b * 100 <-> c < b).
Proof.
  intros Hpos.
  assert (Hb : ~ b == 0).
  { intros H0. rewrite H0 in Hpos. now apply Qlt_irrefl in Hpos. }
  assert (Hd : 0 < b - c <-> c < b).
  { rewrite <- (Qlt_minus_iff c b). reflexivity. }
  split; [exact Hd|]. rewrite <- Hd. split; intros H.
  - assert (H1 : 0 < (b - c) / b).
    { apply (Qmult_lt_r _ _ 100); [reflexivity|]. now rewrite Qmult_0_l. }
    apply (Qmult_lt_r _ _ b) in H1; [|exact Hpos].
    rewrite Qmult_0_l in H1. unfold Qdiv in H1.
    rewrite <- Qmult_assoc, (Qmult_comm (/ b)), Qmult_inv_r, Qmult_1_r in H1 by exact Hb.
    exact H1.
  - apply Qmult_lt_0_compat; [|reflexivity].
    apply Qlt_shift_div_l; [exact Hpos|]. now rewrite Qmult_0_l.
Qed.

(** C6 (amended).  For a workload whose two extractions succeed with a
    baseline mean that is not zero, the comparator computes
    [delta = baselineMean - candidateMean] and
    [deltaPct = delta / baselineMean * 100], and both are positive exactly
    when the candidate is faster than the baseline. *)
Theorem run_comparison_delta (baseline_file phase1_file : option string)
    (b sb c sc : Q) :
  CompareResults.extract_metrics baseline_file = Some (b, sb) ->
  CompareResults.extract_metrics phase1_file = Some (c, sc) ->
  ~ b == 0 ->
  CompareResults.compare (CompareResults.extract_metrics baseline_file)
                         (CompareResults.extract_metrics phase1_file)
  = Ok (CompareResults.Change (b, sb) (c, sc) (b - c) ((b - c) / b * 100))
  /\ (0 < b - c <-> c < b)
  /\ (0 < (b - c) / b * 100 <-> c < b).
Proof.
  intros Hbase Hphase Hb. rewrite Hbase, Hphase. split.
  - unfold CompareResults.compare. now rewrite truediv_nonzero.
  - apply delta_signs. destruct (extract_metrics_nonneg _ _ _ Hbase) as [Hnn _].
    apply Qle_lt_or_eq in Hnn as [Hlt|Heq]; [exact Hlt|]. now symmetry in Heq.
Qed.

Lemma run_comparison_delta_witness :
  exists delta pct,
    CompareResults.compare
      (CompareResults.extract_metrics (Some (Examples.report_of "5.09 s ± 11.71 ms")))
      (CompareResults.extract_metrics (Some (Examples.report_of "4.50 s ± 3.00 ms")))
    = Ok (CompareResults.Change (509000 # 100, 1171 # 100) (450000 # 100, 300 # 100)
                                delta pct)
    /\ delta == 590 /\ 1159 # 100 <= pct /\ pct < 1160 # 100 /\ 0 < delta /\ 0 < pct.
Proof.
  destruct (run_comparison_delta
              (Some (Examples.report_of "5.09 s ± 11.71 ms"))
              (Some (Examples.report_of "4.50 s ± 3.00 ms"))
              (509000 # 100) (1171 # 100) (450000 # 100) (300 # 100))
    as [Hc _].
  - vm_compute. reflexivity.
  - vm_compute. reflexivity.
  - discriminate.
  - do 2 eexists. split; [exact Hc|]. repeat split; discriminate.
Defined.

(** The same example on the machine operations: the change is 590 ms and
    the percentage prints as [+11.59]. *)
#[warnings="-inexact-float"] Example binary64_run_comparison :
  Binary64.improvement 5090 4500 = (590, 11.591355599214145)%float.
Proof. vm_compute. reflexivity. Qed.

(** The claim as stated fails for a baseline whose mean is zero: both
    extractions succeed and the division raises. *)
Lemma run_comparison_zero_baseline :
  exists b c,
    CompareResults.extract_metrics (Some (Examples.report_of "0.00 s ± 0.00 s")) = Some b
    /\ CompareResults.extract_metrics (Some (Examples.report_of "1.25 s ± 2.00 ms")) = Some c
    /\ CompareResults.compare
         (CompareResults.extract_metrics (Some (Examples.report_of "0.00 s ± 0.00 s")))
         (CompareResults.extract_metrics (Some (Examples.report_of "1.25 s ± 2.00 ms")))
       = Raise ZeroDivisionError.
Proof.
  do 2 eexists. split; [vm_compute; reflexivity|].
  split; vm_compute; reflexivity.
Qed.

Lemma compare_workload_could_not_extract (w : CompareResults.workload) :
  CompareResults.extract_metrics (CompareResults.baseline_file w) = None
  \/ CompareResults.extract_metrics (CompareResults.phase1_file w) = None ->
  CompareResults.compare_workload w
  = Ok (CompareResults.wl_name w,
        CompareResults.CouldNotExtract
          (CompareResults.extract_metrics (CompareResults.baseline_file w))
          (CompareResults.extract_metrics (CompareResults.phase1_file w))).
Proof.
  intros Hfail. unfold CompareResults.compare_workload.
  now rewrite compare_could_not_extract.
Qed.

Lemma compare_all_expected (ws : list CompareResults.workload) :
  CompareResults.nonzero_baselines ws = true ->
  CompareResults.compare_all ws = (CompareResults.expected_rows ws, None).
Proof.
  unfold CompareResults.compare_all, CompareResults.nonzero_baselines,
    CompareResults.expected_rows.
  induction ws as [|w ws IH]; cbn [forallb for_each map]; intros Hnz; [reflexivity|].
  apply andb_true_iff in Hnz as [Hw Hws].
  unfold CompareResults.compare_workload at 1.
  rewrite compare_expected.
  - cbn [bind]. now rewrite IH.
  - intros b sb Hb Hp Hz. unfold CompareResults.compared_baseline in Hw.
    rewrite Hb in Hw. destruct (CompareResults.extract_metrics (CompareResults.phase1_file w));
      [|contradiction].
    apply Qeq_bool_iff in Hz. now rewrite Hz in Hw.
Qed.

(** C9 (amended).  A workload with a failed extraction is reported as
    "could not extract metrics" without an exception and the loop goes on
    with the remaining workloads; when no compared workload has a baseline
    mean of zero, the run ends normally with one row per workload, in
    order: the notice for a failed extraction, the change for every workload
    whose two extractions both succeed. *)
Theorem run_comparison_partial_results (ws : list CompareResults.workload) :
  CompareResults.nonzero_baselines ws = true ->
  CompareResults.compare_all ws = (CompareResults.expected_rows ws, None)
  /\ (forall w,
      In w ws ->
      CompareResults.extract_metrics (CompareResults.baseline_file w) = None
      \/ CompareResults.extract_metrics (CompareResults.phase1_file w) = None ->
      In (CompareResults.wl_name w,
          CompareResults.CouldNotExtract
            (CompareResults.extract_metrics (CompareResults.baseline_file w))
            (CompareResults.extract_metrics (CompareResults.phase1_file w)))
         (fst (CompareResults.compare_all ws)))
  /\ (forall w b sb c sc,
      In w ws ->
      CompareResults.extract_metrics (CompareResults.baseline_file w) = Some (b, sb) ->
      CompareResults.extract_metrics (CompareResults.phase1_file w) = Some (c, sc) ->
      In (CompareResults.wl_name w,
          CompareResults.Change (b, sb) (c, sc) (b - c) ((b - c) / b * 100))
         (fst (CompareResults.compare_all ws)))
  /\ (forall w rest,
      CompareResults.extract_metrics (CompareResults.baseline_file w) = None
      \/ CompareResults.extract_metrics (CompareResults.phase1_file w) = None ->
      CompareResults.compare_all (w :: rest)
      = ((CompareResults.wl_name w,
          CompareResults.CouldNotExtract
            (CompareResults.extract_metrics (CompareResults.baseline_file w))
            (CompareResults.extract_metrics (CompareResults.phase1_file w)))
           :: fst (CompareResults.compare_all rest),
         snd (CompareResults.compare_all rest))).
Proof.
  intros Hnz. pose proof (compare_all_expected ws Hnz) as Hall.
  split; [exact Hall|]. rewrite Hall. cbn [fst]. unfold CompareResults.expected_rows.
  split; [|split].
  - intros w Hin Hfail. apply in_map_iff. exists w. split; [|exact Hin].
    f_equal. unfold CompareResults.expected_report.
    destruct Hfail as [-> | ->]; [reflexivity|].
    now destruct (CompareResults.extract_metrics (CompareResults.baseline_file w)) as [[? ?]|].
  - intros w b sb c sc Hin Hb Hc. apply in_map_iff. exists w. split; [|exact Hin].
    now rewrite Hb, Hc.
  - intros w rest Hfail. unfold CompareResults.compare_all. cbn [for_each].
    rewrite compare_workload_could_not_extract by exact Hfail.
    now destruct (for_each CompareResults.compare_workload rest).
Qed.

Lemma run_comparison_partial_results_witness :
  exists rows,
    CompareResults.compare_all
      [ CompareResults.Build_workload "concurrent" None
          (Some (Examples.report_of "4.50 s ± 3.00 ms"));
        CompareResults.Build_workload "backup"
          (Some (Examples.report_of "5.09 s ± 11.71 ms"))
          (Some (Examples.report_of "4.50 s ± 3.00 ms")) ]
    = (rows, None)
    /\ map fst rows = ["concurrent"; "backup"].
Proof.
  eexists. split.
  - refine (proj1 (run_comparison_partial_results _ _)).
    vm_compute. reflexivity.
  - reflexivity.
Defined.

(** The claim as stated fails when a later workload has a baseline mean of
    zero: its two extractions succeed, the division raises, and neither it
    nor the workload after it gets a row. *)
Lemma run_comparison_aborts_on_zero_baseline :
  CompareResults.compared_baseline
    (CompareResults.Build_workload "media"
       (Some (Examples.report_of "0.00 s ± 0.00 s"))
       (Some (Examples.report_of "1.25 s ± 2.00 ms"))) <> None
  /\ CompareResults.compared_baseline
       (CompareResults.Build_workload "backup"
          (Some (Examples.report_of "5.09 s ± 11.71 ms"))
          (Some (Examples.report_of "4.50 s ± 3.00 ms"))) <> None
  /\ exists rows,
      CompareResults.compare_all Examples.workloads = (rows, Some ZeroDivisionError)
      /\ map fst rows = ["concurrent"].
Proof.
  split; [vm_compute; discriminate|].
  split; [vm_compute; discriminate|].
  eexists. split; [vm_compute; reflexivity|reflexivity].
Qed.

(** ** Snapshot extraction (C10) *)

Section Snapshots.
Import ProfileConcurrent.

Lemma get_missing (d : gmap string json) key default :
  d !! key = None -> get d key default = default.
Proof. intros H. unfold get. now rewrite H. Qed.

Lemma cache_get_ok (stats : gmap string json) key :
  stats !! "cache" = None \/ (exists cache, stats !! "cache" = Some (JObj cache)) ->
  cache_get stats key
  = Ok (get (match stats !! "cache" with Some (JObj cache) => cache | _ => ∅ end)
            key (JInt 0)).
Proof.
  unfold cache_get, get at 1. intros [H|[cache H]]; now rewrite H.
Qed.

Lemma cache_get_raises (stats : gmap string json) key v :
  stats !! "cache" = Some v -> (forall cache, v <> JObj cache) ->
  cache_get stats key = Raise AttributeError.
Proof.
  unfold cache_get, get at 1. intros -> Hv. destruct v; try reflexivity.
  now destruct (Hv m).
Qed.

Lemma extract_snapshot_fails_iff (now : Q) (stats : gmap string json) :
  extract_snapshot now stats = None
  <-> exists v, stats !! "cache" = Some v /\ forall cache, v <> JObj cache.
Proof.
  unfold extract_snapshot, build_snapshot. split.
  - destruct (stats !! "cache") as [v|] eqn:Hc.
    + intros Hnone. exists v. split; [reflexivity|]. intros cache ->.
      rewrite !cache_get_ok in Hnone by (right; now exists cache). discriminate.
    + rewrite !cache_get_ok by now left. discriminate.
  - intros (v & Hc & Hv). now rewrite (cache_get_raises _ _ v).
Qed.

End Snapshots.

(** C10.  Whatever keys the payload lacks, snapshot extraction returns a
    snapshot: a missing counter is 0, a missing latency is 0.0, a missing
    cache object gives 0 for its three fields, as does a cache object that
    lacks one of them; the keys that are present are passed through.  The
    extraction returns no snapshot only for a payload whose [cache] entry
    is present and is not an object. *)
Theorem snapshot_defaults (now : Q) (stats : gmap string ProfileConcurrent.json) :
  stats !! "cache" = None
  \/ (exists cache, stats !! "cache" = Some (ProfileConcurrent.JObj cache)) ->
  let cache := match stats !! "cache" with
               | Some (ProfileConcurrent.JObj cache) => cache
               | _ => ∅
               end in
  let field key default :=
    match stats !! key with Some v => v | None => default end in
  let cache_field key :=
    match cache !! key with Some v => v | None => ProfileConcurrent.JInt 0 end in
  ProfileConcurrent.extract_snapshot now stats
  = Some {| ProfileConcurrent.timestamp := now;
            ProfileConcurrent.total_reads := field "total_reads" (ProfileConcurrent.JInt 0);
            ProfileConcurrent.total_writes := field "total_writes" (ProfileConcurrent.JInt 0);
            ProfileConcurrent.total_metadata_ops :=
              field "total_metadata_ops" (ProfileConcurrent.JInt 0);
            ProfileConcurrent.bytes_read := field "bytes_read" (ProfileConcurrent.JInt 0);
            ProfileConcurrent.bytes_written :=
              field "bytes_written" (ProfileConcurrent.JInt 0);
            ProfileConcurrent.read_latency_avg_ms :=
              field "read_latency_avg_ms" (ProfileConcurrent.JFloat 0);
            ProfileConcurrent.write_latency_avg_ms :=
              field "write_latency_avg_ms" (ProfileConcurrent.JFloat 0);
            ProfileConcurrent.metadata_latency_avg_ms :=
              field "metadata_latency_avg_ms" (ProfileConcurrent.JFloat 0);
            ProfileConcurrent.cache_hits := cache_field "hits";
            ProfileConcurrent.cache_misses := cache_field "misses";
            ProfileConcurrent.cache_entries := cache_field "entries";
            ProfileConcurrent.errors := field "total_errors" (ProfileConcurrent.JInt 0) |}
  /\ (stats !! "cache" = None ->
      cache_field "hits" = ProfileConcurrent.JInt 0
      /\ cache_field "misses" = ProfileConcurrent.JInt 0
      /\ cache_field "entries" = ProfileConcurrent.JInt 0)
  /\ (forall now' stats',
      ProfileConcurrent.extract_snapshot now' stats' = None
      <-> exists v, stats' !! "cache" = Some v
                    /\ forall cache', v <> ProfileConcurrent.JObj cache').
Proof.
  intros Hcache. cbv zeta. split; [|split].
  - unfold ProfileConcurrent.extract_snapshot, ProfileConcurrent.build_snapshot.
    rewrite !cache_get_ok by exact Hcache. reflexivity.
  - intros ->. rewrite !lookup_empty. repeat split.
  - exact extract_snapshot_fails_iff.
Qed.

Lemma snapshot_defaults_witness :
  ProfileConcurrent.extract_snapshot 5 Examples.payload2
  = Some {| ProfileConcurrent.timestamp := 5;
            ProfileConcurrent.total_reads := ProfileConcurrent.JInt 120;
            ProfileConcurrent.total_writes := ProfileConcurrent.JInt 40;
            ProfileConcurrent.total_metadata_ops := ProfileConcurrent.JInt 0;
            ProfileConcurrent.bytes_read := ProfileConcurrent.JInt 8192;
            ProfileConcurrent.bytes_written := ProfileConcurrent.JInt 0;
            ProfileConcurrent.read_latency_avg_ms := ProfileConcurrent.JFloat 0;
            ProfileConcurrent.write_latency_avg_ms := ProfileConcurrent.JFloat 0;
            ProfileConcurrent.metadata_latency_avg_ms := ProfileConcurrent.JFloat 0;
            ProfileConcurrent.cache_hits := ProfileConcurrent.JInt 0;
            ProfileConcurrent.cache_misses := ProfileConcurrent.JInt 0;
            ProfileConcurrent.cache_entries := ProfileConcurrent.JInt 0;
            ProfileConcurrent.errors := ProfileConcurrent.JInt 0 |}.
Proof.
  refine (eq_trans (proj1 (snapshot_defaults 5 Examples.payload2 _)) _).
  - left. vm_compute. reflexivity.
  - vm_compute. reflexivity.
Defined.

(** ** The sampling loop and the elapsed time (C2) *)

Section Rates.
Import ProfileConcurrent.

Lemma number_ok (v : json) : is_number v = true -> number v = Ok (as_Q v).
Proof. unfold as_Q. destruct v; cbn; intros H; (reflexivity || discriminate). Qed.

Lemma float_of_int_ok (z : Z) :
  (Z.abs z < 2 ^ 1023)%Z -> float_of_int z = Ok (inject_Z z).
Proof.
  intros Hz. unfold float_of_int.
  assert (H : (Z.abs z <? 2 ^ 1024 - 2 ^ 970)%Z = true).
  { apply Z.ltb_lt. eapply Z.lt_le_trans; [exact Hz|]. now vm_compute. }
  now rewrite H.
Qed.

Lemma float_sized_int (z : Z) :
  float_sized (JInt z) = true -> (Z.abs z < 2 ^ 1022)%Z.
Proof. cbn [float_sized]. apply Z.ltb_lt. Qed.

Lemma pow_1022_1023 : (2 * 2 ^ 1022 = 2 ^ 1023)%Z.
Proof. now vm_compute. Qed.

Lemma subtract_ok (cur prev : json) :
  is_number cur = true -> is_number prev = true ->
  float_sized cur = true -> float_sized prev = true ->
  exists d, subtract cur prev = Ok d
            /\ match d with NInt z => (Z.abs z < 2 ^ 1023)%Z | NFloat _ => True end.
Proof.
  intros Hc Hp Sc Sp. pose proof pow_1022_1023 as Hpow.
  assert (H1 : (1 < 2 ^ 1022)%Z) by now vm_compute.
  remember (2 ^ 1022)%Z as bound eqn:Hbound.
  assert (Hint : forall v z, as_num v = Some (NInt z) -> is_number v = true ->
                             float_sized v = true -> (Z.abs z < bound)%Z).
  { intros [|b|z'|q| | |] z Hv Hn Hs; try discriminate; injection Hv as <-.
    - destruct b; cbn; lia.
    - subst bound. now apply float_sized_int. }
  assert (Hnum : forall v, is_number v = true -> exists n, as_num v = Some n).
  { intros [|b|z|q| | |] H; try discriminate; cbn [as_num]; eauto. }
  destruct (Hnum cur Hc) as (nc & Hnc). destruct (Hnum prev Hp) as (np & Hnp).
  unfold subtract. rewrite Hnc, Hnp.
  destruct nc as [x|p], np as [y|q].
  - specialize (Hint cur x Hnc Hc Sc) as Hx. specialize (Hint prev y Hnp Hp Sp) as Hy.
    eexists. split; [reflexivity|]. rewrite <- Hpow. lia.
  - specialize (Hint cur x Hnc Hc Sc) as Hx.
    rewrite float_of_int_ok by (rewrite <- Hpow; lia). cbn [bind].
    eexists. split; [reflexivity|exact I].
  - specialize (Hint prev y Hnp Hp Sp) as Hy.
    rewrite float_of_int_ok by (rewrite <- Hpow; lia). cbn [bind].
    eexists. split; [reflexivity|exact I].
  - eexists. split; [reflexivity|exact I].
Qed.

Lemma rate_ok (cur prev : json) (dt : Q) :
  is_number cur = true -> is_number prev = true ->
  float_sized cur = true -> float_sized prev = true -> ~ dt == 0 ->
  exists q, rate cur prev dt = Ok q.
Proof.
  intros Hc Hp Sc Sp Hdt.
  destruct (subtract_ok cur prev Hc Hp Sc Sp) as (d & Hd & Hsize).
  unfold rate. rewrite Hd. cbn [bind]. unfold divide.
  destruct d as [z|q]; [rewrite float_of_int_ok by exact Hsize|]; cbn [bind];
    rewrite truediv_nonzero by exact Hdt; eauto.
Qed.

(** With a divisor of zero the rate is never a value. *)
Lemma rate_zero_raises (cur prev : json) (dt : Q) :
  dt == 0 -> exists e, rate cur prev dt = Raise e.
Proof.
  intros Hdt. unfold rate.
  destruct (subtract cur prev) as [d|e]; cbn [bind]; [|eauto].
  unfold divide.
  destruct (match d with NInt z => float_of_int z | NFloat q => Ok q end) as [f|e];
    cbn [bind]; [|eauto].
  rewrite truediv_zero by exact Hdt. eauto.
Qed.

Lemma rate_zero (cur prev : json) (dt : Q) :
  is_number cur = true -> is_number prev = true ->
  float_sized cur = true -> float_sized prev = true -> dt == 0 ->
  rate cur prev dt = Raise ZeroDivisionError.
Proof.
  intros Hc Hp Sc Sp Hdt.
  destruct (subtract_ok cur prev Hc Hp Sc Sp) as (d & Hd & Hsize).
  unfold rate. rewrite Hd. cbn [bind]. unfold divide.
  destruct d as [z|q]; [rewrite float_of_int_ok by exact Hsize|]; cbn [bind];
    now apply truediv_zero.
Qed.

Lemma cache_hit_rate_ok (s : StatsSnapshot) :
  is_number (cache_hits s) = true -> is_number (cache_misses s) = true ->
  exists q, cache_hit_rate s = Ok q.
Proof.
  intros Hh Hm. unfold cache_hit_rate. rewrite (number_ok _ Hh), (number_ok _ Hm).
  cbn [bind]. destruct (Qlt_le_dec 0 _) as [Hpos|Hle]; [|eauto].
  rewrite truediv_nonzero; [cbn [bind]; eauto|].
  intros H0. rewrite H0 in Hpos. now apply Qlt_irrefl in Hpos.
Qed.

Lemma cache_hit_rate_no_lookup (s : StatsSnapshot) :
  is_number (cache_hits s) = true -> is_number (cache_misses s) = true ->
  as_Q (cache_hits s) + as_Q (cache_misses s) == 0 ->
  cache_hit_rate s = Ok 0.
Proof.
  intros Hh Hm H0. unfold cache_hit_rate. rewrite (number_ok _ Hh), (number_ok _ Hm).
  cbn [bind]. destruct (Qlt_le_dec 0 _) as [Hpos|Hle]; [|reflexivity].
  rewrite H0 in Hpos. now apply Qlt_irrefl in Hpos.
Qed.

Lemma format_float_ok (v : json) :
  is_number v = true -> float_sized v = true -> format_float v = Ok v.
Proof.
  destruct v as [|b|z|q| | |]; cbn [is_number format_float]; intros H S;
    try discriminate; try reflexivity.
  apply float_sized_int in S. rewrite float_of_int_ok; [reflexivity|].
  pose proof pow_1022_1023. lia.
Qed.

Lemma format_width_ok (v : json) : is_number v = true -> format_width v = Ok v.
Proof. destruct v; cbn; intros H; (reflexivity || discriminate). Qed.

End Rates.

(** C2.  The loop has no test for a zero elapsed time.  On a successful
    poll whose snapshot has the time stamp of the previous snapshot, the
    rate computation is not skipped: the first division is attempted, the
    turn of the loop raises, the loop ends there and prints no row.  With
    read counters that are numbers in the range of the floats, the
    exception is [ZeroDivisionError].  The cache hit rate of the same row
    does test its divisor and is 0 without lookups, and the rate
    computation is skipped on the first successful poll, which stores the
    snapshot. *)
Theorem zero_elapsed_time_not_skipped
    (start_time now : Q) (stats : gmap string ProfileConcurrent.json)
    (prev current : ProfileConcurrent.StatsSnapshot) :
  ProfileConcurrent.extract_snapshot now stats = Some current ->
  ProfileConcurrent.timestamp current - ProfileConcurrent.timestamp prev == 0 ->
  (exists e,
      ProfileConcurrent.step start_time (Some prev) (now, Some stats) = Raise e
      /\ forall polls,
          ProfileConcurrent.run start_time (Some prev) ((now, Some stats) :: polls)
          = ([], Some e))
  /\ (ProfileConcurrent.is_number (ProfileConcurrent.total_reads current) = true ->
      ProfileConcurrent.is_number (ProfileConcurrent.total_reads prev) = true ->
      ProfileConcurrent.float_sized (ProfileConcurrent.total_reads current) = true ->
      ProfileConcurrent.float_sized (ProfileConcurrent.total_reads prev) = true ->
      ProfileConcurrent.step start_time (Some prev) (now, Some stats)
      = Raise ZeroDivisionError)
  /\ (ProfileConcurrent.is_number (ProfileConcurrent.cache_hits current) = true ->
      ProfileConcurrent.is_number (ProfileConcurrent.cache_misses current) = true ->
      ProfileConcurrent.as_Q (ProfileConcurrent.cache_hits current)
      + ProfileConcurrent.as_Q (ProfileConcurrent.cache_misses current) == 0 ->
      ProfileConcurrent.cache_hit_rate current = Ok 0)
  /\ ProfileConcurrent.step start_time None (now, Some stats) = Ok (None, Some current).
Proof.
  intros Hx Hdt. split; [|split; [|split]].
  - destruct (rate_zero_raises (ProfileConcurrent.total_reads current)
                               (ProfileConcurrent.total_reads prev) _ Hdt) as (e & He).
    assert (Hstep : ProfileConcurrent.step start_time (Some prev) (now, Some stats)
                    = Raise e).
    { unfold ProfileConcurrent.step. rewrite Hx. unfold ProfileConcurrent.rate_row.
      cbv zeta. now rewrite He. }
    exists e. split; [exact Hstep|]. intros polls.
    cbn [ProfileConcurrent.run]. now rewrite Hstep.
  - intros Hc Hp Sc Sp. unfold ProfileConcurrent.step. rewrite Hx.
    unfold ProfileConcurrent.rate_row. cbv zeta.
    now rewrite (rate_zero _ _ _ Hc Hp Sc Sp Hdt).
  - apply cache_hit_rate_no_lookup.
  - unfold ProfileConcurrent.step. now rewrite Hx.
Qed.

Lemma zero_elapsed_time_not_skipped_witness :
  ProfileConcurrent.run 0 (Some Examples.snapshot1) [ (0, Some Examples.payload2) ]
  = ([], Some ZeroDivisionError)
  /\ ProfileConcurrent.cache_hit_rate
       (ProfileConcurrent.Build_StatsSnapshot
          0 (ProfileConcurrent.JInt 120) (ProfileConcurrent.JInt 40)
          (ProfileConcurrent.JInt 0) (ProfileConcurrent.JInt 8192)
          (ProfileConcurrent.JInt 0) (ProfileConcurrent.JFloat 0)
          (ProfileConcurrent.JFloat 0) (ProfileConcurrent.JFloat 0)
          (ProfileConcurrent.JInt 0) (ProfileConcurrent.JInt 0)
          (ProfileConcurrent.JInt 0) (ProfileConcurrent.JInt 0))
     = Ok 0.
Proof.
  destruct (zero_elapsed_time_not_skipped 0 0 Examples.payload2 Examples.snapshot1
              (ProfileConcurrent.Build_StatsSnapshot
                 0 (ProfileConcurrent.JInt 120) (ProfileConcurrent.JInt 40)
                 (ProfileConcurrent.JInt 0) (ProfileConcurrent.JInt 8192)
                 (ProfileConcurrent.JInt 0) (ProfileConcurrent.JFloat 0)
                 (ProfileConcurrent.JFloat 0) (ProfileConcurrent.JFloat 0)
                 (ProfileConcurrent.JInt 0) (ProfileConcurrent.JInt 0)
                 (ProfileConcurrent.JInt 0) (ProfileConcurrent.JInt 0)))
    as ((e & Hstep & Hrun) & Hzero & Hrate & _).
  - vm_compute. reflexivity.
  - reflexivity.
  - split.
    + rewrite (Hrun []). rewrite Hzero in Hstep by reflexivity.
      now injection Hstep as <-.
    + apply Hrate; reflexivity.
Defined.

(** * Further properties *)

(** ** The stable descending sort *)

Section SortedDesc.
Context {A : Type} (le : A -> A -> bool).
Hypothesis le_total : forall a b, le a b = true \/ le b a = true.
Hypothesis le_trans : forall a b c, le a b = true -> le b c = true -> le a c = true.

Lemma insert_desc_in (x y : A) (l : list A) :
  In y (insert_desc le x l) -> y = x \/ In y l.
Proof.
  intros H. apply (Permutation_in _ (insert_desc_perm le x l)) in H.
  destruct H; auto.
Qed.

Lemma insert_desc_sorted (x : A) (l : list A) :
  StronglySorted (fun a b => le b a = true) l ->
  StronglySorted (fun a b => le b a = true) (insert_desc le x l).
Proof.
  induction 1 as [|y l Hl IH Hy]; cbn [insert_desc].
  - constructor; [constructor|constructor].
  - destruct (le y x) eqn:Hyx.
    + constructor; [constructor; assumption|].
      constructor; [exact Hyx|].
      rewrite List.Forall_forall in Hy |- *. intros z Hz.
      apply (le_trans z y x); auto.
    + constructor; [exact IH|].
      rewrite List.Forall_forall in Hy |- *. intros z Hz.
      apply insert_desc_in in Hz. destruct Hz as [->|Hz]; [|auto].
      destruct (le_total x y) as [H|H]; [exact H|congruence].
Qed.

Lemma sorted_desc_sorted (l : list A) :
  StronglySorted (fun a b => le b a = true) (sorted_desc le l).
Proof.
  induction l as [|x l IH]; cbn [sorted_desc]; [constructor|].
  now apply insert_desc_sorted.
Qed.

End SortedDesc.

(** Elements that the order does not separate keep their relative order:
    the sort is stable. *)
Section Stable.
Context {A : Type} (le : A -> A -> bool) (same : A -> bool).
Hypothesis same_le : forall a b, same a = true -> same b = true -> le a b = true.

Lemma insert_desc_stable (x : A) (l : list A) :
  List.filter same (insert_desc le x l) = List.filter same (x :: l).
Proof.
  induction l as [|y l IH]; cbn [insert_desc]; [reflexivity|].
  destruct (le y x) eqn:Hyx; [reflexivity|].
  cbn [List.filter] in *. rewrite IH.
  destruct (same y) eqn:Hy, (same x) eqn:Hx; try reflexivity.
  rewrite (same_le y x Hy Hx) in Hyx. discriminate.
Qed.

Lemma sorted_desc_stable (l : list A) :
  List.filter same (sorted_desc le l) = List.filter same l.
Proof.
  induction l as [|x l IH]; cbn [sorted_desc]; [reflexivity|].
  rewrite insert_desc_stable. cbn [List.filter]. now rewrite IH.
Qed.

End Stable.

(** ** Soundness of the matcher

    Whatever the backtracking matcher returns is a match in the declarative
    reading of the pattern. *)

Section Matcher.
Import Re ReSem.

Lemma substring_app (w rest : string) :
  String.substring 0 (String.length w) (w ++ rest) = w.
Proof.
  induction w as [|a w IH]; cbn [String.length].
  - rewrite append_nil. now destruct rest.
  - rewrite append_cons. cbn [String.substring]. now rewrite IH.
Qed.

Lemma rep_greedy_sound {R} p min s n (k : string -> nat -> option R) x :
  rep_greedy p min s n k = Some x ->
  exists w rest,
    s = w ++ rest /\ all_chars p w = true /\ (min <= String.length w)%nat
    /\ k rest (n + String.length w)%nat = Some x.
Proof.
  assert (Hstop : forall s n min,
             match min with O => k s n | S _ => None end = Some x ->
             exists w rest,
               s = w ++ rest /\ all_chars p w = true /\ (min <= String.length w)%nat
               /\ k rest (n + String.length w)%nat = Some x).
  { intros s0 n0 [|m] H; [|discriminate]. exists "", s0.
    cbn [String.length all_chars]. rewrite append_nil, Nat.add_0_r. auto. }
  revert min n. induction s as [|a s IH]; intros min n H; cbn [rep_greedy] in H.
  - now apply Hstop.
  - destruct (p a) eqn:Hp; [|now apply Hstop].
    destruct (rep_greedy p (Nat.pred min) s (S n) k) eqn:Hr; [|now apply Hstop].
    injection H as ->. apply IH in Hr as (w & rest & -> & Hw & Hmin & Hk).
    exists (String a w), rest. cbn [String.length all_chars].
    rewrite append_cons, Hp, Hw. repeat split; [lia|].
    rewrite <- Hk. f_equal. lia.
Qed.

Lemma rep_lazy_sound {R} p min s n (k : string -> nat -> option R) x :
  rep_lazy p min s n k = Some x ->
  exists w rest,
    s = w ++ rest /\ all_chars p w = true /\ (min <= String.length w)%nat
    /\ k rest (n + String.length w)%nat = Some x.
Proof.
  assert (Hmore : forall a s n min',
             (forall min n, rep_lazy p min s n k = Some x ->
                exists w rest,
                  s = w ++ rest /\ all_chars p w = true /\ (min <= String.length w)%nat
                  /\ k rest (n + String.length w)%nat = Some x) ->
             (if p a then rep_lazy p min' s (S n) k else None) = Some x ->
             exists w rest,
               String a s = w ++ rest /\ all_chars p w = true
               /\ (S min' <= String.length w)%nat
               /\ k rest (n + String.length w)%nat = Some x).
  { intros a s0 n0 min' IH H. destruct (p a) eqn:Hp; [|discriminate].
    apply IH in H as (w & rest & -> & Hw & Hmin & Hk).
    exists (String a w), rest. cbn [String.length all_chars].
    rewrite append_cons, Hp, Hw. repeat split; [lia|].
    rewrite <- Hk. f_equal. lia. }
  revert min n. induction s as [|a s IH]; intros min n H.
  - destruct min as [|m]; cbn [rep_lazy] in H.
    + destruct (k "" n) eqn:Hk; [|discriminate]. injection H as ->.
      exists "", "". cbn [String.length all_chars]. rewrite Nat.add_0_r. auto.
    + discriminate.
  - destruct min as [|m]; cbn [rep_lazy] in H.
    + destruct (k (String a s) n) eqn:Hk.
      * injection H as ->. exists "", (String a s).
        cbn [String.length all_chars]. rewrite append_nil, Nat.add_0_r. auto.
      * destruct (Hmore a s n O IH H) as (w & rest & ? & ? & ? & ?).
        exists w, rest. repeat split; auto. lia.
    + now apply Hmore.
Qed.

Lemma exec_sound {R} (r : regex) :
  forall s n c (k : string -> nat -> caps -> option R) x,
    exec r s n c k = Some x ->
    exists w rest c',
      s = w ++ rest /\ matches r w rest c c'
      /\ k rest (n + String.length w)%nat c' = Some x.
Proof.
  induction r as [|p|r1 IH1 r2 IH2|r1 IH1 r2 IH2|greedy min p|r1 IH1|g r1 IH1|];
    intros s n c k x H; cbn [exec] in H.
  - exists "", s, c. cbn [String.length]. rewrite append_nil, Nat.add_0_r.
    repeat split; [constructor|exact H].
  - destruct s as [|a s]; [discriminate|]. destruct (p a) eqn:Hp; [|discriminate].
    exists (String a ""), s, c. cbn [String.length].
    rewrite append_cons, append_nil, Nat.add_1_r.
    repeat split; [now constructor|exact H].
  - apply IH1 in H as (w1 & rest1 & c1 & -> & H1 & H).
    apply IH2 in H as (w2 & rest & c2 & -> & H2 & H).
    exists (w1 ++ w2), rest, c2. rewrite app_assoc_str, length_app_str.
    repeat split; [now apply M_seq with c1|].
    now rewrite Nat.add_assoc.
  - destruct (exec r1 s n c k) eqn:H1.
    + injection H as ->. apply IH1 in H1 as (w & rest & c' & -> & Hm & Hk).
      exists w, rest, c'. repeat split; [now apply M_alt_l|exact Hk].
    + apply IH2 in H as (w & rest & c' & -> & Hm & Hk).
      exists w, rest, c'. repeat split; [now apply M_alt_r|exact Hk].
  - destruct greedy.
    + apply rep_greedy_sound in H as (w & rest & -> & Hw & Hmin & Hk).
      exists w, rest, c. repeat split; [now constructor|exact Hk].
    + apply rep_lazy_sound in H as (w & rest & -> & Hw & Hmin & Hk).
      exists w, rest, c. repeat split; [now constructor|exact Hk].
  - destruct (exec r1 s n c k) eqn:H1.
    + injection H as ->. apply IH1 in H1 as (w & rest & c' & -> & Hm & Hk).
      exists w, rest, c'. repeat split; [now apply M_opt_some|exact Hk].
    + exists "", s, c. cbn [String.length]. rewrite append_nil, Nat.add_0_r.
      repeat split; [apply M_opt_none|exact H].
  - apply IH1 in H as (w & rest & c' & -> & Hm & Hk).
    exists w, rest, ((g, w) :: c'). repeat split; [now constructor|].
    replace (n + String.length w - n)%nat with (String.length w) in Hk by lia.
    now rewrite substring_app in Hk.
  - assert (Hs : s = "" \/ s = String newline "").
    { destruct s as [|a [|b s]]; auto; [|discriminate].
      unfold chr_is in H. destruct (Ascii.eqb newline a) eqn:Ha; [|discriminate].
      apply Ascii.eqb_eq in Ha. subst a. auto. }
    exists "", s, c. cbn [String.length]. rewrite append_nil, Nat.add_0_r.
    repeat split; [now constructor|].
    destruct Hs as [-> | ->]; exact H.
Qed.

Lemma match_at_sound (r : regex) (s : string) (len : nat) (c : caps) :
  match_at r s = Some (len, c) ->
  exists w rest, s = w ++ rest /\ matches r w rest [] c /\ len = String.length w.
Proof.
  unfold match_at. intros H.
  apply exec_sound in H as (w & rest & c' & -> & Hm & Hk).
  injection Hk as <- <-. exists w, rest. auto.
Qed.

Lemma findall_sound (r : regex) (s : string) (c : caps) :
  In c (findall r s) ->
  exists pre w rest, s = pre ++ w ++ rest /\ matches r w rest [] c.
Proof.
  unfold findall. generalize O as skip. induction s as [|a s IH]; intros skip H.
  - destruct H.
  - assert (Hlater : forall k, In c (findall_from r k s) ->
                     exists pre w rest, String a s = pre ++ w ++ rest /\ matches r w rest [] c).
    { intros k Hk. apply IH in Hk as (pre & w & rest & -> & Hm).
      exists (String a pre), w, rest. now rewrite append_cons. }
    cbn [findall_from] in H. destruct skip; [|now apply Hlater in H].
    destruct (match_at r (String a s)) as [[len c0]|] eqn:Hm; [|now apply Hlater in H].
    destruct H as [<- | H]; [|now apply Hlater in H].
    apply match_at_sound in Hm as (w & rest & Hs & Hm & _).
    exists "", w, rest. now rewrite append_nil.
Qed.

Lemma search_sound (r : regex) (s : string) (c : caps) :
  search r s = Some c ->
  exists pre w rest, s = pre ++ w ++ rest /\ matches r w rest [] c.
Proof.
  induction s as [|a s IH]; intros H; cbn [search] in H.
  - destruct (match_at r "") as [[len c0]|] eqn:Hm; [|discriminate].
    injection H as ->. apply match_at_sound in Hm as (w & rest & Hs & Hm & _).
    exists "", w, rest. now rewrite append_nil.
  - destruct (match_at r (String a s)) as [[len c0]|] eqn:Hm.
    + injection H as ->. apply match_at_sound in Hm as (w & rest & Hs & Hm & _).
      exists "", w, rest. now rewrite append_nil.
    + apply IH in H as (pre & w & rest & -> & Hm').
      exists (String a pre), w, rest. now rewrite append_cons.
Qed.

Lemma matches_lit (u w rest : string) (c c' : caps) :
  matches (lit u) w rest c c' -> w = u /\ c' = c.
Proof.
  revert w rest c c'. induction u as [|a u IH]; intros w rest c c' H; cbn [lit] in H.
  - inversion H; subst. auto.
  - inversion H as [| |r1 r2 w1 w2 rest' c0 c1 c2 H1 H2| | | | | | |]; subst.
    inversion H1 as [|p b rest' c0 Hb| | | | | | | |]; subst.
    apply IH in H2 as [-> ->]. unfold chr_is in Hb. apply Ascii.eqb_eq in Hb.
    subst b. rewrite append_cons, append_nil. auto.
Qed.

Lemma matches_no_group (r : regex) (w rest : string) (c c' : caps) :
  no_group r = true -> matches r w rest c c' -> c' = c.
Proof.
  intros Hr H. induction H; cbn [no_group] in Hr; try reflexivity;
    try (apply andb_true_iff in Hr as [Hr1 Hr2]); try discriminate; auto.
  rewrite IHmatches2, IHmatches1; auto.
Qed.

End Matcher.

(** ** What the sample extractors return *)

Ltac inv_matches :=
  repeat match goal with
  | H : ReSem.matches (Re.seq _) _ _ _ _ |- _ => cbn [Re.seq] in H
  | H : ReSem.matches (Re.lit _) _ _ _ _ |- _ => apply matches_lit in H as [? ?]; subst
  | H : ReSem.matches (Re.Opt _) _ _ _ _ |- _ =>
      apply matches_no_group in H; [subst | reflexivity]
  | H : ReSem.matches (Re.Seq _ _) _ _ _ _ |- _ => inversion H; clear H; subst
  | H : ReSem.matches (Re.Group _ _) _ _ _ _ |- _ => inversion H; clear H; subst
  | H : ReSem.matches (Re.Rep _ _ _) _ _ _ _ |- _ => inversion H; clear H; subst
  | H : ReSem.matches (Re.Chr _) _ _ _ _ |- _ => inversion H; clear H; subst
  | H : ReSem.matches Re.Eps _ _ _ _ |- _ => inversion H; clear H; subst
  end.

Lemma all_digits_all_chars (s : string) : Num.all_digits s = all_chars Re.digit s.
Proof. induction s as [|a s IH]; cbn; [reflexivity|now rewrite IH]. Qed.

Lemma StronglySorted_weaken {A} (R1 R2 : A -> A -> Prop) (l : list A) :
  (forall a b, R1 a b -> R2 a b) -> StronglySorted R1 l -> StronglySorted R2 l.
Proof.
  intros HR. induction 1 as [|x l Hl IH Hx]; constructor; [exact IH|].
  eapply List.Forall_impl; [|exact Hx]. auto.
Qed.

Section SimpleExtraction.
Import Re ReSem AnalyzeFlamegraphSimple.

Lemma simple_pattern_groups (w rest : string) (c : caps) :
  matches pattern w rest [] c ->
  exists w1 w2 w3,
    c = [(3%nat, w3); (2%nat, w2); (1%nat, w1)]
    /\ all_chars digit w2 = true
    /\ all_chars (fun a => negb (chr_is "<" a)) w1 = true.
Proof.
  unfold pattern. intros H. inv_matches. eauto 10.
Qed.

Lemma extract_hotspots_inv (content : string) (hs : list hotspot) :
  extract_hotspots content = Ok hs ->
  exists parsed,
    mapM hotspot_of_match (findall pattern content) = Ok parsed
    /\ hs = sorted_desc (fun a b => Z.leb (samples a) (samples b)) parsed.
Proof.
  unfold extract_hotspots. intros H.
  destruct (mapM hotspot_of_match (findall pattern content)) as [parsed|e];
    cbn [bind] in H; [|discriminate].
  injection H as <-. eauto.
Qed.

Lemma hotspot_counts_nonneg (content : string) (hs : list hotspot) (h : hotspot) :
  extract_hotspots content = Ok hs -> In h hs ->
  (0 <= samples h)%Z /\ 0 <= percentage h.
Proof.
  intros H Hin.
  destruct (extract_hotspots_inv content hs H) as (parsed & Hp & ->).
  apply (Permutation_in _ (sorted_desc_perm _ parsed)) in Hin.
  destruct (mapM_in _ _ _ _ Hp Hin) as (c & Hc & Hh).
  apply findall_sound in Hc as (pre & w & rest & _ & Hm).
  apply simple_pattern_groups in Hm as (w1 & w2 & w3 & -> & Hw2 & _).
  unfold hotspot_of_match in Hh. cbn [group Nat.eqb] in Hh.
  destruct (Num.float_of_string w3) as [pct|] eqn:Hpct; [|discriminate].
  injection Hh as <-. cbn [samples percentage]. split.
  - apply digits_val_nonneg; [now rewrite all_digits_all_chars|lia].
  - now apply float_of_string_nonneg in Hpct.
Qed.

(** X1.  The hotspots come back by decreasing sample count; they are the
    parsed matches, and hotspots with the same count stay in document
    order. *)
Theorem extract_hotspots_sorted (content : string) (hs : list hotspot) :
  extract_hotspots content = Ok hs ->
  exists parsed,
    mapM hotspot_of_match (findall pattern content) = Ok parsed
    /\ Permutation hs parsed
    /\ StronglySorted (fun a b => (samples b <= samples a)%Z) hs
    /\ forall n : Z,
        List.filter (fun h => (samples h =? n)%Z) hs
        = List.filter (fun h => (samples h =? n)%Z) parsed.
Proof.
  intros H. destruct (extract_hotspots_inv content hs H) as (parsed & Hp & ->).
  exists parsed. split; [exact Hp|].
  split; [apply sorted_desc_perm|]. split.
  - eapply StronglySorted_weaken; [|apply sorted_desc_sorted].
    + intros a b Hab. cbn beta in Hab. now apply Z.leb_le.
    + intros a b. destruct (Z.le_ge_cases (samples a) (samples b)) as [Hle|Hle];
        [left|right]; apply Z.leb_le; lia.
    + intros a b c Hab Hbc. apply Z.leb_le in Hab, Hbc. apply Z.leb_le. lia.
  - intros n. apply sorted_desc_stable. intros a b Ha Hb.
    apply Z.eqb_eq in Ha, Hb. apply Z.leb_le. lia.
Qed.

Lemma extract_hotspots_sorted_witness :
  exists parsed,
    mapM hotspot_of_match
         (findall pattern "<title>a (2 samples, 1.5%)</title><title>b (7 samples, 4%)</title>")
    = Ok parsed
    /\ Permutation [ {| name := "b"; samples := 7; percentage := 4 |};
                     {| name := "a"; samples := 2; percentage := 15 # 10 |} ] parsed
    /\ StronglySorted (fun a b => (samples b <= samples a)%Z)
         [ {| name := "b"; samples := 7; percentage := 4 |};
           {| name := "a"; samples := 2; percentage := 15 # 10 |} ]
    /\ forall n : Z,
        List.filter (fun h => (samples h =? n)%Z)
          [ {| name := "b"; samples := 7; percentage := 4 |};
            {| name := "a"; samples := 2; percentage := 15 # 10 |} ]
        = List.filter (fun h => (samples h =? n)%Z) parsed.
Proof.
  apply (extract_hotspots_sorted
           "<title>a (2 samples, 1.5%)</title><title>b (7 samples, 4%)</title>").
  vm_compute. reflexivity.
Defined.

(** X2.  No hotspot has a negative sample count or a negative percentage:
    the count is read from the digits the pattern matched. *)
Theorem extract_hotspots_nonneg (content : string) (hs : list hotspot) (h : hotspot) :
  extract_hotspots content = Ok hs -> In h hs ->
  (0 <= samples h)%Z /\ 0 <= percentage h.
Proof. apply hotspot_counts_nonneg. Qed.

Lemma extract_hotspots_nonneg_witness :
  (0 <= samples {| name := "b"; samples := 7; percentage := 4 |})%Z
  /\ 0 <= percentage {| name := "b"; samples := 7; percentage := 4 |}.
Proof.
  apply (extract_hotspots_nonneg
           "<title>a (2 samples, 1.5%)</title><title>b (7 samples, 4%)</title>"
           [ {| name := "b"; samples := 7; percentage := 4 |};
             {| name := "a"; samples := 2; percentage := 15 # 10 |} ]
           {| name := "b"; samples := 7; percentage := 4 |}).
  - vm_compute. reflexivity.
  - left. reflexivity.
Defined.

End SimpleExtraction.

(** ** Complete reports *)

Lemma for_each_ok {A B} (body : A -> res B) (g : A -> B) (l : list A) :
  (forall x, In x l -> body x = Ok (g x)) -> for_each body l = (map g l, None).
Proof.
  induction l as [|x l IH]; intros H; cbn [for_each map]; [reflexivity|].
  rewrite (H x) by now left. rewrite IH; [reflexivity|].
  intros y Hy. apply H. now right.
Qed.

Lemma sumQ_cons (x : Q) (l : list Q) : sumQ (x :: l) = x + sumQ l.
Proof. reflexivity. Qed.


Section SimpleReport.
Import AnalyzeFlamegraphSimple.

Lemma simple_total_sum (hs : list hotspot) : total_samples hs = sumZ (map samples hs).
Proof.
  unfold total_samples. induction hs as [|h hs IH]; [reflexivity|].
  cbn [fold_left map sumZ fold_right]. fold (sumZ (map samples hs)).
  rewrite fold_left_Zadd, IH. lia.
Qed.

Lemma simple_total_pos (hs : list hotspot) :
  (forall h, In h hs -> (0 <= samples h)%Z) ->
  (exists h, In h hs /\ samples h <> 0%Z) ->
  (0 < total_samples hs)%Z.
Proof.
  rewrite simple_total_sum. intros Hpos (h & Hin & Hh).
  assert (Hsum : forall l : list hotspot,
             (forall x, In x l -> (0 <= samples x)%Z) -> (0 <= sumZ (map samples l))%Z).
  { induction l as [|x l IH]; intros Hl; cbn [map sumZ fold_right]; [lia|].
    fold (sumZ (map samples l)).
    specialize (Hl x (or_introl eq_refl)) as Hx.
    assert (0 <= sumZ (map samples l))%Z by (apply IH; intros; apply Hl; now right).
    lia. }
  induction hs as [|x hs IH]; [destruct Hin|].
  cbn [map sumZ fold_right]. fold (sumZ (map samples hs)).
  assert (Hx : (0 <= samples x)%Z) by (apply Hpos; now left).
  assert (Hrest : (0 <= sumZ (map samples hs))%Z)
    by (apply Hsum; intros; apply Hpos; now right).
  destruct Hin as [-> | Hin].
  - lia.
  - assert (0 < sumZ (map samples hs))%Z; [|lia].
    apply IH; [|exact Hin]. intros; apply Hpos; now right.
Qed.

Lemma simple_percent_of_ok (n total : Z) :
  total <> 0%Z -> percent_of n total = Ok (inject_Z n / inject_Z total * 100).
Proof.
  intros Ht. unfold percent_of. rewrite truediv_nonzero; [reflexivity|].
  intros H. apply Ht. unfold Qeq in H. cbn in H. lia.
Qed.

(** X3.  When some hotspot has a sample count other than zero, the report
    is complete: no exception, one row for each category with its total,
    and the key metrics. *)
Theorem simple_main_complete (content : string) (hs : list hotspot) :
  extract_hotspots content = Ok hs ->
  (exists h, In h hs /\ samples h <> 0%Z) ->
  exists top rows found,
    main (Some content) = (Report (total_samples hs) top rows (Some found), None)
    /\ Permutation (map (fun r => (cat_name r, cat_samples r)) rows) (category_totals hs).
Proof.
  intros Hx Hsome.
  assert (Hpos : (0 < total_samples hs)%Z).
  { apply simple_total_pos; [|exact Hsome].
    intros h Hh. now apply (hotspot_counts_nonneg content hs h Hx). }
  assert (Hne : total_samples hs <> 0%Z) by lia.
  set (total := total_samples hs) in *.
  set (g := fun item : string * Z =>
              {| cat_name := fst item;
                 cat_pct := inject_Z (snd item) / inject_Z total * 100;
                 cat_samples := snd item;
                 cat_bar := int_of_float (inject_Z (snd item) / inject_Z total * 100 / 2) |}).
  set (sorted_cats := sorted_desc (fun a b : string * Z => Z.leb (snd a) (snd b))
                                  (category_totals hs)).
  assert (Hrows : for_each (category_line total) sorted_cats = (map g sorted_cats, None)).
  { apply for_each_ok. intros [cat n] _. unfold category_line.
    rewrite simple_percent_of_ok by exact Hne. reflexivity. }
  assert (Hkey : exists found, key_metrics (category_totals hs) total = Ok found).
  { unfold key_metrics. rewrite !simple_percent_of_ok by exact Hne.
    cbn [bind]. eauto. }
  destruct Hkey as (found & Hkey).
  exists (top_rows 1 (firstn 25 hs)), (map g sorted_cats), found.
  split.
  - unfold main. rewrite Hx. destruct hs as [|h0 hs0].
    + destruct Hsome as (h & [] & _).
    + fold total. fold sorted_cats. rewrite Hrows. fold total in Hkey.
      rewrite Hkey. reflexivity.
  - rewrite map_map. cbn [g cat_name cat_samples].
    rewrite (map_ext _ (fun x => x)) by (now intros [? ?]).
    rewrite map_id. apply sorted_desc_perm.
Qed.

Lemma simple_main_complete_witness :
  exists top rows found,
    main (Some "<title>a (2 samples, 1.5%)</title><title>b (7 samples, 4%)</title>")
    = (Report (total_samples [ {| name := "b"; samples := 7; percentage := 4 |};
                               {| name := "a"; samples := 2; percentage := 15 # 10 |} ])
              top rows (Some found), None)
    /\ Permutation (map (fun r => (cat_name r, cat_samples r)) rows)
         (category_totals [ {| name := "b"; samples := 7; percentage := 4 |};
                            {| name := "a"; samples := 2; percentage := 15 # 10 |} ]).
Proof.
  apply (simple_main_complete
           "<title>a (2 samples, 1.5%)</title><title>b (7 samples, 4%)</title>").
  - vm_compute. reflexivity.
  - exists {| name := "b"; samples := 7; percentage := 4 |}.
    split; [left; reflexivity|discriminate].
Defined.

End SimpleReport.

(** ** The tables of the reports *)

Lemma in_firstn {A} (n : nat) (l : list A) (y : A) : In y (firstn n l) -> In y l.
Proof.
  revert n. induction l as [|x l IH]; intros [|n]; cbn [firstn]; try now intros [].
  intros [H|H]; [now left|right; now apply (IH n)].
Qed.

Lemma StronglySorted_firstn {A} (R : A -> A -> Prop) (n : nat) (l : list A) :
  StronglySorted R l -> StronglySorted R (firstn n l).
Proof.
  intros H. revert n. induction H as [|x l Hl IH Hx]; intros [|n]; cbn [firstn];
    try constructor; [apply IH|].
  rewrite List.Forall_forall in Hx |- *. intros y Hy. apply Hx.
  now apply (in_firstn n l).
Qed.

Lemma StronglySorted_map {A B} (f : A -> B) (R : B -> B -> Prop) (l : list A) :
  StronglySorted (fun a b => R (f a) (f b)) l -> StronglySorted R (map f l).
Proof.
  induction 1 as [|x l Hl IH Hx]; cbn [map]; constructor; [exact IH|].
  rewrite List.Forall_forall in Hx |- *. intros y Hy.
  apply in_map_iff in Hy as (z & <- & Hz). auto.
Qed.

Lemma StronglySorted_of_map {A B} (f : A -> B) (R : B -> B -> Prop) (l : list A) :
  StronglySorted R (map f l) -> StronglySorted (fun a b => R (f a) (f b)) l.
Proof.
  induction l as [|x l IH]; cbn [map]; intros H; [constructor|].
  apply StronglySorted_inv in H as [Hl Hx]. constructor; [now apply IH|].
  rewrite List.Forall_forall in Hx |- *. intros y Hy. apply Hx. now apply in_map.
Qed.

Lemma length_take_str (n : nat) (s : string) :
  String.length (take_str n s) = Nat.min n (String.length s).
Proof.
  unfold take_str. revert n. induction s as [|a s IH]; intros [|n]; cbn; auto.
Qed.

Lemma Qle_bool_total (a b : Q) : Qle_bool a b = true \/ Qle_bool b a = true.
Proof.
  destruct (Qlt_le_dec a b) as [H|H]; [left|right]; apply Qle_bool_iff;
    [now apply Qlt_le_weak|exact H].
Qed.

Lemma Qle_bool_trans (a b c : Q) :
  Qle_bool a b = true -> Qle_bool b c = true -> Qle_bool a c = true.
Proof.
  rewrite !Qle_bool_iff. apply Qle_trans.
Qed.

Section SimpleTop.
Import AnalyzeFlamegraphSimple.

Lemma simple_top_rows (i : nat) (hs : list hotspot) :
  map top_rank (top_rows i hs) = List.seq i (length hs)
  /\ map top_samples (top_rows i hs) = map samples hs
  /\ Forall (fun r => (String.length (top_name r) <= 75)%nat) (top_rows i hs).
Proof.
  revert i. induction hs as [|h hs IH]; intros i; cbn [top_rows map length List.seq].
  - repeat split. constructor.
  - destruct (IH (S i)) as (Hr & Hs & Hn). rewrite Hr, Hs. repeat split.
    constructor; [|exact Hn]. cbn [top_name].
    destruct (75 <? String.length (name h))%nat eqn:Hlen.
    + rewrite length_take_str. lia.
    + apply Nat.ltb_ge in Hlen. exact Hlen.
Qed.

Lemma simple_main_top (file : option string) total top rows found e :
  main file = (Report total top rows found, e) ->
  exists content hs,
    file = Some content /\ extract_hotspots content = Ok hs
    /\ top = top_rows 1 (firstn 25 hs).
Proof.
  unfold main. intros H. destruct file as [content|]; [|discriminate].
  destruct (extract_hotspots content) as [hs|] eqn:Hx; [|discriminate].
  exists content, hs. split; [reflexivity|]. split; [exact Hx|].
  destruct hs as [|h0 hs0]; [discriminate|].
  destruct (for_each _ _) as [rows' [e'|]]; [now injection H as <- <- <- <- <-|].
  destruct (key_metrics _ _); now injection H as <- <- <- <- <-.
Qed.

(** X4.  Whatever else happens to the report, its table of top hotspots has
    at most 25 rows, ranked from 1, by decreasing sample count, and no name
    in it is longer than 75 characters. *)
Theorem simple_main_top_table (file : option string) total top rows found e :
  main file = (Report total top rows found, e) ->
  (length top <= 25)%nat
  /\ map top_rank top = List.seq 1 (length top)
  /\ StronglySorted (fun a b => (top_samples b <= top_samples a)%Z) top
  /\ Forall (fun r => (String.length (top_name r) <= 75)%nat) top.
Proof.
  intros H. apply simple_main_top in H as (content & hs & _ & Hx & ->).
  destruct (simple_top_rows 1 (firstn 25 hs)) as (Hr & Hs & Hn).
  assert (Hlen : length (top_rows 1 (firstn 25 hs)) = length (firstn 25 hs)).
  { rewrite <- (length_map top_samples), Hs. apply length_map. }
  split; [rewrite Hlen, length_firstn; lia|].
  split; [now rewrite Hr, Hlen|]. split; [|exact Hn].
  apply (StronglySorted_of_map top_samples (fun a b => (b <= a)%Z)).
  rewrite Hs. apply StronglySorted_map, StronglySorted_firstn.
  destruct (extract_hotspots_inv content hs Hx) as (parsed & _ & ->).
  eapply StronglySorted_weaken; [|apply sorted_desc_sorted].
  - intros a b Hab. cbn beta in Hab. now apply Z.leb_le.
  - intros a b. destruct (Z.le_ge_cases (samples a) (samples b));
      [left|right]; apply Z.leb_le; lia.
  - intros a b c Hab Hbc. apply Z.leb_le in Hab, Hbc. apply Z.leb_le. lia.
Qed.

Lemma simple_main_top_table_witness :
  exists total top rows found e,
    main (Some "<title>a (2 samples, 1.5%)</title><title>b (7 samples, 4%)</title>")
    = (Report total top rows found, e)
    /\ (length top <= 25)%nat
    /\ map top_rank top = List.seq 1 (length top)
    /\ StronglySorted (fun a b => (top_samples b <= top_samples a)%Z) top
    /\ Forall (fun r => (String.length (top_name r) <= 75)%nat) top.
Proof.
  eexists _, _, _, _, _. split; [vm_compute; reflexivity|].
  eapply (simple_main_top_table
            (Some "<title>a (2 samples, 1.5%)</title><title>b (7 samples, 4%)</title>")).
  vm_compute. reflexivity.
Defined.

End SimpleTop.

Section SubsystemReport.
Import Re ReSem AnalyzeFlamegraph.

Lemma display_name_length (width : nat) (func : string) :
  (3 <= width)%nat -> (String.length (display_name width func) <= width)%nat.
Proof.
  intros Hw. unfold display_name.
  destruct (String.length func <=? width)%nat eqn:Hlen.
  - now apply Nat.leb_le in Hlen.
  - rewrite length_app_str, length_take_str. cbn [String.length]. lia.
Qed.

Lemma subsystem_top_rows (i : nat) (fs : list sample) :
  map top_rank (top_rows i fs) = List.seq i (length fs)
  /\ map top_samples (top_rows i fs) = map (fun f : sample => snd (fst f)) fs
  /\ Forall (fun r => (String.length (top_name r) <= 70)%nat) (top_rows i fs).
Proof.
  revert i. induction fs as [|[[func n] pct] fs IH]; intros i;
    cbn [top_rows map length List.seq].
  - repeat split. constructor.
  - destruct (IH (S i)) as (Hr & Hs & Hn). rewrite Hr, Hs. repeat split.
    constructor; [|exact Hn]. cbn [top_name]. apply display_name_length. lia.
Qed.

Lemma by_samples_sorted (fs : list sample) :
  StronglySorted (fun a b : sample => snd (fst b) <= snd (fst a))
                 (sorted_desc by_samples fs).
Proof.
  eapply StronglySorted_weaken; [|apply sorted_desc_sorted].
  - intros a b Hab. cbn beta in Hab. now apply Qle_bool_iff.
  - intros a b. apply Qle_bool_total.
  - intros a b c. apply Qle_bool_trans.
Qed.

(** X5.  The table of top functions has [top_n] rows, or one for each
    function when there are fewer; the rows are ranked from 1, by
    decreasing sample count, and no name in it is longer than 70
    characters. *)
Theorem print_analysis_top_table (fs : list sample) (top_n : nat) :
  let top := fst (print_analysis fs top_n) in
  length top = Nat.min top_n (length fs)
  /\ map top_rank top = List.seq 1 (length top)
  /\ StronglySorted (fun a b => top_samples b <= top_samples a) top
  /\ Forall (fun r => (String.length (top_name r) <= 70)%nat) top.
Proof.
  cbv zeta. unfold print_analysis. cbn [fst].
  set (shown := firstn top_n (sorted_desc by_samples fs)).
  destruct (subsystem_top_rows 1 shown) as (Hr & Hs & Hn).
  assert (Hlen : length (top_rows 1 shown) = length shown).
  { rewrite <- (length_map top_samples), Hs. apply length_map. }
  split.
  { rewrite Hlen. unfold shown. rewrite length_firstn.
    now rewrite (Permutation_length (sorted_desc_perm by_samples fs)). }
  split; [now rewrite Hr, Hlen|]. split; [|exact Hn].
  apply (StronglySorted_of_map top_samples (fun a b => b <= a)).
  rewrite Hs. apply StronglySorted_map, StronglySorted_firstn, by_samples_sorted.
Qed.

(** X6.  The category table never raises: there is one row for each
    category, with its total, and the percentages are all 0 when the grand
    total is not positive.  A row lists at most three functions, with names
    of at most 60 characters. *)
Theorem print_analysis_categories (fs : list sample) (top_n : nat) :
  exists rows,
    snd (print_analysis fs top_n) = (rows, None)
    /\ Permutation (map (fun r => (cat_name r, cat_samples r)) rows)
         (map (fun kb => (fst kb, samples (snd kb))) (categorize_functions fs))
    /\ (~ 0 < total_samples fs -> Forall (fun r => cat_pct r = 0) rows)
    /\ Forall (fun r => (length (cat_top_funcs r) <= 3)%nat
                        /\ Forall (fun f => (String.length (snd f) <= 60)%nat)
                                  (cat_top_funcs r)) rows.
Proof.
  unfold print_analysis. cbn [snd].
  set (total := total_samples fs).
  set (sorted_cats := sorted_desc _ (categorize_functions fs)).
  set (g := fun item : string * bucket =>
              {| cat_name := fst item;
                 cat_pct := if Qlt_le_dec 0 total
                            then samples (snd item) / total * 100 else 0;
                 cat_samples := samples (snd item);
                 cat_top_funcs :=
                   map (fun f : sample => (snd f, display_name 60 (fst (fst f))))
                       (firstn 3 (sorted_desc by_samples (functions (snd item)))) |}).
  assert (Hrows : for_each (category_line total) sorted_cats = (map g sorted_cats, None)).
  { apply for_each_ok. intros [category data] _. unfold category_line.
    rewrite guarded_percentage. reflexivity. }
  assert (Hperm : Permutation sorted_cats (categorize_functions fs))
    by apply sorted_desc_perm.
  exists (map g sorted_cats). split; [exact Hrows|]. split; [|split].
  - rewrite map_map. cbn [g cat_name cat_samples]. now apply Permutation_map.
  - intros Hnot. apply List.Forall_forall. intros r Hr.
    apply in_map_iff in Hr as (item & <- & _). cbn [g cat_pct].
    destruct (Qlt_le_dec 0 total) as [Hpos|_]; [now destruct Hnot|reflexivity].
  - apply List.Forall_forall. intros r Hr.
    apply in_map_iff in Hr as (item & <- & _). cbn [g cat_top_funcs]. split.
    + rewrite length_map, length_firstn. lia.
    + apply List.Forall_forall. intros f Hf.
      apply in_map_iff in Hf as (x & <- & _). cbn [snd].
      apply display_name_length. lia.
Qed.

Lemma print_analysis_categories_witness :
  exists rows,
    snd (print_analysis [("idle", 0, 0)] 50) = (rows, None)
    /\ Forall (fun r => cat_pct r = 0) rows.
Proof.
  destruct (print_analysis_categories [("idle", 0, 0)] 50)
    as (rows & Hrows & _ & Hzero & _).
  exists rows. split; [exact Hrows|]. apply Hzero. vm_compute. discriminate.
Defined.

Lemma matches_seq_inv (r1 r2 : regex) (w rest : string) (c c' : caps) :
  matches (Seq r1 r2) w rest c c' ->
  exists w1 w2 c1,
    w = w1 ++ w2 /\ matches r1 w1 (w2 ++ rest) c c1 /\ matches r2 w2 rest c1 c'.
Proof. intros H. inversion H; subst. eauto 10. Qed.

Lemma matches_group_inv (g : nat) (r : regex) (w rest : string) (c c' : caps) :
  matches (Group g r) w rest c c' ->
  exists c1, c' = (g, w) :: c1 /\ matches r w rest c c1.
Proof. intros H. inversion H; subst. eauto. Qed.

Lemma matches_rep_inv (greedy : bool) (min : nat) p (w rest : string) (c c' : caps) :
  matches (Rep greedy min p) w rest c c' ->
  c' = c /\ all_chars p w = true /\ (min <= String.length w)%nat.
Proof. intros H. inversion H; subst. auto. Qed.

Lemma subsystem_pattern_groups (w rest : string) (c : caps) :
  matches pattern w rest [] c ->
  exists w1 w2 w3 post,
    c = [(3%nat, w3); (2%nat, w2); (1%nat, w1)]
    /\ w = "<title>" ++ w1 ++ post
    /\ all_chars (fun a => negb (chr_is "<" a)) w1 = true
    /\ (1 <= String.length w1)%nat.
Proof.
  unfold pattern. intros H. cbn [seq] in H.
  apply matches_seq_inv in H as (u1 & u2 & c1 & -> & H1 & H).
  apply matches_lit in H1 as [-> ->].
  apply matches_seq_inv in H as (v1 & v2 & c2 & -> & H1 & H).
  apply matches_group_inv in H1 as (c3 & -> & H1).
  apply matches_rep_inv in H1 as (-> & Hw1 & Hlen).
  inv_matches. eauto 10.
Qed.

(** X7.  Every sample that is parsed has a label that is not empty, has no
    [<] in it and stands in the text right after a [<title>] tag; its count
    and its percentage are not negative. *)
Theorem parse_flamegraph_samples (content : string) (f : sample) :
  In f (parse_flamegraph content) ->
  let '(func_name, n, pct) := f in
  func_name <> ""
  /\ all_chars (fun a => negb (chr_is "<" a)) func_name = true
  /\ (exists pre post, content = pre ++ "<title>" ++ func_name ++ post)
  /\ 0 <= n /\ 0 <= pct.
Proof.
  unfold parse_flamegraph. intros Hin.
  apply list_elem_of_In, list_elem_of_omap in Hin as (c & Hc & Hf).
  apply list_elem_of_In, findall_sound in Hc as (pre & w & rest & -> & Hm).
  apply subsystem_pattern_groups in Hm as (w1 & w2 & w3 & post & -> & -> & Hw1 & Hlen).
  unfold parse_match in Hf. cbn [group Nat.eqb] in Hf.
  destruct (Num.float_of_string w2) as [n|] eqn:Hn; [|discriminate].
  destruct (Num.float_of_string w3) as [pct|] eqn:Hpct; [|discriminate].
  injection Hf as <-. split; [|split; [exact Hw1|split; [|split]]].
  - intros ->. cbn in Hlen. lia.
  - exists pre, (post ++ rest). now rewrite !app_assoc_str.
  - now apply float_of_string_nonneg in Hn.
  - now apply float_of_string_nonneg in Hpct.
Qed.

Lemma parse_flamegraph_samples_witness :
  "main" <> ""
  /\ all_chars (fun a => negb (chr_is "<" a)) "main" = true
  /\ (exists pre post,
        "<g><title>main (12 samples, 3.5%)</title></g>"
        = pre ++ "<title>" ++ "main" ++ post)
  /\ 0 <= 12 /\ 0 <= 35 # 10.
Proof.
  apply (parse_flamegraph_samples "<g><title>main (12 samples, 3.5%)</title></g>"
                                  ("main", 12, 35 # 10)).
  vm_compute. left. reflexivity.
Defined.

End SubsystemReport.

(** ** The hotspots of a flame graph *)

Section HotspotData.
Import Re ReSem ExtractFlamegraphHotspots.

Lemma samples_pattern_groups (w rest : string) (c : caps) :
  matches samples_pattern w rest [] c ->
  exists w1, c = [(1%nat, w1)] /\ all_chars digit w1 = true.
Proof.
  unfold samples_pattern. intros H. inv_matches. eauto.
Qed.

Lemma title_samples_nonneg (text : option string) : 0 <= title_samples text.
Proof.
  unfold title_samples. destruct text as [[|a t]|]; try apply Qle_refl.
  destruct (search samples_pattern (strip (String a t))) as [c|] eqn:Hs;
    [|apply Qle_refl].
  apply search_sound in Hs as (pre & w & rest & _ & Hm).
  apply samples_pattern_groups in Hm as (w1 & -> & Hw1). cbn [group Nat.eqb].
  change 0 with (inject_Z 0). rewrite <- Zle_Qle.
  apply digits_val_nonneg; [now rewrite all_digits_all_chars|lia].
Qed.

(** A title either leaves the table as it is, or adds its count to the
    entry of its name. *)
Lemma add_title_cases (function_times : list (string * Q)) (text : option string) :
  (add_title function_times text = function_times /\ title_samples text = 0)
  \/ exists func_name,
      add_title function_times text
      = Dict.update func_name (fun t => t + title_samples text) 0 function_times.
Proof.
  unfold add_title, title_samples. destruct text as [[|a t]|]; auto.
  destruct (search samples_pattern (strip (String a t))) as [c|]; eauto.
Qed.

Lemma update_forall {V} (P : string * V -> Prop) k (f : V -> V) dflt
    (d : list (string * V)) :
  Forall P d -> P (k, f dflt) -> (forall k' v, P (k', v) -> P (k', f v)) ->
  Forall P (Dict.update k f dflt d).
Proof.
  intros Hd Hnew Hupd. induction Hd as [|[k' v] d Hkv Hd IH]; cbn [Dict.update].
  - constructor; [exact Hnew|constructor].
  - destruct (String.eqb k k'); constructor; auto.
Qed.

Lemma function_times_from (ts : list (option string)) (d : list (string * Q)) :
  NoDup (Dict.keys d) -> Forall (fun f => 0 <= snd f) d ->
  let function_times := fold_left add_title ts d in
  NoDup (Dict.keys function_times)
  /\ Forall (fun f => 0 <= snd f) function_times
  /\ sumQ (Dict.values function_times) == sumQ (Dict.values d) + sumQ (map title_samples ts).
Proof.
  cbv zeta. revert d. induction ts as [|t ts IH]; intros d Hnd Hpos; cbn [fold_left].
  - repeat split; auto. cbn. ring.
  - assert (Ht := title_samples_nonneg t).
    destruct (add_title_cases d t) as [[-> H0] | (func_name & ->)].
    + destruct (IH d Hnd Hpos) as (H1 & H2 & H3). repeat split; auto.
      rewrite H3. cbn [map]. rewrite sumQ_cons, H0. ring.
    + destruct (IH (Dict.update func_name (fun x => x + title_samples t) 0 d))
        as (H1 & H2 & H3).
      * now apply update_keys_nodup.
      * apply update_forall; auto.
        -- cbn [snd]. rewrite Qplus_0_l. exact Ht.
        -- intros k' v Hv. cbn [snd] in *.
           rewrite <- (Qplus_0_l 0). now apply Qplus_le_compat.
      * repeat split; auto. rewrite H3, sumQ_update.
        cbn [map]. rewrite sumQ_cons. ring.
Qed.








End HotspotData.

(** ** Case of the labels *)

(** X10.  The two keyword categorizers look at the lower-cased label only:
    labels that differ in case alone get the same category.  The categorizer
    of the subsystem report does not have this property, its first rules
    being tested on the label as written. *)
Theorem categorizers_ignore_case (a b : string) :
  lower a = lower b ->
  AnalyzeFlamegraphSimple.categorize a = AnalyzeFlamegraphSimple.categorize b
  /\ ExtractFlamegraphHotspots.categorize_function a
     = ExtractFlamegraphHotspots.categorize_function b
  /\ exists a' b',
      lower a' = lower b'
      /\ AnalyzeFlamegraph.category_of a' <> AnalyzeFlamegraph.category_of b'.
Proof.
  intros H. split; [|split].
  - unfold AnalyzeFlamegraphSimple.categorize. cbv zeta. now rewrite H.
  - unfold ExtractFlamegraphHotspots.categorize_function. cbv zeta. now rewrite H.
  - exists "fuser::Session", "FUSER::Session". split; [reflexivity|].
    vm_compute. discriminate.
Qed.

Lemma categorizers_ignore_case_witness :
  AnalyzeFlamegraphSimple.categorize "Mutex::Lock"
  = AnalyzeFlamegraphSimple.categorize "mutex::lock"
  /\ ExtractFlamegraphHotspots.categorize_function "Mutex::Lock"
     = ExtractFlamegraphHotspots.categorize_function "mutex::lock"
  /\ exists a' b',
      lower a' = lower b'
      /\ AnalyzeFlamegraph.category_of a' <> AnalyzeFlamegraph.category_of b'.
Proof.
  apply (categorizers_ignore_case "Mutex::Lock" "mutex::lock"). reflexivity.
Defined.

(** ** The sampling loop *)

Section SamplingLoop.
Import ProfileConcurrent.

Lemma step_snapshot_of (start_time : Q) (prev : option StatsSnapshot) (p : poll) :
  step start_time prev p
  = match snapshot_of p with
    | None => Ok (None, prev)
    | Some current =>
        match prev with
        | None => Ok (None, Some current)
        | Some prev' =>
            do r <- rate_row start_time prev' current; Ok (Some r, Some current)
        end
    end.
Proof. destruct p as [now [stats|]]; reflexivity. Qed.

Lemma well_typed_fields (s : StatsSnapshot) :
  well_typed s = true ->
  is_number (total_reads s) = true /\ is_number (total_writes s) = true
  /\ is_number (total_metadata_ops s) = true /\ is_number (bytes_read s) = true
  /\ is_number (read_latency_avg_ms s) = true
  /\ is_number (write_latency_avg_ms s) = true
  /\ is_number (metadata_latency_avg_ms s) = true
  /\ is_number (cache_hits s) = true /\ is_number (cache_misses s) = true
  /\ is_number (cache_entries s) = true /\ is_number (errors s) = true.
Proof.
  unfold well_typed. rewrite !andb_true_iff. tauto.
Qed.

Lemma in_float_range_fields (s : StatsSnapshot) :
  in_float_range s = true ->
  float_sized (total_reads s) = true /\ float_sized (total_writes s) = true
  /\ float_sized (total_metadata_ops s) = true /\ float_sized (bytes_read s) = true
  /\ float_sized (read_latency_avg_ms s) = true
  /\ float_sized (write_latency_avg_ms s) = true
  /\ float_sized (metadata_latency_avg_ms s) = true.
Proof.
  unfold in_float_range. rewrite !andb_true_iff. tauto.
Qed.

Lemma rate_row_ok (start_time : Q) (prev current : StatsSnapshot) :
  well_typed prev = true -> well_typed current = true ->
  in_float_range prev = true -> in_float_range current = true ->
  ~ timestamp current - timestamp prev == 0 ->
  exists r, rate_row start_time prev current = Ok r.
Proof.
  intros Hp Hc Sp Sc Hdt.
  apply well_typed_fields in Hp as (P1 & P2 & P3 & P4 & _).
  apply well_typed_fields in Hc as (C1 & C2 & C3 & C4 & C5 & C6 & C7 & C8 & C9 & C10 & C11).
  apply in_float_range_fields in Sp as (SP1 & SP2 & SP3 & SP4 & _).
  apply in_float_range_fields in Sc as (SC1 & SC2 & SC3 & SC4 & SC5 & SC6 & SC7).
  destruct (cache_hit_rate_ok current C8 C9) as (q & Hq).
  destruct (rate_ok _ _ _ C1 P1 SC1 SP1 Hdt) as (r1 & Hr1).
  destruct (rate_ok _ _ _ C2 P2 SC2 SP2 Hdt) as (r2 & Hr2).
  destruct (rate_ok _ _ _ C3 P3 SC3 SP3 Hdt) as (r3 & Hr3).
  destruct (rate_ok _ _ _ C4 P4 SC4 SP4 Hdt) as (r4 & Hr4).
  unfold rate_row. cbv zeta.
  rewrite Hr1, Hr2, Hr3, Hr4. cbn [bind].
  rewrite !format_float_ok by assumption. cbn [bind].
  rewrite Hq. cbn [bind].
  rewrite !format_width_ok by assumption. cbn [bind]. eauto.
Qed.

(** The loop from a state in which the previous snapshot, if there is one,
    is well typed, in the range of the floats and older than every snapshot
    to come. *)
Lemma run_from (start_time : Q) (polls : list poll) :
  forall prev : option StatsSnapshot,
    let snaps := omap snapshot_of polls in
    let all := match prev with Some s => s :: snaps | None => snaps end in
    Forall (fun s => well_typed s = true /\ in_float_range s = true) all ->
    StronglySorted (fun a b => timestamp a < timestamp b) all ->
    exists rows,
      run start_time prev polls = (rows, None)
      /\ length rows = Nat.pred (length all)
      /\ last_snapshot start_time prev polls = Ok (last all).
Proof.
  cbv zeta. induction polls as [|p polls IH]; intros prev Htyped Hsorted.
  - exists []. cbn [run last_snapshot omap length]. destruct prev; auto.
  - cbn [run last_snapshot]. rewrite step_snapshot_of.
    cbn [omap list_omap] in Htyped, Hsorted |- *.
    destruct (snapshot_of p) as [current|] eqn:Hp.
    + destruct prev as [prev'|].
      * apply Forall_cons in Htyped as [[Hprev Sprev] Htyped].
        assert (Hcur : well_typed current = true /\ in_float_range current = true)
          by (apply Forall_cons in Htyped as [? _]; assumption).
        destruct Hcur as [Hcur Scur].
        apply StronglySorted_inv in Hsorted as [Hsorted Hlt].
        assert (Hdt : ~ timestamp current - timestamp prev' == 0).
        { apply Forall_cons in Hlt as [Hlt _]. intros H.
          assert (timestamp current == timestamp prev') by (rewrite <- (Qplus_0_l (timestamp prev')), <- H; ring).
          rewrite H0 in Hlt. now apply Qlt_irrefl in Hlt. }
        destruct (rate_row_ok start_time prev' current Hprev Hcur Sprev Scur Hdt)
          as (r & Hr).
        rewrite Hr. cbn [bind snd].
        destruct (IH (Some current) Htyped Hsorted) as (rows & Hrun & Hlen & Hlast).
        exists (r :: rows). rewrite Hrun. cbn [length] in *.
        split; [reflexivity|]. split; [now rewrite Hlen|].
        rewrite Hlast. reflexivity.
      * cbn [bind snd].
        destruct (IH (Some current) Htyped Hsorted) as (rows & Hrun & Hlen & Hlast).
        exists rows. rewrite Hrun. auto.
    + cbn [bind snd]. destruct (IH prev Htyped Hsorted) as (rows & Hrun & Hlen & Hlast).
      exists rows. rewrite Hrun. auto.
Qed.

(** X11.  When the snapshots of the polls are well typed, with integers in
    the range of the floats, and their time stamps increase, the loop ends
    without an exception; it prints one row for each snapshot but the
    first, and the snapshot it holds at the end is the last one.  The polls
    that give no snapshot do not count. *)
Theorem run_prints_a_row_per_snapshot (start_time : Q) (polls : list poll) :
  let snaps := omap snapshot_of polls in
  Forall (fun s => well_typed s = true /\ in_float_range s = true) snaps ->
  StronglySorted (fun a b => timestamp a < timestamp b) snaps ->
  exists rows,
    run start_time None polls = (rows, None)
    /\ length rows = Nat.pred (length snaps)
    /\ last_snapshot start_time None polls = Ok (last snaps).
Proof. apply (run_from start_time polls None). Qed.

Lemma run_prints_a_row_per_snapshot_witness :
  exists rows,
    run 0 None [ (0, Some Examples.payload1); (1, None); (2, Some Examples.payload2) ]
    = (rows, None)
    /\ length rows = 1%nat
    /\ last_snapshot 0 None
         [ (0, Some Examples.payload1); (1, None); (2, Some Examples.payload2) ]
       = Ok (Some Examples.snapshot2).
Proof.
  assert (Hsnaps : omap snapshot_of [ (0, Some Examples.payload1); (1, None);
                                      (2, Some Examples.payload2) ]
                   = [Examples.snapshot1; Examples.snapshot2])
    by (vm_compute; reflexivity).
  apply (run_prints_a_row_per_snapshot 0
           [ (0, Some Examples.payload1); (1, None); (2, Some Examples.payload2) ]).
  - rewrite Hsnaps. repeat constructor.
  - rewrite Hsnaps. repeat constructor.
Defined.

(** X12.  A poll that gives no snapshot changes nothing: the rows, the
    exception and the snapshot held at the end are those of the loop over
    the other polls. *)
Theorem run_skips_failed_polls (start_time : Q) (prev : option StatsSnapshot)
    (polls : list poll) :
  let kept := List.filter (fun p => match snapshot_of p with
                                    | Some _ => true
                                    | None => false
                                    end) polls in
  run start_time prev polls = run start_time prev kept
  /\ last_snapshot start_time prev polls = last_snapshot start_time prev kept.
Proof.
  cbv zeta. revert prev. induction polls as [|p polls IH]; intros prev; [auto|].
  cbn [List.filter]. destruct (snapshot_of p) as [current|] eqn:Hp.
  - cbn [run last_snapshot].
    destruct (step start_time prev p) as [[r next]|e]; cbn [bind snd]; [|auto].
    destruct (IH next) as [-> ->]. auto.
  - cbn [run last_snapshot]. rewrite step_snapshot_of, Hp. cbn [bind snd].
    destruct (IH prev) as [-> ->].
    destruct (run start_time prev _) as [rows e]. auto.
Qed.

End SamplingLoop.

Section FeedAndFormat.
Import ProfileConcurrent.

Lemma ratio_percent_bounds (h m : Q) :
  0 <= h -> 0 <= m -> 0 < h + m ->
  0 <= h / (h + m) * 100 /\ h / (h + m) * 100 <= 100.
Proof.
  intros Hh Hm Hpos. split.
  - apply Qmult_le_0_compat; [|discriminate].
    apply Qle_shift_div_l; [exact Hpos|]. now rewrite Qmult_0_l.
  - rewrite <- (Qmult_1_l 100) at 2. apply Qmult_le_compat_r; [|discriminate].
    apply Qle_shift_div_r; [exact Hpos|]. rewrite Qmult_1_l.
    rewrite <- (Qplus_0_r h) at 1. now apply Qplus_le_compat; [apply Qle_refl|].
Qed.

Lemma percent_bounds (n t : Q) :
  0 <= n -> n <= t -> 0 < t -> 0 <= n / t * 100 /\ n / t * 100 <= 100.
Proof.
  intros Hn Hnt Ht. split.
  - apply Qmult_le_0_compat; [|discriminate].
    apply Qle_shift_div_l; [exact Ht|]. now rewrite Qmult_0_l.
  - rewrite <- (Qmult_1_l 100) at 2. apply Qmult_le_compat_r; [|discriminate].
    apply Qle_shift_div_r; [exact Ht|]. now rewrite Qmult_1_l.
Qed.



Lemma first_json_spec (loads : string -> option (gmap string json))
    (lines : list string) :
  match first_json loads lines with
  | Some stats =>
      exists before line after,
        lines = (before ++ line :: after)%list
        /\ String.prefix "{" line = true /\ loads line = Some stats
        /\ Forall (fun l => String.prefix "{" l = false \/ loads l = None) before
  | None => Forall (fun l => String.prefix "{" l = false \/ loads l = None) lines
  end.
Proof.
  induction lines as [|line lines IH]; cbn [first_json]; [constructor|].
  destruct (String.prefix "{" line) eqn:Hp.
  - destruct (loads line) as [stats|] eqn:Hl.
    + exists [], line, lines. repeat split; auto.
    + destruct (first_json loads lines) as [stats|].
      * destruct IH as (before & l & after & -> & H1 & H2 & H3).
        exists (line :: before), l, after. repeat split; auto.
      * constructor; auto.
  - destruct (first_json loads lines) as [stats|].
    + destruct IH as (before & l & after & -> & H1 & H2 & H3).
      exists (line :: before), l, after. repeat split; auto.
    + constructor; auto.
Qed.

(** X15.  Statistics are returned only for a command that ran and ended
    with status 0, and they are the parse of the first line of its output
    that starts with a brace and parses; the lines before it are passed
    over. *)
Theorem get_mount_stats_first_json (loads : string -> option (gmap string json))
    (result : option (Z * string)) (stats : gmap string json) :
  get_mount_stats loads result = Some stats ->
  exists stdout before line after,
    result = Some (0%Z, stdout)
    /\ split_on Re.newline stdout = (before ++ line :: after)%list
    /\ String.prefix "{" line = true /\ loads line = Some stats
    /\ Forall (fun l => String.prefix "{" l = false \/ loads l = None) before.
Proof.
  unfold get_mount_stats. intros H. destruct result as [[returncode stdout]|]; [|discriminate].
  destruct (Z.eqb_spec returncode 0) as [->|Hne]; cbn [negb] in H; [|discriminate].
  pose proof (first_json_spec loads (split_on Re.newline stdout)) as Hspec.
  rewrite H in Hspec. destruct Hspec as (before & line & after & Hs & H1 & H2 & H3).
  exists stdout, before, line, after. auto.
Qed.

Lemma get_mount_stats_first_json_witness :
  let loads := fun line : string =>
                 if String.eqb line "{}" then Some (∅ : gmap string json) else None in
  exists stdout before line after,
    Some (0%Z, "mounts:" ++ String Re.newline ("{oops" ++ String Re.newline "{}"))
    = Some (0%Z, stdout)
    /\ split_on Re.newline stdout = (before ++ line :: after)%list
    /\ String.prefix "{" line = true /\ loads line = Some ∅
    /\ Forall (fun l => String.prefix "{" l = false \/ loads l = None) before.
Proof.
  cbv zeta.
  apply (get_mount_stats_first_json
           (fun line : string =>
              if String.eqb line "{}" then Some (∅ : gmap string json) else None)
           (Some (0%Z, "mounts:" ++ String Re.newline ("{oops" ++ String Re.newline "{}")))
           ∅).
  vm_compute. reflexivity.
Defined.

End FeedAndFormat.

(** ** The operation counts of a log *)

Section OperationCounts.
Import AnalyzeProfiling.

Lemma count_lines_bounds (test : string -> bool) (lines : list string) :
  (0 <= count_lines test lines <= Z.of_nat (length lines))%Z.
Proof.
  unfold count_lines. split; [lia|]. apply Nat2Z.inj_le.
  induction lines as [|l lines IH]; cbn [List.filter length]; [lia|].
  destruct (test l); cbn [length]; lia.
Qed.

Lemma count_lines_app (test : string -> bool) (l1 l2 : list string) :
  count_lines test (l1 ++ l2)%list
  = (count_lines test l1 + count_lines test l2)%Z.
Proof.
  unfold count_lines. rewrite List.filter_app, length_app. lia.
Qed.

(** X16.  Every operation count that is printed is above zero and at most
    the number of lines of the log; [cache_lookups] is never among them, and
    nothing is printed for a log that is empty or cannot be opened. *)
Theorem operation_counts_printed (log : option (list string)) :
  Forall (fun item =>
            fst item <> "cache_lookups"
            /\ (0 < snd item
                <= Z.of_nat (length (match log with Some lines => lines | None => [] end)))%Z)
         (operation_counts log)
  /\ operation_counts None = []
  /\ operation_counts (Some []) = [].
Proof.
  split; [|split; reflexivity].
  unfold operation_counts. apply List.Forall_forall. intros item Hin.
  apply List.filter_In in Hin as [Hin Hpos]. apply Z.ltb_lt in Hpos.
  destruct log as [lines|].
  - unfold analyze_log_patterns in Hin.
    destruct (scan_lines_counts lines no_patterns)
      as (H1 & H2 & H3 & H4 & H5 & H6 & H7 & H8 & H9).
    cbv zeta in *. cbn [no_patterns stat_calls lookup_calls read_calls write_calls mkdir_calls
         unlink_calls cache_lookups cache_hits cache_misses] in H1, H2, H3, H4, H5, H6, H7, H8, H9.
    unfold items in Hin. rewrite H1, H2, H3, H4, H5, H6, H7, H8, H9 in Hin.
    cbn [In] in Hin.
    repeat (destruct Hin as [<- | Hin];
            [cbn [fst snd] in *;
             try (split; [discriminate|];
                  match goal with
                  | |- (_ < 0 + count_lines ?t ?l <= _)%Z =>
                      pose proof (count_lines_bounds t l); lia
                  end); lia|]).
    destruct Hin.
  - cbn in Hin.
    repeat (destruct Hin as [<- | Hin]; [cbn [snd] in Hpos; lia|]). destruct Hin.
Qed.

(** X17.  Scanning a log in two parts gives counters that add up to those
    of the whole log. *)
Theorem analyze_log_patterns_additive (lines1 lines2 : list string) :
  map snd (items (analyze_log_patterns (Some (lines1 ++ lines2)%list)))
  = zip_with Z.add (map snd (items (analyze_log_patterns (Some lines1))))
                   (map snd (items (analyze_log_patterns (Some lines2)))).
Proof.
  unfold analyze_log_patterns.
  destruct (scan_lines_counts (lines1 ++ lines2)%list no_patterns)
    as (A1 & A2 & A3 & A4 & A5 & A6 & A7 & A8 & A9).
  destruct (scan_lines_counts lines1 no_patterns)
    as (B1 & B2 & B3 & B4 & B5 & B6 & B7 & B8 & B9).
  destruct (scan_lines_counts lines2 no_patterns)
    as (C1 & C2 & C3 & C4 & C5 & C6 & C7 & C8 & C9).
  cbv zeta in *. unfold items. cbn [map snd zip_with].
  rewrite A1, A2, A3, A4, A5, A6, A7, A8, A9, B1, B2, B3, B4, B5, B6, B7, B8, B9,
    C1, C2, C3, C4, C5, C6, C7, C8, C9, !count_lines_app.
  cbn [no_patterns stat_calls lookup_calls read_calls write_calls mkdir_calls
       unlink_calls cache_lookups cache_hits cache_misses].
  repeat (f_equal; [lia|]). reflexivity.
Qed.

End OperationCounts.

(** ** The metrics snapshot of the profiling analysis *)

Section Metrics.
Import AnalyzeProfiling.

Lemma share_spec (part whole : Z) :
  share part whole
  = Ok (if (0 <? whole)%Z then inject_Z part / inject_Z whole * 100 else 0).
Proof.
  unfold share. destruct (0 <? whole)%Z eqn:Hw; [|reflexivity].
  apply Z.ltb_lt in Hw. rewrite truediv_nonzero; [reflexivity|].
  intros H. unfold Qeq in H. cbn in H. lia.
Qed.



(** X19.  With hit and miss counters that are not negative, the cache hit
    rate is a percentage between 0 and 100; it is 0 without lookups. *)
Theorem metrics_cache_hit_rate_bounds (m : MetricsSnapshot) :
  (0 <= snapshot_cache_hits m)%Z -> (0 <= snapshot_cache_misses m)%Z ->
  exists q,
    cache_hit_rate m = Ok q /\ 0 <= q /\ q <= 100
    /\ ((snapshot_cache_hits m + snapshot_cache_misses m = 0)%Z -> q = 0).
Proof.
  intros Hh Hm. unfold cache_hit_rate. rewrite share_spec.
  destruct (0 <? snapshot_cache_hits m + snapshot_cache_misses m)%Z eqn:Hpos.
  - apply Z.ltb_lt in Hpos. eexists. split; [reflexivity|].
    rewrite inject_Z_plus.
    destruct (ratio_percent_bounds (inject_Z (snapshot_cache_hits m))
                                   (inject_Z (snapshot_cache_misses m))) as [H1 H2].
    + change 0 with (inject_Z 0). now rewrite <- Zle_Qle.
    + change 0 with (inject_Z 0). now rewrite <- Zle_Qle.
    + rewrite <- inject_Z_plus. change 0 with (inject_Z 0). now rewrite <- Zlt_Qlt.
    + repeat split; auto. lia.
  - exists 0. repeat split; auto; discriminate.
Qed.

Lemma metrics_cache_hit_rate_bounds_witness :
  exists q,
    cache_hit_rate (Build_MetricsSnapshot 6 3 1 0 0 0 0 0 9 1 0 0) = Ok q
    /\ 0 <= q /\ q <= 100
    /\ ((9 + 1 = 0)%Z -> q = 0).
Proof.
  apply (metrics_cache_hit_rate_bounds (Build_MetricsSnapshot 6 3 1 0 0 0 0 0 9 1 0 0));
    cbn; lia.
Defined.

End Metrics.

(** ** Timing lines and colour codes *)

Section TimingText.
Import Re ReSem.

Lemma append_nil_r (s : string) : s ++ "" = s.
Proof. induction s as [|a s IH]; [reflexivity|]. now rewrite append_cons, IH. Qed.

Lemma sub_from_length (r : regex) (skip : nat) (s : string) :
  (String.length (sub_from r "" skip s) <= String.length s)%nat.
Proof.
  revert skip. induction s as [|a s IH]; intros skip; cbn [sub_from String.length]; [lia|].
  destruct skip as [|k]; [|specialize (IH k); lia].
  destruct (match_at r (String a s)) as [[len c]|].
  - rewrite append_nil. specialize (IH (len - 1)%nat). lia.
  - cbn [String.length]. specialize (IH O). lia.
Qed.

(** X20.  Removing the colour codes never makes a text longer, and leaves a
    text without escape character as it is; this holds for the pattern of
    the run comparison and for that of the profiling analysis. *)
Theorem ansi_escape_removal (s : string) :
  (String.length (sub CompareResults.ansi_escape "" s) <= String.length s)%nat
  /\ (String.length (sub AnalyzeProfiling.ansi_escape "" s) <= String.length s)%nat
  /\ (contains (String (ascii_of_nat 27) "") s = false ->
      sub CompareResults.ansi_escape "" s = s
      /\ sub AnalyzeProfiling.ansi_escape "" s = s).
Proof.
  split; [apply sub_from_length|]. split; [apply sub_from_length|].
  intros Hs.
  assert (H : sub CompareResults.ansi_escape "" s = s).
  { rewrite <- (append_nil_r s) at 1. rewrite sub_pre by exact Hs.
    apply append_nil_r. }
  split; exact H.
Qed.

Lemma ansi_escape_removal_witness :
  sub CompareResults.ansi_escape "" "Time (mean): 5.09 s" = "Time (mean): 5.09 s"
  /\ sub AnalyzeProfiling.ansi_escape "" "Time (mean): 5.09 s" = "Time (mean): 5.09 s".
Proof.
  apply (ansi_escape_removal "Time (mean): 5.09 s"). reflexivity.
Defined.

Lemma timing_line_pattern_groups (w rest : string) (c : caps) :
  matches AnalyzeProfiling.timing_line_pattern w rest [] c ->
  exists gap timing,
    c = [(1%nat, timing)]
    /\ w = "Time (mean ± σ):" ++ gap ++ timing
    /\ all_chars space gap = true /\ (1 <= String.length gap)%nat
    /\ all_chars not_newline timing = true /\ (1 <= String.length timing)%nat.
Proof.
  unfold AnalyzeProfiling.timing_line_pattern. intros H. cbn [seq] in H.
  apply matches_seq_inv in H as (u1 & u2 & c1 & -> & H1 & H).
  apply matches_lit in H1 as [-> ->].
  apply matches_seq_inv in H as (gap & u3 & c2 & -> & H1 & H).
  apply matches_rep_inv in H1 as (-> & Hgap & Hgaplen).
  apply matches_seq_inv in H as (timing & u4 & c3 & -> & H1 & H).
  apply matches_group_inv in H1 as (c4 & -> & H1).
  apply matches_rep_inv in H1 as (-> & Ht & Htlen).
  inversion H; subst.
  exists gap, timing. rewrite append_nil_r. auto 10.
Qed.

(** X21.  A timing that is returned is not empty and has no line break in
    it; it stands in the text without colour codes, after the label of the
    timing line and the white space that follows it.  No timing is returned
    for a file that cannot be read. *)
Theorem parse_timing_from_log_line (file : option string) (timing : string) :
  AnalyzeProfiling.parse_timing_from_log file = Some timing ->
  timing <> ""
  /\ all_chars not_newline timing = true
  /\ exists content before gap after,
      file = Some content
      /\ sub AnalyzeProfiling.ansi_escape "" content
         = before ++ "Time (mean ± σ):" ++ gap ++ timing ++ after
      /\ all_chars space gap = true /\ gap <> "".
Proof.
  unfold AnalyzeProfiling.parse_timing_from_log. intros H.
  destruct file as [content|]; [|discriminate]. cbv zeta in H.
  destruct (search _ _) as [c|] eqn:Hs; [|discriminate]. injection H as <-.
  apply search_sound in Hs as (before & w & after & Hclean & Hm).
  apply timing_line_pattern_groups in Hm
    as (gap & timing & -> & -> & Hgap & Hgaplen & Ht & Htlen).
  cbn [group Nat.eqb]. split; [|split; [exact Ht|]].
  - intros ->. cbn in Htlen. lia.
  - exists content, before, gap, after. split; [reflexivity|]. split; [|split; [exact Hgap|]].
    + rewrite Hclean. now rewrite !app_assoc_str.
    + intros ->. cbn in Hgaplen. lia.
Qed.

Lemma parse_timing_from_log_line_witness :
  "5.09 s" <> ""
  /\ all_chars not_newline "5.09 s" = true
  /\ exists content before gap after,
      Some "run 1  Time (mean ± σ):  5.09 s" = Some content
      /\ sub AnalyzeProfiling.ansi_escape "" content
         = before ++ "Time (mean ± σ):" ++ gap ++ "5.09 s" ++ after
      /\ all_chars space gap = true /\ gap <> "".
Proof.
  apply (parse_timing_from_log_line (Some "run 1  Time (mean ± σ):  5.09 s") "5.09 s").
  vm_compute. reflexivity.
Defined.

Lemma timing_pattern_text (w rest : string) (c : caps) :
  matches CompareResults.timing_pattern w rest [] c ->
  exists between after, w = "Time" ++ between ++ "mean" ++ after.
Proof.
  unfold CompareResults.timing_pattern. intros H. cbn [seq] in H.
  apply matches_seq_inv in H as (u1 & u2 & c1 & -> & H1 & H).
  apply matches_lit in H1 as [-> ->].
  apply matches_seq_inv in H as (between & u3 & c2 & -> & _ & H).
  apply matches_seq_inv in H as (u4 & after & c3 & -> & H1 & _).
  apply matches_lit in H1 as [-> _]. eauto.
Qed.

(** X22.  The run comparison extracts a timing only from a file that can be
    read and whose text, without colour codes, has [Time] followed further
    on by [mean]; the two values it returns are not negative. *)
Theorem extract_metrics_found (file : option string) (mean_ms sigma_ms : Q) :
  CompareResults.extract_metrics file = Some (mean_ms, sigma_ms) ->
  0 <= mean_ms /\ 0 <= sigma_ms
  /\ exists content before between after,
      file = Some content
      /\ sub CompareResults.ansi_escape "" content
         = before ++ "Time" ++ between ++ "mean" ++ after.
Proof.
  intros H. destruct (extract_metrics_nonneg file mean_ms sigma_ms H) as [Hm Hs].
  split; [exact Hm|]. split; [exact Hs|].
  unfold CompareResults.extract_metrics in H.
  destruct file as [content|]; [|discriminate]. cbv zeta in H.
  destruct (search _ _) as [c|] eqn:Hsearch; [|discriminate].
  apply search_sound in Hsearch as (before & w & rest & Hclean & Hmatch).
  apply timing_pattern_text in Hmatch as (between & after & ->).
  exists content, before, between, (after ++ rest). split; [reflexivity|].
  rewrite Hclean. now rewrite !app_assoc_str.
Qed.

Lemma extract_metrics_found_witness :
  0 <= 509000 # 100 /\ 0 <= 1171 # 100
  /\ exists content before between after,
      Some (Examples.report_of "5.09 s ± 11.71 ms") = Some content
      /\ sub CompareResults.ansi_escape "" content
         = before ++ "Time" ++ between ++ "mean" ++ after.
Proof.
  apply (extract_metrics_found (Some (Examples.report_of "5.09 s ± 11.71 ms"))).
  vm_compute. reflexivity.
Defined.

End TimingText.

(** ** Artifacts without samples *)

Section NoSamples.
Import Re ReSem.

Lemma prefix_app_self (u post : string) : String.prefix u (u ++ post) = true.
Proof.
  induction u as [|a u IH]; [apply prefix_empty|].
  rewrite append_cons. cbn [String.prefix].
  destruct (ascii_dec a a); [exact IH|contradiction].
Qed.

Lemma contains_app (u pre post : string) : contains u (pre ++ u ++ post) = true.
Proof.
  induction pre as [|a pre IH].
  - rewrite append_nil. destruct (u ++ post) eqn:Hs; cbn [contains];
      rewrite <- Hs, prefix_app_self; reflexivity.
  - rewrite append_cons. cbn [contains]. rewrite IH. apply orb_true_r.
Qed.

Lemma findall_none (r : regex) (u content : string) :
  (forall w rest c, matches r w rest [] c -> exists post, w = u ++ post) ->
  contains u content = false -> findall r content = [].
Proof.
  intros Hr Hc. destruct (findall r content) as [|c l] eqn:Hf; [reflexivity|].
  assert (Hin : In c (findall r content)) by (rewrite Hf; now left).
  apply findall_sound in Hin as (pre & w & rest & -> & Hm).
  apply Hr in Hm as (post & ->).
  rewrite app_assoc_str, contains_app in Hc. discriminate.
Qed.

(** X23.  A file in which [title>] does not occur has no hotspot: the
    report of the hotspot analysis is the notice that none was found, and no
    exception is raised. *)
Theorem simple_main_no_titles (content : string) :
  contains "title>" content = false ->
  AnalyzeFlamegraphSimple.extract_hotspots content = Ok []
  /\ AnalyzeFlamegraphSimple.main (Some content)
     = (AnalyzeFlamegraphSimple.NoHotspots, None).
Proof.
  intros Hc.
  assert (Hx : AnalyzeFlamegraphSimple.extract_hotspots content = Ok []).
  { unfold AnalyzeFlamegraphSimple.extract_hotspots.
    rewrite (findall_none _ "title>" content); [reflexivity| |exact Hc].
    intros w rest c Hm. unfold AnalyzeFlamegraphSimple.pattern in Hm. cbn [seq] in Hm.
    apply matches_seq_inv in Hm as (u1 & u2 & c1 & -> & H1 & _).
    apply matches_lit in H1 as [-> _]. eauto. }
  split; [exact Hx|]. unfold AnalyzeFlamegraphSimple.main. now rewrite Hx.
Qed.

Lemma simple_main_no_titles_witness :
  AnalyzeFlamegraphSimple.extract_hotspots "<svg><g><rect/></g></svg>" = Ok []
  /\ AnalyzeFlamegraphSimple.main (Some "<svg><g><rect/></g></svg>")
     = (AnalyzeFlamegraphSimple.NoHotspots, None).
Proof.
  apply (simple_main_no_titles "<svg><g><rect/></g></svg>"). reflexivity.
Defined.

(** X24.  A file in which [<title>] does not occur has no sample, and the
    analysis of no sample is an empty report: no row, and no exception
    although the grand total is zero. *)
Theorem parse_flamegraph_no_titles (content : string) (top_n : nat) :
  contains "<title>" content = false ->
  AnalyzeFlamegraph.parse_flamegraph content = []
  /\ AnalyzeFlamegraph.print_analysis (AnalyzeFlamegraph.parse_flamegraph content) top_n
     = ([], ([], None)).
Proof.
  intros Hc.
  assert (Hx : AnalyzeFlamegraph.parse_flamegraph content = []).
  { unfold AnalyzeFlamegraph.parse_flamegraph.
    rewrite (findall_none _ "<title>" content); [reflexivity| |exact Hc].
    intros w rest c Hm.
    apply subsystem_pattern_groups in Hm as (w1 & w2 & w3 & post & _ & -> & _). eauto. }
  split; [exact Hx|]. rewrite Hx. unfold AnalyzeFlamegraph.print_analysis.
  cbn [sorted_desc]. now rewrite firstn_nil.
Qed.

Lemma parse_flamegraph_no_titles_witness :
  AnalyzeFlamegraph.parse_flamegraph "<svg><g><rect/></g></svg>" = []
  /\ AnalyzeFlamegraph.print_analysis
       (AnalyzeFlamegraph.parse_flamegraph "<svg><g><rect/></g></svg>") 50
     = ([], ([], None)).
Proof.
  apply (parse_flamegraph_no_titles "<svg><g><rect/></g></svg>" 50). reflexivity.
Defined.

End NoSamples.

(** ** The members of a category *)

Section Members.
Import AnalyzeFlamegraph.

Lemma add_function_get (c : string) (d : list (string * bucket)) (f : sample) :
  Dict.get c (add_function d f)
  = if String.eqb c (category_of (fst (fst f)))
    then Some (let b := match Dict.get (category_of (fst (fst f))) d with
                        | Some b => b
                        | None => empty_bucket
                        end in
               {| samples := samples b + snd (fst f);
                  functions := (functions b ++ [f])%list |})
    else Dict.get c d.
Proof.
  destruct f as [[func n] pct]. unfold add_function. now rewrite get_update.
Qed.

Lemma members_in_order (fs : list sample) :
  forall (d : list (string * bucket)) (seen : list sample) (c : string),
    (forall c', match Dict.get c' d with
                | Some b =>
                    functions b
                    = List.filter (fun f : sample => String.eqb c' (category_of (fst (fst f))))
                                  seen
                | None =>
                    List.filter (fun f : sample => String.eqb c' (category_of (fst (fst f))))
                                seen = []
                end) ->
    match Dict.get c (fold_left add_function fs d) with
    | Some b =>
        functions b
        = List.filter (fun f : sample => String.eqb c (category_of (fst (fst f))))
                      (seen ++ fs)%list
    | None =>
        List.filter (fun f : sample => String.eqb c (category_of (fst (fst f))))
                    (seen ++ fs)%list = []
    end.
Proof.
  induction fs as [|f fs IH]; intros d seen c Hd; cbn [fold_left].
  - rewrite app_nil_r. apply Hd.
  - replace (seen ++ f :: fs)%list with ((seen ++ [f]) ++ fs)%list
      by (now rewrite <- List.app_assoc).
    apply IH. intros c'. rewrite add_function_get, List.filter_app.
    cbn [List.filter]. specialize (Hd c') as Hc'.
    destruct (String.eqb_spec c' (category_of (fst (fst f)))) as [<-|Hne].
    + cbv zeta. cbn [functions].
      destruct (Dict.get c' d) as [b|]; [now rewrite Hc'|].
      rewrite Hc'. reflexivity.
    + rewrite app_nil_r. exact Hc'.
Qed.

(** X25.  The functions listed under a category are the samples of that
    category, all of them and in the order of the input; a category is
    present exactly when it has a sample. *)
Theorem categorize_functions_members (fs : list sample) (c : string) :
  match Dict.get c (categorize_functions fs) with
  | Some b =>
      functions b
      = List.filter (fun f : sample => String.eqb c (category_of (fst (fst f)))) fs
      /\ functions b <> []
  | None =>
      List.filter (fun f : sample => String.eqb c (category_of (fst (fst f)))) fs = []
  end.
Proof.
  pose proof (members_in_order fs [] [] c) as H. cbn [app] in H.
  unfold categorize_functions.
  assert (Hne : forall (l : list sample) d,
             (forall c' b, Dict.get c' d = Some b -> functions b <> []) ->
             forall c' b, Dict.get c' (fold_left add_function l d) = Some b ->
                          functions b <> []).
  { induction l as [|f l IH]; intros d Hd c' b; cbn [fold_left]; [apply Hd|].
    apply IH. intros c'' b'. rewrite add_function_get.
    destruct (String.eqb c'' (category_of (fst (fst f)))); [|apply Hd].
    intros [= <-]. cbv zeta. cbn [functions]. now destruct (functions _). }
  destruct (Dict.get c (fold_left add_function fs [])) as [b|] eqn:Hb.
  - split; [apply H; intros c'; reflexivity|].
    eapply Hne; [|exact Hb]. intros c' b' E. discriminate E.
  - apply H. intros c'. reflexivity.
Qed.

End Members.

(** ** The bars of the category tables *)

Lemma for_each_in {A B} (body : A -> res B) (l : list A) (y : B) :
  In y (fst (for_each body l)) -> exists x, In x l /\ body x = Ok y.
Proof.
  induction l as [|x l IH]; cbn [for_each]; [intros []|].
  destruct (body x) as [y'|e] eqn:Hx; [|intros []].
  destruct (for_each body l) as [ys e]. cbn [fst] in *.
  intros [<- | Hin]; [exists x; split; [now left|exact Hx]|].
  destruct (IH Hin) as (x' & Hx' & Hy). exists x'. split; [now right|exact Hy].
Qed.

Lemma bar_bounds (pct : Q) :
  0 <= pct -> pct <= 100 -> (0 <= int_of_float (pct / 2) <= 50)%Z.
Proof.
  intros H0 H100. unfold int_of_float.
  assert (Hlo : 0 <= pct / 2).
  { apply Qle_shift_div_l; [reflexivity|]. now rewrite Qmult_0_l. }
  assert (Hhi : pct / 2 <= 50).
  { apply Qle_shift_div_r; [reflexivity|]. exact H100. }
  destruct (pct / 2) as [n d]. unfold Qle in Hlo, Hhi. cbn in Hlo, Hhi.
  cbn [Qnum Qden]. rewrite Z.quot_div_nonneg by lia. split.
  - apply Z.div_pos; lia.
  - apply Z.div_le_upper_bound; lia.
Qed.

Lemma sumZ_ge_elem (l : list Z) (x : Z) :
  Forall (fun n => (0 <= n)%Z) l -> In x l -> (x <= sumZ l)%Z.
Proof.
  induction 1 as [|y l Hy Hl IH]; [intros []|].
  cbn [sumZ fold_right]. fold (sumZ l).
  assert (0 <= sumZ l)%Z.
  { clear -Hl. induction Hl; cbn [sumZ fold_right]; [lia|]. fold (sumZ l). lia. }
  intros [-> | Hin]; [lia|]. specialize (IH Hin). lia.
Qed.

Lemma sumQ_ge_elem (l : list Q) (x : Q) :
  Forall (fun n => 0 <= n) l -> In x l -> x <= sumQ l.
Proof.
  induction 1 as [|y l Hy Hl IH]; [intros []|].
  rewrite sumQ_cons.
  assert (0 <= sumQ l).
  { clear -Hl. induction Hl; [apply Qle_refl|]. rewrite sumQ_cons.
    rewrite <- (Qplus_0_l 0). now apply Qplus_le_compat. }
  intros [-> | Hin].
  - rewrite <- (Qplus_0_r x) at 1. apply Qplus_le_compat; [apply Qle_refl|assumption].
  - specialize (IH Hin). rewrite <- (Qplus_0_l x). now apply Qplus_le_compat.
Qed.

Section SimpleBars.
Import AnalyzeFlamegraphSimple.

Lemma simple_totals_nonneg (hs : list hotspot) (d : list (string * Z)) :
  Forall (fun h => (0 <= samples h)%Z) hs -> Forall (fun kv => (0 <= snd kv)%Z) d ->
  Forall (fun kv => (0 <= snd kv)%Z) (fold_left add_hotspot hs d).
Proof.
  intros Hhs. revert d. induction Hhs as [|h hs Hh Hhs IH]; intros d Hd; [exact Hd|].
  cbn [fold_left]. apply IH. unfold add_hotspot.
  apply update_forall; [exact Hd|cbn [snd]; lia|].
  intros k v Hv. cbn [snd] in *. lia.
Qed.

Lemma simple_main_rows (file : option string) total top rows found e :
  main file = (Report total top rows found, e) ->
  exists content hs,
    file = Some content /\ extract_hotspots content = Ok hs
    /\ rows = fst (for_each (category_line (total_samples hs))
                     (sorted_desc (fun a b : string * Z => Z.leb (snd a) (snd b))
                                  (category_totals hs))).
Proof.
  unfold main. intros H. destruct file as [content|]; [|discriminate].
  destruct (extract_hotspots content) as [hs|] eqn:Hx; [|discriminate].
  exists content, hs. split; [reflexivity|]. split; [exact Hx|].
  destruct hs as [|h0 hs0]; [discriminate|].
  destruct (for_each _ _) as [rows' [e'|]]; [now injection H as <- <- <- <- <-|].
  destruct (key_metrics _ _); now injection H as <- <- <- <- <-.
Qed.

(** X26.  In the category table of the hotspot analysis every percentage is
    between 0 and 100, and the bar drawn for it has at most 50 marks. *)
Theorem simple_main_bars (file : option string) total top rows found e :
  main file = (Report total top rows found, e) ->
  Forall (fun r => 0 <= cat_pct r /\ cat_pct r <= 100
                   /\ (0 <= cat_bar r <= 50)%Z) rows.
Proof.
  intros H. apply simple_main_rows in H as (content & hs & _ & Hx & ->).
  apply List.Forall_forall. intros r Hr.
  apply for_each_in in Hr as ([cat n] & Hin & Hline).
  apply (Permutation_in _ (sorted_desc_perm _ _)) in Hin.
  assert (Hpos : Forall (fun h => (0 <= samples h)%Z) hs).
  { apply List.Forall_forall. intros h Hh.
    now apply (hotspot_counts_nonneg content hs h Hx). }
  assert (Hvals : Forall (fun kv : string * Z => (0 <= snd kv)%Z) (category_totals hs))
    by (apply simple_totals_nonneg; [exact Hpos|constructor]).
  assert (Hn0 : (0 <= n)%Z).
  { rewrite List.Forall_forall in Hvals. apply (Hvals (cat, n) Hin). }
  assert (Hnt : (n <= total_samples hs)%Z).
  { replace (total_samples hs) with (sumZ (Dict.values (category_totals hs))).
    - apply sumZ_ge_elem.
      + apply List.Forall_forall. intros v Hv.
        apply in_map_iff in Hv as (kv & <- & Hkv).
        rewrite List.Forall_forall in Hvals. now apply Hvals.
      + apply in_map_iff. exists (cat, n). auto.
    - unfold category_totals. rewrite simple_totals_from. reflexivity. }
  unfold category_line, percent_of, truediv in Hline.
  destruct (Qeq_bool (inject_Z (total_samples hs)) 0) eqn:Hz; [discriminate|].
  cbn [bind] in Hline. injection Hline as <-. cbn [cat_pct cat_bar].
  assert (Ht : (total_samples hs <> 0)%Z).
  { intros Ht. rewrite Ht in Hz. discriminate. }
  destruct (percent_bounds (inject_Z n) (inject_Z (total_samples hs))) as [H1 H2].
  - change 0 with (inject_Z 0). now rewrite <- Zle_Qle.
  - now rewrite <- Zle_Qle.
  - change 0 with (inject_Z 0). rewrite <- Zlt_Qlt. lia.
  - split; [exact H1|]. split; [exact H2|]. now apply bar_bounds.
Qed.

Lemma simple_main_bars_witness :
  exists total top rows found e,
    main (Some "<title>a (2 samples, 1.5%)</title><title>lock (7 samples, 4%)</title>")
    = (Report total top rows found, e)
    /\ Forall (fun r => 0 <= cat_pct r /\ cat_pct r <= 100
                        /\ (0 <= cat_bar r <= 50)%Z) rows.
Proof.
  eexists _, _, _, _, _. split; [vm_compute; reflexivity|].
  eapply (simple_main_bars
            (Some "<title>a (2 samples, 1.5%)</title><title>lock (7 samples, 4%)</title>")).
  vm_compute. reflexivity.
Defined.

End SimpleBars.

Section HotspotBars.
Import ExtractFlamegraphHotspots.

Lemma hotspot_totals_nonneg (fs : list (string * Q)) (d : list (string * Q)) :
  Forall (fun f => 0 <= snd f) fs -> Forall (fun kv => 0 <= snd kv) d ->
  Forall (fun kv => 0 <= snd kv) (fold_left add_function fs d).
Proof.
  intros Hfs. revert d. induction Hfs as [|f fs Hf Hfs IH]; intros d Hd; [exact Hd|].
  cbn [fold_left]. apply IH. unfold add_function.
  apply update_forall; [exact Hd|cbn [snd]; now rewrite Qplus_0_l|].
  intros k v Hv. cbn [snd] in *. rewrite <- (Qplus_0_l 0). now apply Qplus_le_compat.
Qed.

Lemma hotspots_main_rows (exists_ : bool) titles total top rows found e :
  main exists_ titles = (Report total top rows found, e) ->
  rows = []
  \/ rows = fst (for_each (category_line (total_samples (extract_flamegraph_data titles)))
                   (sorted_desc (fun a b : string * Q => Qle_bool (snd a) (snd b))
                      (category_totals (extract_flamegraph_data titles)))).
Proof.
  unfold main. destruct exists_; cbn [negb]; [|discriminate].
  destruct (extract_flamegraph_data titles) as [|f0 fs0]; [discriminate|].
  destruct (for_each (top_line _) _) as [top' [e'|]];
    [intros [= <- <- <- <- <-]; now left|].
  destruct (for_each (category_line _) _) as [rows' [e'|]];
    [intros [= <- <- <- <- <-]; now right|].
  destruct (key_findings _ _); intros [= <- <- <- <- <-]; now right.
Qed.

(** X27.  In the category table of the flame-graph report every percentage
    is between 0 and 100, and the bar drawn for it has at most 50 marks. *)
Theorem hotspots_main_bars (exists_ : bool) titles total top rows found e :
  main exists_ titles = (Report total top rows found, e) ->
  Forall (fun r => 0 <= cat_pct r /\ cat_pct r <= 100
                   /\ (0 <= cat_bar r <= 50)%Z) rows.
Proof.
  intros H. apply hotspots_main_rows in H as [-> | ->]; [constructor|].
  set (functions := extract_flamegraph_data titles).
  apply List.Forall_forall. intros r Hr.
  apply for_each_in in Hr as ([cat n] & Hin & Hline).
  apply (Permutation_in _ (sorted_desc_perm _ _)) in Hin.
  assert (Hpos : Forall (fun f : string * Q => 0 <= snd f) functions).
  { unfold functions, extract_flamegraph_data. destruct titles as [ts|]; [|constructor].
    destruct (function_times_from ts []) as (_ & Hp & _); [constructor|constructor|].
    eapply Permutation_Forall; [|exact Hp]. symmetry. apply sorted_desc_perm. }
  assert (Hvals : Forall (fun kv : string * Q => 0 <= snd kv) (category_totals functions))
    by (apply hotspot_totals_nonneg; [exact Hpos|constructor]).
  assert (Hn0 : 0 <= n).
  { rewrite List.Forall_forall in Hvals. apply (Hvals (cat, n) Hin). }
  assert (Hnt : n <= total_samples functions).
  { rewrite <- hotspot_totals_sum. apply sumQ_ge_elem.
    - apply List.Forall_forall. intros v Hv.
      apply in_map_iff in Hv as (kv & <- & Hkv).
      rewrite List.Forall_forall in Hvals. now apply Hvals.
    - apply in_map_iff. exists (cat, n). auto. }
  unfold category_line, percent_of, truediv in Hline.
  destruct (Qeq_bool (total_samples functions) 0) eqn:Hz; [discriminate|].
  cbn [bind] in Hline. injection Hline as <-. cbn [cat_pct cat_bar].
  assert (Ht : 0 < total_samples functions).
  { pose proof (Qle_trans _ _ _ Hn0 Hnt) as Hle.
    apply Qle_lt_or_eq in Hle as [Hlt|Heq]; [exact Hlt|].
    apply Qeq_bool_neq in Hz. symmetry in Heq. contradiction. }
  destruct (percent_bounds n (total_samples functions) Hn0 Hnt Ht) as [H1 H2].
  split; [exact H1|]. split; [exact H2|]. now apply bar_bounds.
Qed.

Lemma hotspots_main_bars_witness :
  exists total top rows found e,
    main true (Some [Some "main (3 samples, 75%)"; None; Some "lock (1 samples, 25%)"])
    = (Report total top rows found, e)
    /\ Forall (fun r => 0 <= cat_pct r /\ cat_pct r <= 100
                        /\ (0 <= cat_bar r <= 50)%Z) rows.
Proof.
  eexists _, _, _, _, _. split; [vm_compute; reflexivity|].
  eapply (hotspots_main_bars true
            (Some [Some "main (3 samples, 75%)"; None; Some "lock (1 samples, 25%)"])).
  vm_compute. reflexivity.
Defined.

End HotspotBars.
